(** * npm-helper-mcp: the request-gating, shaping and dispatch layer of
    [src/index.ts], embedded shallowly and checked against its
    specification.

    Conventions of the embedding.
    - Wall-clock readings ([Date.now()]) are integers (milliseconds), [Z].
    - [RateLimiter.rateLimit] is [1000 / requestsPerSecond], kept as an exact
      rational; for the only value the program constructs
      ([new RateLimiter(2)]) this is exactly the double [500].
    - A JavaScript string all of whose code units are below 256 is the
      [string] of those code units, one character each, so that
      [String.length] is [.length]; text with other characters is outside
      the embedding.  The one literal of the program with such characters,
      the package emoji, stands as the bytes of its UTF-8 encoding; it is
      only ever concatenated, never measured or cut.
    - A Number that is a safe integer is [JNum]; every other Number
      (a fraction, or an integer beyond [2^53 - 1] such as [1e21]) is
      [JFrac] with the text JavaScript prints for it.
    - A JavaScript object is the list of its own enumerable properties in
      enumeration order; for the keys met here (field names, semver
      strings, none of them an array index) that is insertion order.
    - An [async] body is a program that returns, throws or awaits a call
      answered by the outside world; a run of it records the calls it made.
    - The logger, [logMemoryUsage] and the other memory probes write to
      stderr or hint the collector under a [try]; nothing they return is
      read, and they are left out. *)

From Stdlib Require Import ZArith QArith Qround Lqa Lia List Bool String Ascii DecimalString.
Import ListNotations.

#[local] Set Warnings "-register-all".


Local Open Scope Z_scope.

(* ===================================================================== *)
(** * RateLimiter (src/index.ts, class RateLimiter) *)
(* ===================================================================== *)

Module RateLimiter.

(** A queued [resolve] callback; the number names the [acquire()] call that
    created it. *)
Definition Waiter := nat.

(** The private fields of the class. *)
Record t := mk {
  rateLimit : Q;
  queue : list Waiter;
  lastRequestTime : Z
}.

(** [constructor(requestsPerSecond = 2)]. *)
Definition new (requestsPerSecond : Q) : t :=
  {| rateLimit := 1000 / requestsPerSecond; queue := []; lastRequestTime := 0 |}.

Definition default_requestsPerSecond : Q := 2.

(** A pending [setTimeout(() => this.processQueue(), delay)]. *)
Record Timer := mkTimer { set_at : Z; delay : Q }.

(** The limiter together with what surrounds it in the event loop: the
    timers it has armed and the record of the callbacks it has called
    ([next()]), each with the clock reading of the call. *)
Record World := mkWorld {
  limiter : t;
  timers : list Timer;
  resolved : list (Waiter * Z)
}.

Definition init (requestsPerSecond : Q) : World :=
  {| limiter := new requestsPerSecond; timers := []; resolved := [] |}.

(** [processQueue()], run when the clock reads [now]. *)
Definition processQueue (now : Z) (w : World) : World :=
  let l := limiter w in
  match queue l with
  | [] => w
  | next :: rest =>
      let timeSinceLastRequest := now - lastRequestTime l in
      if Qle_bool (rateLimit l) (inject_Z timeSinceLastRequest) then
        {| limiter := {| rateLimit := rateLimit l; queue := rest; lastRequestTime := now |};
           timers := timers w;
           resolved := resolved w ++ [(next, now)] |}
      else
        {| limiter := l;
           timers := timers w ++
                     [ {| set_at := now;
                          delay := rateLimit l - inject_Z timeSinceLastRequest |} ];
           resolved := resolved w |}
  end.

(** [acquire()]: the executor pushes [resolve] and calls [processQueue]. *)
Definition acquire (now : Z) (resolve : Waiter) (w : World) : World :=
  let l := limiter w in
  processQueue now
    {| limiter := {| rateLimit := rateLimit l; queue := queue l ++ [resolve];
                     lastRequestTime := lastRequestTime l |};
       timers := timers w;
       resolved := resolved w |}.

(** What can happen to the limiter: a caller calls [acquire()], or one of
    the armed timers runs its callback.  The event carries the clock
    reading at that moment; nothing is assumed about it, so a timer that
    fires early or late, or a clock that is set back, is covered. *)
Inductive event :=
| Acquire (now : Z) (resolve : Waiter)
| Fire (now : Z) (i : nat).

Fixpoint remove_nth {A} (i : nat) (l : list A) : list A :=
  match l, i with
  | [], _ => []
  | _ :: tl, O => tl
  | x :: tl, S j => x :: remove_nth j tl
  end.

Definition step (w : World) (e : event) : option World :=
  match e with
  | Acquire now r => Some (acquire now r w)
  | Fire now i =>
      match nth_error (timers w) i with
      | None => None
      | Some _ =>
          Some (processQueue now
                  {| limiter := limiter w;
                     timers := remove_nth i (timers w);
                     resolved := resolved w |})
      end
  end.

Fixpoint run (evs : list event) (w : World) : option World :=
  match evs with
  | [] => Some w
  | e :: tl => match step w e with
               | Some w' => run tl w'
               | None => None
               end
  end.

(** The [resolve] callbacks in the order the [acquire()] calls were made. *)
Fixpoint acquired (evs : list event) : list Waiter :=
  match evs with
  | [] => []
  | Acquire _ r :: tl => r :: acquired tl
  | Fire _ _ :: tl => acquired tl
  end.

End RateLimiter.

(* ===================================================================== *)
(** * JavaScript values, errors and the built-ins the program calls *)
(* ===================================================================== *)

Local Open Scope string_scope.

Module JS.

(** What [JSON.parse] can return, plus [undefined] and host objects such as
    [process.stderr].  A number is either a safe integer ([JNum z] with
    [safe_integer z]) or any other number, carried with the text JavaScript
    prints for it ([JFrac]): [0.3333], or [1e+21] for an integer that
    large. *)
Inductive JsValue :=
| JUndefined
| JNull
| JBool (b : bool)
| JNum (z : Z)
| JFrac (repr : string)
| JStr (s : string)
| JArr (items : list JsValue)
| JObj (props : list (string * JsValue))
| JHost (name : string).

Definition Props := list (string * JsValue).

(** [ErrorCode] of the MCP SDK, as far as the program uses it. *)
Inductive ErrorCode := InvalidParams | MethodNotFound.

(** The exceptions that occur: [TypeError] raised by the engine, [Error]
    raised by [throw new Error(...)], and the SDK's [McpError]. *)
Inductive JsError :=
| TypeError (message : string)
| Error (message : string)
| McpError (code : ErrorCode) (message : string).

(** [error instanceof Error ? error.message : String(error)]: every
    exception above is an [Error]; [McpError] prefixes its message. *)
Definition ErrorCode_number (c : ErrorCode) : Z :=
  match c with InvalidParams => -32602 | MethodNotFound => -32601 end.

(** [Number.isSafeInteger]: the integers that are Numbers and that
    JavaScript prints digit by digit. *)
Definition MAX_SAFE_INTEGER : Z := 9007199254740991.

Definition safe_integer (z : Z) : bool := (Z.abs z <=? MAX_SAFE_INTEGER)%Z.

(** [Number.prototype.toString] on a safe integer: its decimal digits.
    (Beyond the safe range JavaScript prints the shortest digits that
    round to the Number, in exponent notation from [1e21] on; those
    Numbers are [JFrac], and the statements that print a number coming
    from outside ask for [safe_integer].) *)
Definition Number_toString (z : Z) : string :=
  DecimalString.NilZero.string_of_int (Z.to_int z).

Definition error_message (e : JsError) : string :=
  match e with
  | TypeError m => m
  | Error m => m
  | McpError c m => "MCP error " ++ Number_toString (ErrorCode_number c) ++ ": " ++ m
  end.

Definition instanceof_McpError (e : JsError) : bool :=
  match e with McpError _ _ => true | _ => false end.

(** Outcome of a synchronous expression: a value or a thrown exception. *)
Inductive Result (A : Type) :=
| Ok (a : A)
| Throw (e : JsError).
Arguments Ok {A} a.
Arguments Throw {A} e.

Definition Result_bind {A B} (r : Result A) (k : A -> Result B) : Result B :=
  match r with
  | Ok a => k a
  | Throw e => Throw e
  end.

Notation "'letR' x ':=' e 'in' k" := (Result_bind e (fun x => k))
  (at level 10, x name, e at level 100, k at level 200).

Fixpoint mapR {A B} (f : A -> Result B) (l : list A) : Result (list B) :=
  match l with
  | [] => Ok []
  | x :: tl =>
      letR y := f x in
      letR ys := mapR f tl in
      Ok (y :: ys)
  end.

(** ToBoolean. *)
Definition truthy (v : JsValue) : bool :=
  match v with
  | JUndefined | JNull => false
  | JBool b => b
  | JNum z => negb (z =? 0)%Z
  | JStr s => negb (String.eqb s EmptyString)
  | JFrac _ | JArr _ | JObj _ | JHost _ => true
  end.

Definition nullish (v : JsValue) : bool :=
  match v with
  | JUndefined | JNull => true
  | _ => false
  end.

(** Own-property lookup; an absent property reads as [undefined]. *)
Fixpoint field (k : string) (o : Props) : JsValue :=
  match o with
  | [] => JUndefined
  | (k', v) :: tl => if String.eqb k k' then v else field k tl
  end.

Fixpoint has_own (k : string) (o : Props) : bool :=
  match o with
  | [] => false
  | (k', _) :: tl => String.eqb k k' || has_own k tl
  end.

(** [o[k] = v]: an existing property keeps its place, a new one goes last. *)
Fixpoint set_prop (k : string) (v : JsValue) (o : Props) : Props :=
  match o with
  | [] => [(k, v)]
  | (k', v') :: tl =>
      if String.eqb k k' then (k', v) :: tl else (k', v') :: set_prop k v tl
  end.

(** [{ ...o, ...src }]: the properties of [src] are set one after another. *)
Definition spread (o src : Props) : Props :=
  fold_left (fun acc kv => set_prop (fst kv) (snd kv) acc) src o.

(** [Object.fromEntries(entries)]. *)
Definition Object_fromEntries (entries : Props) : Props := spread [] entries.

Definition index_keys (n : nat) : list string :=
  map (fun i => Number_toString (Z.of_nat i)) (seq 0 n).

Fixpoint chars (s : string) : list string :=
  match s with
  | EmptyString => []
  | String c tl => String c EmptyString :: chars tl
  end.

Definition TypeError_nullish_to_object : JsError :=
  TypeError "Cannot convert undefined or null to object".

(** [Object.entries(v)]. *)
Definition Object_entries (v : JsValue) : Result Props :=
  match v with
  | JUndefined | JNull => Throw TypeError_nullish_to_object
  | JObj o => Ok o
  | JArr l => Ok (combine (index_keys (List.length l)) l)
  | JStr s => Ok (combine (index_keys (String.length s)) (map JStr (chars s)))
  | JBool _ | JNum _ | JFrac _ | JHost _ => Ok []
  end.

(** [Object.keys(v)]. *)
Definition Object_keys (v : JsValue) : Result (list string) :=
  letR es := Object_entries v in Ok (map fst es).

(** [Object.values(v)]. *)
Definition Object_values (v : JsValue) : Result (list JsValue) :=
  letR es := Object_entries v in Ok (map snd es).

Definition describe_nullish (v : JsValue) : string :=
  match v with JNull => "null" | _ => "undefined" end.

(** [v.k] for a data property [k] (not a method). *)
Definition get (v : JsValue) (k : string) : Result JsValue :=
  match v with
  | JUndefined | JNull =>
      Throw (TypeError ("Cannot read properties of " ++ describe_nullish v ++
                        " (reading '" ++ k ++ "')"))
  | JObj o => Ok (field k o)
  | JArr l =>
      if String.eqb k "length" then Ok (JNum (Z.of_nat (List.length l)))
      else Ok (field k (combine (index_keys (List.length l)) l))
  | JStr s =>
      if String.eqb k "length" then Ok (JNum (Z.of_nat (String.length s)))
      else Ok (field k (combine (index_keys (String.length s)) (map JStr (chars s))))
  | JBool _ | JNum _ | JFrac _ | JHost _ => Ok JUndefined
  end.

(** [v?.k]. *)
Definition get_opt (v : JsValue) (k : string) : Result JsValue :=
  if nullish v then Ok JUndefined else get v k.

(** [Array.prototype.join] on strings. *)
Definition join (sep : string) (l : list string) : string := String.concat sep l.

(** ToString, as a template literal applies it.  An object that carries an
    own, non-callable [toString] has no primitive value. *)
Fixpoint ToString (v : JsValue) : Result string :=
  match v with
  | JUndefined => Ok "undefined"
  | JNull => Ok "null"
  | JBool true => Ok "true"
  | JBool false => Ok "false"
  | JNum z => Ok (Number_toString z)
  | JFrac s => Ok s
  | JStr s => Ok s
  | JArr items =>
      letR parts :=
        (fix elements (l : list JsValue) : Result (list string) :=
           match l with
           | [] => Ok []
           | x :: tl =>
               letR s := (if nullish x then Ok EmptyString else ToString x) in
               letR r := elements tl in
               Ok (s :: r)
           end) items in
      Ok (join "," parts)
  | JObj o =>
      if has_own "toString" o
      then Throw (TypeError "Cannot convert object to primitive value")
      else Ok "[object Object]"
  | JHost _ => Ok "[object Object]"
  end.

(** ToPrimitive, as [new Date(v)] applies it to its argument.  For what
    [JSON.parse] returns, an array or an object is turned into the string
    [ToString] gives, and has no primitive value where that throws. *)
Definition ToPrimitive (v : JsValue) : Result JsValue :=
  match v with
  | JArr _ | JObj _ | JHost _ => letR s := ToString v in Ok (JStr s)
  | _ => Ok v
  end.

(** [v?.toString()]; [what] is the text of the callee up to [.toString],
    which the engine quotes when that is not a function. *)
Definition toString_opt (what : string) (v : JsValue) : Result JsValue :=
  match v with
  | JUndefined | JNull => Ok JUndefined
  | JObj o =>
      if has_own "toString" o
      then Throw (TypeError (what ++ ".toString is not a function"))
      else Ok (JStr "[object Object]")
  | _ => letR s := ToString v in Ok (JStr s)
  end.

(** Relative index of [slice]: negative counts from the end, and the
    result is clamped to [0 .. len]. *)
Definition relative_index (len : nat) (i : Z) : nat :=
  if (i <? 0)%Z then Z.to_nat (Z.max (Z.of_nat len + i) 0)
  else Z.to_nat (Z.min i (Z.of_nat len)).

(** [l.slice(start)] and [l.slice(start, end)]. *)
Definition slice_from {A} (start : Z) (l : list A) : list A :=
  skipn (relative_index (List.length l) start) l.

Definition slice {A} (start stop : Z) (l : list A) : list A :=
  let from := relative_index (List.length l) start in
  let to := relative_index (List.length l) stop in
  firstn (to - from) (skipn from l).

(** [s.substring(start, end)]: both ends clamped to [0 .. length] and
    swapped when out of order. *)
Definition substring (start stop : Z) (s : string) : string :=
  let clamp i := Z.to_nat (Z.min (Z.max i 0) (Z.of_nat (String.length s))) in
  let a := clamp start in
  let b := clamp stop in
  String.substring (Nat.min a b) (Nat.max a b - Nat.min a b) s.

(** White space of [trim] among the code units below 256. *)
Definition is_white_space (c : ascii) : bool :=
  let n := nat_of_ascii c in
  (Nat.leb 9 n && Nat.leb n 13) || Nat.eqb n 32 || Nat.eqb n 160.

Fixpoint trimStart (s : string) : string :=
  match s with
  | EmptyString => EmptyString
  | String c tl => if is_white_space c then trimStart tl else s
  end.

Fixpoint trimEnd (s : string) : string :=
  match s with
  | EmptyString => EmptyString
  | String c tl =>
      match trimEnd tl with
      | EmptyString => if is_white_space c then EmptyString else String c EmptyString
      | rest => String c rest
      end
  end.

Definition trim (s : string) : string := trimEnd (trimStart s).

End JS.

Import JS.

(** The two characters that cannot be written inside a literal. *)
Definition nl : string := String (ascii_of_nat 10) EmptyString.
Definition dquote : string := String (ascii_of_nat 34) EmptyString.

(* ===================================================================== *)
(** * Asynchronous code: programs that await the outside world *)
(* ===================================================================== *)

(** [Response], as far as the program reads it before the body. *)
Record Response := mkResponse { ok : bool; status : Z }.

(** The promises a handler awaits that are settled by the outside world.
    [fetch] is [fetchWithTimeout]'s call of [fetch] under its abort timer. *)
Inductive Call :=
| acquire
| fetch (url : string) (options : Props) (timeoutMs : Z)
| response_json (url : string)
| response_text (url : string)
| ncu_run (options : Props).

(** What the awaited promise settles with. *)
Definition Reply (c : Call) : Type :=
  match c with
  | acquire => unit
  | fetch _ _ _ => Result Response
  | response_json _ => Result JsValue
  | response_text _ => Result string
  | ncu_run _ => Result JsValue
  end.

(** An [async] function body: it returns, throws, awaits a call, or
    enters one of the handler methods. *)
Inductive Prog (A : Type) :=
| Return (a : A)
| Raise (e : JsError)
| Await (c : Call) (k : Reply c -> Prog A)
| Enter (method : string) (k : Prog A).
Arguments Return {A} a.
Arguments Raise {A} e.
Arguments Await {A} c k.
Arguments Enter {A} method k.

Fixpoint Prog_bind {A B} (p : Prog A) (f : A -> Prog B) : Prog B :=
  match p with
  | Return a => f a
  | Raise e => Raise e
  | Await c k => Await c (fun r => Prog_bind (k r) f)
  | Enter m k => Enter m (Prog_bind k f)
  end.

Notation "'letP' x ':=' e 'in' k" := (Prog_bind e (fun x => k))
  (at level 10, x name, e at level 100, k at level 200).

(** [try { p } catch (error) { handler error }]. *)
Fixpoint try_catch {A} (p : Prog A) (handler : JsError -> Prog A) : Prog A :=
  match p with
  | Return a => Return a
  | Raise e => handler e
  | Await c k => Await c (fun r => try_catch (k r) handler)
  | Enter m k => Enter m (try_catch k handler)
  end.

(** A synchronous expression inside an [async] body. *)
Definition lift {A} (r : Result A) : Prog A :=
  match r with
  | Ok a => Return a
  | Throw e => Raise e
  end.

(** [await] of a promise that may reject. *)
Definition await_call {A} (c : Call) (as_result : Reply c -> Result A) : Prog A :=
  Await c (fun r => lift (as_result r)).

(** The outside world: what the [n]-th awaited call of an invocation
    settles with; [None] when that promise never settles. *)
Definition Oracle := nat -> forall c : Call, option (Reply c).

(** What an observer of the invocation sees. *)
Inductive Observed :=
| Called (c : Call)
| Entered (method : string).

(** A run of a body: what it did, how many awaits completed, and how it
    settled ([None]: it never does). *)
Record Run (A : Type) := mkRun {
  trace : list Observed;
  awaits : nat;
  outcome : option (Result A)
}.
Arguments mkRun {A} trace awaits outcome.
Arguments trace {A} r.
Arguments awaits {A} r.
Arguments outcome {A} r.

Fixpoint exec {A} (world : Oracle) (n : nat) (p : Prog A) : Run A :=
  match p with
  | Return a => mkRun [] n (Some (Ok a))
  | Raise e => mkRun [] n (Some (Throw e))
  | Await c k =>
      match world n c with
      | None => mkRun [Called c] n None
      | Some r =>
          let rest := exec world (S n) (k r) in
          mkRun (Called c :: trace rest) (awaits rest) (outcome rest)
      end
  | Enter m k =>
      let rest := exec world n k in
      mkRun (Entered m :: trace rest) (awaits rest) (outcome rest)
  end.

(* ===================================================================== *)
(** * The host: Node, the libraries and the file system *)
(* ===================================================================== *)

(** Functions of the platform that the program calls and that are taken as
    given. *)
Record Host := mkHost {
  process_cwd : string;
  path_resolve : string -> string -> string;
  fs_existsSync : string -> bool;
  (** [encodeURIComponent(s)]; it throws on a lone surrogate only, which no
      string of code units below 256 holds *)
  encodeURIComponent : string -> string;
  (** [new Date(v).toLocaleDateString()] for a primitive [v] *)
  toLocaleDateString : JsValue -> string;
  (** [JSON.stringify(v, null, 2)] *)
  JSON_stringify : JsValue -> string;
  (** [cheerio.load(html)], [script, style, nav, header, footer] removed,
      then [$(selector).text()] *)
  cheerio_text : string -> string -> string;
  (** the test of [z.string().url()] *)
  is_url : string -> bool
}.

(* ===================================================================== *)
(** * Zod schemas of the tool inputs *)
(* ===================================================================== *)

Module Zod.

Inductive ZodType :=
| z_string
| z_string_url
| z_number
| z_boolean
| z_enum (options : list string)
| z_array_string (min : nat)
| z_optional (t : ZodType)
| z_default (t : ZodType) (d : JsValue).

Definition is_JStr (v : JsValue) : bool :=
  match v with JStr _ => true | _ => false end.

Fixpoint mem_string (s : string) (l : list string) : bool :=
  match l with
  | [] => false
  | x :: tl => String.eqb s x || mem_string s tl
  end.

Fixpoint parse (h : Host) (t : ZodType) (v : JsValue) : option JsValue :=
  match t with
  | z_string => if is_JStr v then Some v else None
  | z_string_url =>
      match v with
      | JStr s => if is_url h s then Some v else None
      | _ => None
      end
  | z_number =>
      match v with
      | JNum _ | JFrac _ => Some v
      | _ => None
      end
  | z_boolean =>
      match v with
      | JBool _ => Some v
      | _ => None
      end
  | z_enum options =>
      match v with
      | JStr s => if mem_string s options then Some v else None
      | _ => None
      end
  | z_array_string min =>
      match v with
      | JArr l =>
          if forallb is_JStr l && Nat.leb min (List.length l) then Some v else None
      | _ => None
      end
  | z_optional t' =>
      match v with
      | JUndefined => Some JUndefined
      | _ => parse h t' v
      end
  | z_default t' d =>
      match v with
      | JUndefined => parse h t' d
      | _ => parse h t' v
      end
  end.

(** [z.object(shape)]: unknown keys are stripped, the output lists the
    keys of the shape that have a value. *)
Fixpoint parse_shape (h : Host) (shape : list (string * ZodType)) (input : Props)
  : option Props :=
  match shape with
  | [] => Some []
  | (k, t) :: tl =>
      match parse h t (field k input), parse_shape h tl input with
      | Some JUndefined, Some rest => Some rest
      | Some v, Some rest => Some ((k, v) :: rest)
      | _, _ => None
      end
  end.

(** [schema.safeParse(args)]; [Some data] is [{ success: true, data }]. *)
Definition safeParse (h : Host) (shape : list (string * ZodType)) (args : JsValue)
  : option Props :=
  match args with
  | JObj input => parse_shape h shape input
  | _ => None
  end.

Definition PackageManagerEnum : ZodType :=
  z_enum ["npm"; "yarn"; "pnpm"; "deno"; "bun"; "staticRegistry"].
Definition NcuTargetEnum : ZodType :=
  z_enum ["latest"; "newest"; "greatest"; "minor"; "patch"; "semver"].

Definition SearchNpmSchema :=
  [("query", z_string); ("maxResults", z_default (z_optional z_number) (JNum 10))].
Definition FetchPackageContentSchema := [("url", z_string_url)].
Definition GetPackageVersionsSchema := [("packageName", z_string)].
Definition GetPackageDetailsSchema := [("packageName", z_string)].
Definition CheckUpdatesSchema :=
  [("packagePath", z_optional z_string);
   ("filter", z_optional (z_array_string 0));
   ("reject", z_optional (z_array_string 0));
   ("target", z_optional NcuTargetEnum);
   ("peer", z_optional z_boolean);
   ("minimal", z_optional z_boolean);
   ("packageManager", z_optional PackageManagerEnum)].
Definition UpgradePackagesSchema :=
  [("packagePath", z_optional z_string);
   ("upgradeType", z_optional NcuTargetEnum);
   ("peer", z_optional z_boolean);
   ("minimal", z_optional z_boolean);
   ("packageManager", z_optional PackageManagerEnum)].
Definition FilterUpdatesSchema :=
  [("packagePath", z_optional z_string);
   ("filter", z_array_string 1);
   ("upgrade", z_optional z_boolean);
   ("minimal", z_optional z_boolean);
   ("packageManager", z_optional PackageManagerEnum)].
Definition ResolveConflictsSchema :=
  [("packagePath", z_optional z_string);
   ("upgrade", z_optional z_boolean);
   ("minimal", z_optional z_boolean);
   ("packageManager", z_optional PackageManagerEnum)].
Definition SetVersionConstraintsSchema :=
  [("packagePath", z_optional z_string);
   ("target", NcuTargetEnum);
   ("removeRange", z_optional z_boolean);
   ("upgrade", z_optional z_boolean);
   ("minimal", z_optional z_boolean);
   ("packageManager", z_optional PackageManagerEnum)].
Definition RunDoctorSchema :=
  [("packagePath", z_optional z_string);
   ("doctorInstall", z_optional z_string);
   ("doctorTest", z_optional z_string);
   ("packageManager", z_optional PackageManagerEnum)].

End Zod.

(* ===================================================================== *)
(** * NpmSearcher *)
(* ===================================================================== *)

Module NpmSearcher.

Record NpmPackageInfo := mkInfo {
  name : JsValue;
  version : JsValue;
  description : JsValue;
  author : JsValue;
  homepage : JsValue;
  repository : JsValue;
  keywords : JsValue;
  lastPublish : string;
  weeklyDownloads : JsValue
}.

Record NpmSearchResult := mkSearchResult {
  packages : list NpmPackageInfo;
  totalResults : JsValue
}.

Definition REGISTRY_URL : string := "https://registry.npmjs.org".
Definition WEBSITE_URL : string := "https://www.npmjs.com".
Definition HEADERS : JsValue :=
  JObj [("User-Agent",
         JStr "Mozilla/5.0 (Windows NT 10.0; Win64; x64) AppleWebKit/537.36 (KHTML, like Gecko) Chrome/91.0.4472.124 Safari/537.36")].

(** [fetchWithTimeout(url, options, timeoutMs)]: both branches of its
    [try] clear the abort timer and pass the outcome of [fetch] on. *)
Definition fetchWithTimeout (url : string) (options : Props) (timeoutMs : Z)
  : Prog Response :=
  await_call (fetch url options timeoutMs) (fun r => r).

(** [if (!response.ok) throw new Error(`HTTP error! Status: ...`)]. *)
Definition check_ok (response : Response) : Prog unit :=
  if negb (ok response)
  then Raise (Error ("HTTP error! Status: " ++ Number_toString (status response)))
  else Return tt.

(** [v.map(...)] for a value that came out of a payload: only an array has
    a [map] method. *)
Definition Array_of (what : string) (v : JsValue) : Result (list JsValue) :=
  match v with
  | JArr l => Ok l
  | JUndefined | JNull =>
      Throw (TypeError ("Cannot read properties of " ++ describe_nullish v ++
                        " (reading 'map')"))
  | _ => Throw (TypeError (what ++ ".map is not a function"))
  end.

Section WithHost.
Variable h : Host.

(** The arrow function given to [data.objects.map] in [searchPackages]. *)
Definition searchPackages_map (obj : JsValue) : Result NpmPackageInfo :=
  letR package := get obj "package" in
  letR name := get package "name" in
  letR version := get package "version" in
  letR description := get package "description" in
  letR author := get package "author" in
  letR author_name := get_opt author "name" in
  letR links := get package "links" in
  letR homepage := get_opt links "homepage" in
  letR repository := get_opt links "repository" in
  letR keywords := get package "keywords" in
  letR score := get obj "score" in
  letR detail := get_opt score "detail" in
  letR maintenance := get_opt detail "maintenance" in
  letR weeklyDownloads := toString_opt "obj.score?.detail?.maintenance?" maintenance in
  letR date := get package "date" in
  letR date_value := ToPrimitive date in
  Ok {| name := name;
        version := version;
        description := description;
        author := author_name;
        homepage := homepage;
        repository := repository;
        keywords := if truthy keywords then keywords else JArr [];
        weeklyDownloads := weeklyDownloads;
        lastPublish := toLocaleDateString h date_value |}.

(** [searchPackages], from [data] to the returned record. *)
Definition searchPackages_shape (data : JsValue) : Result NpmSearchResult :=
  letR objects := get data "objects" in
  letR objs := Array_of "data.objects" objects in
  letR packages := mapR searchPackages_map objs in
  letR total := get data "total" in
  Ok {| packages := packages; totalResults := total |}.

Definition searchPackages (args : Props) : Prog NpmSearchResult :=
  Enter "NpmSearcher.searchPackages"
    (let query := field "query" args in
     let maxResults := field "maxResults" args in
     try_catch
       (letP _ := Await acquire Return in
        letP q := lift (ToString query) in
        letP size := lift (ToString maxResults) in
        let searchUrl :=
          REGISTRY_URL ++ "/-/v1/search?text=" ++ encodeURIComponent h q ++
          "&size=" ++ size in
        letP response := fetchWithTimeout searchUrl [("headers", HEADERS)] 15000 in
        letP _ := check_ok response in
        letP data := await_call (response_json searchUrl) (fun r => r) in
        lift (searchPackages_shape data))
       (fun error =>
          Raise (Error ("Error searching npm packages: " ++ error_message error)))).

Definition README_LIMIT : Z := 4000.
Definition README_TRUNCATED : string := "..." ++ nl ++ "[README content truncated]".

(** The [README] part of [fetchPackageContent]. *)
Definition readme_body (readme : string) : string :=
  if (README_LIMIT <? Z.of_nat (String.length readme))%Z
  then substring 0 README_LIMIT readme ++ README_TRUNCATED
  else readme.

(** [fetchPackageContent], from [html] to the returned text. *)
Definition fetchPackageContent_shape (html : string) : string :=
  let text selector := trim (cheerio_text h html selector) in
  let content := EmptyString in
  let packageName := text "#top h1" in
  let packageVersion := text ("[data-testid=" ++ dquote ++ "version-badge" ++ dquote ++ "]") in
  let description := text "#package-description" in
  let readme := text "#readme" in
  let content :=
    if truthy (JStr packageName) then content ++ "Package: " ++ packageName ++ nl
    else content in
  let content :=
    if truthy (JStr packageVersion) then content ++ "Version: " ++ packageVersion ++ nl
    else content in
  let content :=
    if truthy (JStr description) then content ++ "Description: " ++ description ++ nl ++ nl
    else content in
  let content :=
    if truthy (JStr readme) then content ++ "README:" ++ nl ++ readme_body readme
    else content in
  if truthy (JStr content) then content else "No extractable content found.".

Definition fetchPackageContent (args : Props) : Prog string :=
  Enter "NpmSearcher.fetchPackageContent"
    (let url := field "url" args in
     try_catch
       (letP _ := Await acquire Return in
        letP u := lift (ToString url) in
        letP response :=
          fetchWithTimeout u [("headers", HEADERS); ("redirect", JStr "follow")] 20000 in
        letP _ := check_ok response in
        letP html := await_call (response_text u) (fun r => r) in
        Return (fetchPackageContent_shape html))
       (fun error =>
          Raise (Error ("Error fetching package content: " ++ error_message error)))).

(** [getPackageVersions], from [data] to the returned list. *)
Definition getPackageVersions_shape (data : JsValue) : Result (list string) :=
  letR versions := get data "versions" in
  letR keys := Object_keys versions in
  Ok (rev keys).

Definition getPackageVersions (args : Props) : Prog (list string) :=
  Enter "NpmSearcher.getPackageVersions"
    (let packageName := field "packageName" args in
     try_catch
       (letP _ := Await acquire Return in
        letP pn := lift (ToString packageName) in
        let url := REGISTRY_URL ++ "/" ++ pn in
        letP response := fetchWithTimeout url [("headers", HEADERS)] 15000 in
        letP _ := check_ok response in
        letP data := await_call (response_json url) (fun r => r) in
        lift (getPackageVersions_shape data))
       (fun error =>
          Raise (Error ("Error fetching package versions: " ++ error_message error)))).

(** The arrow function given to [.map] in [getPackageDetails]. *)
Definition getPackageDetails_map (entry : string * JsValue) : Result (string * JsValue) :=
  let (version, details) := entry in
  letR name := get details "name" in
  letR version' := get details "version" in
  letR description := get details "description" in
  letR main := get details "main" in
  letR dependencies := get details "dependencies" in
  letR devDependencies := get details "devDependencies" in
  letR peerDependencies := get details "peerDependencies" in
  Ok (version,
      JObj [("name", name);
            ("version", version');
            ("description", description);
            ("main", main);
            ("dependencies", dependencies);
            ("devDependencies", devDependencies);
            ("peerDependencies", peerDependencies)]).

(** [!['created', 'modified'].includes(key)]. *)
Definition other_timestamp (entry : string * JsValue) : bool :=
  negb (Zod.mem_string (fst entry) ["created"; "modified"]).

(** The [time] property of [processedData]. *)
Definition getPackageDetails_time (time : JsValue) : Result JsValue :=
  if truthy time then
    letR created := get time "created" in
    letR modified := get time "modified" in
    letR entries := Object_entries time in
    Ok (JObj (spread [("created", created); ("modified", modified)]
                (Object_fromEntries (slice_from (-10) (filter other_timestamp entries)))))
  else Ok JUndefined.

(** [getPackageDetails], from [data] to [processedData]. *)
Definition getPackageDetails_shape (data : JsValue) : Result JsValue :=
  letR name := get data "name" in
  letR description := get data "description" in
  letR dist_tags := get data "dist-tags" in
  letR maintainers := get data "maintainers" in
  letR homepage := get data "homepage" in
  letR repository := get data "repository" in
  letR license := get data "license" in
  letR versions := get data "versions" in
  letR entries := Object_entries versions in
  letR kept := mapR getPackageDetails_map (slice_from (-10) entries) in
  letR time := get data "time" in
  letR time' := getPackageDetails_time time in
  Ok (JObj [("name", name);
            ("description", description);
            ("dist-tags", dist_tags);
            ("maintainers", maintainers);
            ("homepage", homepage);
            ("repository", repository);
            ("license", license);
            ("versions", JObj (Object_fromEntries kept));
            ("time", time')]).

Definition getPackageDetails (args : Props) : Prog JsValue :=
  Enter "NpmSearcher.getPackageDetails"
    (let packageName := field "packageName" args in
     try_catch
       (letP _ := Await acquire Return in
        letP pn := lift (ToString packageName) in
        let url := REGISTRY_URL ++ "/" ++ pn in
        letP response := fetchWithTimeout url [("headers", HEADERS)] 20000 in
        letP _ := check_ok response in
        letP data := await_call (response_json url) (fun r => r) in
        lift (getPackageDetails_shape data))
       (fun error =>
          Raise (Error ("Error fetching package details: " ++ error_message error)))).

End WithHost.

Definition package_emoji : string := "📦".

(** The body of the [forEach] in [formatSearchResults]: what one package
    adds to [output]. *)
Definition formatSearchResults_entry (pkg : NpmPackageInfo) : Result string :=
  letR n := ToString (name pkg) in
  letR v := ToString (version pkg) in
  let output := package_emoji ++ " " ++ n ++ "@" ++ v ++ nl in
  letR output :=
    (if truthy (description pkg)
     then letR d := ToString (description pkg) in
          Ok (output ++ "   Description: " ++ d ++ nl)
     else Ok output) in
  letR output :=
    (if truthy (author pkg)
     then letR a := ToString (author pkg) in
          Ok (output ++ "   Author: " ++ a ++ nl)
     else Ok output) in
  Ok (output ++ nl).

Definition formatSearchResults (results : NpmSearchResult) : Result string :=
  if Nat.eqb (List.length (packages results)) 0 then Ok "No packages found."
  else
    letR total := ToString (totalResults results) in
    let output :=
      "Found " ++ total ++ " packages (showing " ++
      Number_toString (Z.of_nat (List.length (packages results))) ++ "):" ++ nl ++ nl in
    fold_left
      (fun acc pkg =>
         letR output := acc in
         letR entry := formatSearchResults_entry pkg in
         Ok (output ++ entry))
      (packages results) (Ok output).

Definition formatVersions (packageName : string) (versions : list string) : string :=
  if Nat.eqb (List.length versions) 0
  then "No versions found for " ++ packageName ++ "."
  else
    let output :=
      package_emoji ++ " " ++ packageName ++ nl ++
      "Available versions (newest first):" ++ nl in
    let output := output ++ join ", " (slice 0 15 versions) in
    if (15 <? Z.of_nat (List.length versions))%Z
    then output ++ nl ++ "...and " ++
         Number_toString (Z.of_nat (List.length versions) - 15) ++ " more versions"
    else output.

End NpmSearcher.

(* ===================================================================== *)
(** * NpmCheckUpdatesHandler *)
(* ===================================================================== *)

Module NpmCheckUpdatesHandler.

(** What every method returns: [{ data, message }]. *)
Record Outcome := mkOutcome { data : JsValue; message : string }.

(** [if (options.k) ncuBaseOptions.k' = options.k]. *)
Definition copy_if (k k' : string) (options o : Props) : Props :=
  if truthy (field k options) then set_prop k' (field k options) o else o.

(** [if (options.k) ncuBaseOptions.k = true]. *)
Definition flag_if (k : string) (options o : Props) : Props :=
  if truthy (field k options) then set_prop k (JBool true) o else o.

(** [Object.keys(result).length]. *)
Definition count_keys (result : JsValue) : Result Z :=
  letR keys := Object_keys result in Ok (Z.of_nat (List.length keys)).

(** [typeof v === 'object']. *)
Definition typeof_object (v : JsValue) : bool :=
  match v with
  | JNull | JArr _ | JObj _ | JHost _ => true
  | _ => false
  end.

Definition strict_true (v : JsValue) : bool :=
  match v with JBool true => true | _ => false end.

Section WithHost.
Variable h : Host.

Definition resolvePackagePath (packagePath : JsValue) : Result string :=
  let p := if truthy packagePath then packagePath else JStr "package.json" in
  match p with
  | JStr p' =>
      let resolvedPath := path_resolve h (process_cwd h) p' in
      if negb (fs_existsSync h resolvedPath)
      then Throw (Error ("Package file not found: " ++ resolvedPath))
      else Ok resolvedPath
  | _ => Throw (TypeError "The paths[1] argument must be of type string")
  end.

Definition runNcu (baseOptions : Props) : Prog JsValue :=
  let ncuOptions :=
    spread (spread [] baseOptions)
      [("jsonUpgraded", JBool true);
       ("silent", JBool true);
       ("stdout", JHost "process.stderr");
       ("stderr", JHost "process.stderr");
       ("loglevel", JStr "silent");
       ("json", JBool true)] in
  try_catch
    (letP r := await_call (ncu_run ncuOptions) (fun r => r) in
     Return (if truthy r then r else JObj []))
    (fun error =>
       Raise (Error ("NCU execution failed: " ++ error_message error))).

Definition checkUpdates (options : Props) : Prog Outcome :=
  Enter "NpmCheckUpdatesHandler.checkUpdates"
    (letP packageFile := lift (resolvePackagePath (field "packagePath" options)) in
     let ncuBaseOptions := [("packageFile", JStr packageFile)] in
     let ncuBaseOptions := copy_if "filter" "filter" options ncuBaseOptions in
     let ncuBaseOptions := copy_if "reject" "reject" options ncuBaseOptions in
     let ncuBaseOptions := copy_if "target" "target" options ncuBaseOptions in
     let ncuBaseOptions := flag_if "peer" options ncuBaseOptions in
     let ncuBaseOptions := flag_if "minimal" options ncuBaseOptions in
     let ncuBaseOptions := copy_if "packageManager" "packageManager" options ncuBaseOptions in
     letP result := runNcu ncuBaseOptions in
     letP numUpdates := lift (count_keys result) in
     Return {| data := result;
               message :=
                 if (0 <? numUpdates)%Z
                 then "Found " ++ Number_toString numUpdates ++ " outdated dependencies."
                 else "All dependencies are up-to-date." |}).

Definition upgradePackages (options : Props) : Prog Outcome :=
  Enter "NpmCheckUpdatesHandler.upgradePackages"
    (letP packageFile := lift (resolvePackagePath (field "packagePath" options)) in
     let ncuBaseOptions := [("packageFile", JStr packageFile); ("upgrade", JBool true)] in
     let ncuBaseOptions := copy_if "upgradeType" "target" options ncuBaseOptions in
     let ncuBaseOptions := flag_if "peer" options ncuBaseOptions in
     let ncuBaseOptions := flag_if "minimal" options ncuBaseOptions in
     let ncuBaseOptions := copy_if "packageManager" "packageManager" options ncuBaseOptions in
     letP result := runNcu ncuBaseOptions in
     letP numUpgraded := lift (count_keys result) in
     Return {| data := result;
               message :=
                 if (0 <? numUpgraded)%Z
                 then "Upgraded " ++ Number_toString numUpgraded ++ " dependencies."
                 else "No dependencies needed upgrading or were upgraded." |}).

Definition filterUpdates (options : Props) : Prog Outcome :=
  Enter "NpmCheckUpdatesHandler.filterUpdates"
    (letP packageFile := lift (resolvePackagePath (field "packagePath" options)) in
     let ncuBaseOptions :=
       [("packageFile", JStr packageFile); ("filter", field "filter" options)] in
     let ncuBaseOptions := flag_if "upgrade" options ncuBaseOptions in
     let ncuBaseOptions := flag_if "minimal" options ncuBaseOptions in
     let ncuBaseOptions := copy_if "packageManager" "packageManager" options ncuBaseOptions in
     letP result := runNcu ncuBaseOptions in
     letP numFound := lift (count_keys result) in
     Return {| data := result;
               message :=
                 if (0 <? numFound)%Z
                 then "Found " ++ Number_toString numFound ++ " filtered dependencies " ++
                      (if truthy (field "upgrade" options)
                       then "and upgraded them." else "with available updates.")
                 else "No updates found for the filtered dependencies." |}).

Definition resolveConflicts (options : Props) : Prog Outcome :=
  Enter "NpmCheckUpdatesHandler.resolveConflicts"
    (letP packageFile := lift (resolvePackagePath (field "packagePath" options)) in
     let ncuBaseOptions := [("packageFile", JStr packageFile); ("peer", JBool true)] in
     let ncuBaseOptions := flag_if "upgrade" options ncuBaseOptions in
     let ncuBaseOptions := flag_if "minimal" options ncuBaseOptions in
     let ncuBaseOptions := copy_if "packageManager" "packageManager" options ncuBaseOptions in
     letP result := runNcu ncuBaseOptions in
     letP numResolved := lift (count_keys result) in
     Return {| data := result;
               message :=
                 if (0 <? numResolved)%Z
                 then "Attempted to resolve conflicts for " ++ Number_toString numResolved ++
                      " dependencies using the 'peer' strategy " ++
                      (if truthy (field "upgrade" options)
                       then "and applied changes." else ".")
                 else "No conflicts found or resolved based on peer strategy." |}).

Definition setVersionConstraints (options : Props) : Prog Outcome :=
  Enter "NpmCheckUpdatesHandler.setVersionConstraints"
    (letP packageFile := lift (resolvePackagePath (field "packagePath" options)) in
     let ncuBaseOptions :=
       [("packageFile", JStr packageFile); ("target", field "target" options)] in
     let ncuBaseOptions := flag_if "removeRange" options ncuBaseOptions in
     let ncuBaseOptions := flag_if "upgrade" options ncuBaseOptions in
     let ncuBaseOptions := flag_if "minimal" options ncuBaseOptions in
     let ncuBaseOptions := copy_if "packageManager" "packageManager" options ncuBaseOptions in
     letP result := runNcu ncuBaseOptions in
     letP numChanged := lift (count_keys result) in
     Return {| data := result;
               message :=
                 if (0 <? numChanged)%Z
                 then "Applied version constraints to " ++ Number_toString numChanged ++
                      " dependencies " ++
                      (if truthy (field "upgrade" options)
                       then "and updated package.json." else " (dry run).")
                 else "No dependencies required changes based on the version constraints." |}).

Definition runDoctor (options : Props) : Prog Outcome :=
  Enter "NpmCheckUpdatesHandler.runDoctor"
    (letP packageFile := lift (resolvePackagePath (field "packagePath" options)) in
     let ncuBaseOptions :=
       [("packageFile", JStr packageFile); ("doctor", JBool true); ("upgrade", JBool true)] in
     let ncuBaseOptions := copy_if "doctorInstall" "doctorInstall" options ncuBaseOptions in
     let ncuBaseOptions := copy_if "doctorTest" "doctorTest" options ncuBaseOptions in
     let ncuBaseOptions := copy_if "packageManager" "packageManager" options ncuBaseOptions in
     letP result := runNcu ncuBaseOptions in
     letP empty :=
       lift (if typeof_object result
             then letR n := count_keys result in Ok (n =? 0)%Z
             else Ok false) in
     if (empty : bool) then
       Return {| data := JObj [];
                 message := "Doctor mode completed. No breaking upgrades found or all dependencies are up-to-date." |}
     else
       letP outcomes :=
         lift (if typeof_object result && negb (nullish result)
               then Object_values result else Ok []) in
       let workingUpgrades := Z.of_nat (List.length (filter strict_true outcomes)) in
       let brokenUpgrades :=
         Z.of_nat (List.length (filter (fun o => negb (strict_true o)) outcomes)) in
       Return {| data := result;
                 message :=
                   "Doctor mode completed: " ++ Number_toString workingUpgrades ++
                   " working upgrades applied, " ++ Number_toString brokenUpgrades ++
                   " breaking upgrades identified." |}).

End WithHost.

End NpmCheckUpdatesHandler.

(* ===================================================================== *)
(** * The CallToolRequestSchema handler *)
(* ===================================================================== *)

Module Dispatcher.

Record Content := mkContent { type : string; text : string }.

Record ToolResult := mkToolResult {
  content : list Content;
  isError : option bool
}.

Definition text_result (t : string) : ToolResult :=
  {| content := [ {| type := "text"; text := t |} ]; isError := None |}.

Definition toolTimeout : Z := 30000.

(** The error the timer of [timeoutPromise] rejects with. *)
Definition timeout_error : JsError :=
  Error ("Tool execution timed out after " ++ Number_toString (toolTimeout / 1000) ++ "s").

Definition invalid_arguments : JsError :=
  McpError InvalidParams "Invalid arguments: [object Object]".

(** [schema.safeParse(args)] and the guard that follows it. *)
Definition parse_args (h : Host) (shape : list (string * Zod.ZodType)) (args : JsValue)
  : Prog Props :=
  match Zod.safeParse h shape args with
  | Some data => Return data
  | None => Raise invalid_arguments
  end.

Definition ncu_text (h : Host) (r : NpmCheckUpdatesHandler.Outcome) : ToolResult :=
  text_result (NpmCheckUpdatesHandler.message r ++ nl ++ nl ++
               JSON_stringify h (NpmCheckUpdatesHandler.data r)).

Section WithHost.
Variable h : Host.

(** The body of [resultPromise]: the [switch (name)]. *)
Definition resultPromise (name : string) (args : JsValue) : Prog ToolResult :=
  if String.eqb name "search_npm" then
    letP parsed := parse_args h Zod.SearchNpmSchema args in
    letP results := NpmSearcher.searchPackages h parsed in
    letP t := lift (NpmSearcher.formatSearchResults results) in
    Return (text_result t)
  else if String.eqb name "fetch_package_content" then
    letP parsed := parse_args h Zod.FetchPackageContentSchema args in
    letP content := NpmSearcher.fetchPackageContent h parsed in
    Return (text_result content)
  else if String.eqb name "get_package_versions" then
    letP parsed := parse_args h Zod.GetPackageVersionsSchema args in
    letP versions := NpmSearcher.getPackageVersions parsed in
    letP pn := lift (ToString (field "packageName" parsed)) in
    Return (text_result (NpmSearcher.formatVersions pn versions))
  else if String.eqb name "get_package_details" then
    letP parsed := parse_args h Zod.GetPackageDetailsSchema args in
    letP details := NpmSearcher.getPackageDetails parsed in
    Return (text_result (JSON_stringify h details))
  else if String.eqb name "check_updates" then
    letP parsed := parse_args h Zod.CheckUpdatesSchema args in
    letP r := NpmCheckUpdatesHandler.checkUpdates h parsed in
    Return (ncu_text h r)
  else if String.eqb name "upgrade_packages" then
    letP parsed := parse_args h Zod.UpgradePackagesSchema args in
    letP r := NpmCheckUpdatesHandler.upgradePackages h parsed in
    Return (ncu_text h r)
  else if String.eqb name "filter_updates" then
    letP parsed := parse_args h Zod.FilterUpdatesSchema args in
    letP r := NpmCheckUpdatesHandler.filterUpdates h parsed in
    Return (ncu_text h r)
  else if String.eqb name "resolve_conflicts" then
    letP parsed := parse_args h Zod.ResolveConflictsSchema args in
    letP r := NpmCheckUpdatesHandler.resolveConflicts h
                (spread (spread [] parsed) [("peer", JBool true)]) in
    Return (ncu_text h r)
  else if String.eqb name "set_version_constraints" then
    letP parsed := parse_args h Zod.SetVersionConstraintsSchema args in
    letP r := NpmCheckUpdatesHandler.setVersionConstraints h parsed in
    Return (ncu_text h r)
  else if String.eqb name "run_doctor" then
    letP parsed := parse_args h Zod.RunDoctorSchema args in
    letP r := NpmCheckUpdatesHandler.runDoctor h parsed in
    Return (ncu_text h r)
  else
    Raise (McpError MethodNotFound ("Unknown tool: " ++ name)).

(** How a promise gets settled. *)
Inductive Settlement :=
| Fulfilled (v : ToolResult)
| Rejected (e : JsError).

Definition settlement_of (r : Result ToolResult) : Settlement :=
  match r with
  | Ok v => Fulfilled v
  | Throw e => Rejected e
  end.

(** The promise returned by [Promise.race]: the first settlement of one of
    its inputs settles it; later ones find it settled and change nothing.
    [reactions] are the continuations run, one per transition. *)
Record RacePromise := mkRace {
  state : option Settlement;
  reactions : list Settlement
}.

Definition race_settle (p : RacePromise) (s : Settlement) : RacePromise :=
  match state p with
  | None => {| state := Some s; reactions := (reactions p ++ [s])%list |}
  | Some _ => p
  end.

Definition Promise_race (settlements : list Settlement) : RacePromise :=
  fold_left race_settle settlements {| state := None; reactions := [] |}.

(** What follows [await Promise.race(...)]: the [return result] of the
    [try] and the [catch] block. *)
Definition after_race (s : Settlement) : Result ToolResult :=
  match s with
  | Fulfilled result => Ok result
  | Rejected error =>
      if instanceof_McpError error then Throw error
      else Ok {| content := [ {| type := "text"; text := error_message error |} ];
                 isError := Some true |}
  end.

(** The settlements of [resultPromise] and [timeoutPromise] in the order
    they happen.  [timer_after] is the number of awaits of the handler that
    complete before the timer of [toolTimeout] runs; the timer always runs
    in the end, nothing clears it. *)
Definition settlements (timer_after : nat) (r : Run ToolResult) : list Settlement :=
  match outcome r with
  | None => [Rejected timeout_error]
  | Some o =>
      if Nat.ltb timer_after (awaits r)
      then [Rejected timeout_error; settlement_of o]
      else [settlement_of o; Rejected timeout_error]
  end.

(** One invocation as its caller and an observer see it. *)
Record Invocation := mkInvocation {
  surfaced : list (Result ToolResult);
  observed : list Observed
}.

Definition callTool (world : Oracle) (timer_after : nat) (name : string) (args : JsValue)
  : Invocation :=
  let r := exec world 0 (resultPromise name args) in
  {| surfaced := map after_race (reactions (Promise_race (settlements timer_after r)));
     observed := trace r |}.

End WithHost.

(** The names listed by the [ListToolsRequestSchema] handler. *)
Definition declared_tools : list string :=
  ["search_npm"; "fetch_package_content"; "get_package_versions";
   "get_package_details"; "check_updates"; "upgrade_packages"; "filter_updates";
   "resolve_conflicts"; "set_version_constraints"; "run_doctor"].

End Dispatcher.

(* ===================================================================== *)
(** * Sample hosts, worlds and payloads *)
(* ===================================================================== *)

Module Sample.

(** Four [acquire()] calls while the clock reads 1000, then the timers as
    they come due. *)
Definition burst_events : list RateLimiter.event :=
  [RateLimiter.Acquire 1000 0%nat; RateLimiter.Acquire 1000 1%nat;
   RateLimiter.Acquire 1000 2%nat; RateLimiter.Acquire 1000 3%nat;
   RateLimiter.Fire 1500 0%nat; RateLimiter.Fire 1500 0%nat;
   RateLimiter.Fire 1500 0%nat; RateLimiter.Fire 2000 0%nat;
   RateLimiter.Fire 2000 0%nat; RateLimiter.Fire 2500 0%nat].

(** The world after them. *)
Definition burst_world : RateLimiter.World :=
  Eval vm_compute in
    match RateLimiter.run burst_events (RateLimiter.init 2) with
    | Some w => w
    | None => RateLimiter.init 2
    end.

(** A host with one manifest, [/srv/app/package.json]. *)
Definition host : Host :=
  {| process_cwd := "/srv/app";
     path_resolve := fun cwd p => cwd ++ "/" ++ p;
     fs_existsSync := fun p => String.eqb p "/srv/app/package.json";
     encodeURIComponent := fun s => s;
     toLocaleDateString := fun _ => "1/1/2024";
     JSON_stringify := fun _ => "{}";
     cheerio_text := fun html selector =>
                       if String.eqb selector "#readme" then html else EmptyString;
     is_url := fun _ => true |}.

(** A world in which every call succeeds: the registry answers 200 with
    [data] (or [page] as text) and [ncu.run] returns [upgrades]. *)
Definition world (data : JsValue) (page : string) (upgrades : JsValue) : Oracle :=
  fun _ c =>
    match c return option (Reply c) with
    | acquire => Some tt
    | fetch _ _ _ => Some (Ok {| ok := true; status := 200 |})
    | response_json _ => Some (Ok data)
    | response_text _ => Some (Ok page)
    | ncu_run _ => Some (Ok upgrades)
    end.

(** A world in which [ncu.run] never settles. *)
Definition world_ncu_hangs : Oracle :=
  fun _ c =>
    match c return option (Reply c) with
    | acquire => Some tt
    | fetch _ _ _ => Some (Ok {| ok := true; status := 200 |})
    | response_json _ => Some (Ok JNull)
    | response_text _ => Some (Ok EmptyString)
    | ncu_run _ => None
    end.

(** A search response: 42 matches, 3 of them returned. *)
Definition search_hits : list JsValue :=
  [JObj [("package",
          JObj [("name", JStr "left-pad"); ("version", JStr "1.3.0");
                ("description", JStr "String left pad");
                ("author", JObj [("name", JStr "azer")]);
                ("links", JObj [("homepage", JStr "https://github.com/stevemao/left-pad")]);
                ("date", JStr "2018-04-09T01:06:29.826Z")]);
         ("score", JObj [("detail", JObj [("maintenance", JFrac "0.3333")])])];
   JObj [("package", JObj [("name", JStr "pad"); ("version", JStr "3.2.0")])];
   JObj [("package",
          JObj [("name", JStr "pad-left"); ("version", JStr "2.1.0");
                ("keywords", JArr [JStr "pad"])])]].

Definition search_response : Props :=
  [("objects", JArr search_hits); ("total", JNum 42); ("time", JStr "now")].

(** A package document with twelve versions. *)
Definition document_versions : Props :=
  [
     ("1.0.0",
      JObj [("name", JStr "left-pad"); ("version", JStr "1.0.0"); ("main", JStr "index.js");
            ("scripts", JObj [("test", JStr "node test")]);
            ("dist", JObj [("shasum", JStr "0000")])]);
     ("1.1.0",
      JObj [("name", JStr "left-pad"); ("version", JStr "1.1.0"); ("main", JStr "index.js");
            ("scripts", JObj [("test", JStr "node test")]);
            ("dist", JObj [("shasum", JStr "0000")])]);
     ("1.2.0",
      JObj [("name", JStr "left-pad"); ("version", JStr "1.2.0"); ("main", JStr "index.js");
            ("scripts", JObj [("test", JStr "node test")]);
            ("dist", JObj [("shasum", JStr "0000")])]);
     ("1.3.0",
      JObj [("name", JStr "left-pad"); ("version", JStr "1.3.0"); ("main", JStr "index.js");
            ("scripts", JObj [("test", JStr "node test")]);
            ("dist", JObj [("shasum", JStr "0000")])]);
     ("1.4.0",
      JObj [("name", JStr "left-pad"); ("version", JStr "1.4.0"); ("main", JStr "index.js");
            ("scripts", JObj [("test", JStr "node test")]);
            ("dist", JObj [("shasum", JStr "0000")])]);
     ("1.5.0",
      JObj [("name", JStr "left-pad"); ("version", JStr "1.5.0"); ("main", JStr "index.js");
            ("scripts", JObj [("test", JStr "node test")]);
            ("dist", JObj [("shasum", JStr "0000")])]);
     ("1.6.0",
      JObj [("name", JStr "left-pad"); ("version", JStr "1.6.0"); ("main", JStr "index.js");
            ("scripts", JObj [("test", JStr "node test")]);
            ("dist", JObj [("shasum", JStr "0000")])]);
     ("1.7.0",
      JObj [("name", JStr "left-pad"); ("version", JStr "1.7.0"); ("main", JStr "index.js");
            ("scripts", JObj [("test", JStr "node test")]);
            ("dist", JObj [("shasum", JStr "0000")])]);
     ("1.8.0",
      JObj [("name", JStr "left-pad"); ("version", JStr "1.8.0"); ("main", JStr "index.js");
            ("scripts", JObj [("test", JStr "node test")]);
            ("dist", JObj [("shasum", JStr "0000")])]);
     ("1.9.0",
      JObj [("name", JStr "left-pad"); ("version", JStr "1.9.0"); ("main", JStr "index.js");
            ("scripts", JObj [("test", JStr "node test")]);
            ("dist", JObj [("shasum", JStr "0000")])]);
     ("1.10.0",
      JObj [("name", JStr "left-pad"); ("version", JStr "1.10.0"); ("main", JStr "index.js");
            ("scripts", JObj [("test", JStr "node test")]);
            ("dist", JObj [("shasum", JStr "0000")])]);
     ("1.11.0",
      JObj [("name", JStr "left-pad"); ("version", JStr "1.11.0"); ("main", JStr "index.js");
            ("scripts", JObj [("test", JStr "node test")]);
            ("dist", JObj [("shasum", JStr "0000")])])
  ].

Definition document_time : Props :=
  [("created", JStr "2014-03-14T00:00:00.000Z");
     ("1.0.0", JStr "2017-01-01T00:00:00.000Z");
     ("1.1.0", JStr "2017-01-02T00:00:00.000Z");
     ("1.2.0", JStr "2017-01-03T00:00:00.000Z");
     ("1.3.0", JStr "2017-01-04T00:00:00.000Z");
     ("1.4.0", JStr "2017-01-05T00:00:00.000Z");
     ("1.5.0", JStr "2017-01-06T00:00:00.000Z");
     ("1.6.0", JStr "2017-01-07T00:00:00.000Z");
     ("1.7.0", JStr "2017-01-08T00:00:00.000Z");
     ("1.8.0", JStr "2017-01-09T00:00:00.000Z");
     ("1.9.0", JStr "2017-01-10T00:00:00.000Z");
     ("1.10.0", JStr "2017-01-11T00:00:00.000Z");
     ("1.11.0", JStr "2017-01-12T00:00:00.000Z");
   ("modified", JStr "2018-04-09T00:00:00.000Z")].

Definition document : Props :=
  [("name", JStr "left-pad");
   ("dist-tags", JObj [("latest", JStr "1.11.0")]);
   ("versions", JObj document_versions);
   ("time", JObj document_time);
   ("readme", JStr "left-pad")].

(** A page whose README has 4001 characters. *)
Fixpoint replicate (n : nat) (c : ascii) : string :=
  match n with
  | O => EmptyString
  | S n' => String c (replicate n' c)
  end.

Definition long_page : string := replicate 4001 "x"%char.

End Sample.

(* ===================================================================== *)
(** * Vocabulary of the statements *)
(* ===================================================================== *)

(** The envelope the catch block builds for an error message. *)
Definition error_envelope (message : string) : Dispatcher.ToolResult :=
  {| Dispatcher.content := [ {| Dispatcher.type := "text"; Dispatcher.text := message |} ];
     Dispatcher.isError := Some true |}.

(** The tools that work on a manifest, with their schema and their handler
    method. *)
Definition update_tools : list (string * list (string * Zod.ZodType) * string) :=
  [("check_updates", Zod.CheckUpdatesSchema, "NpmCheckUpdatesHandler.checkUpdates");
   ("upgrade_packages", Zod.UpgradePackagesSchema, "NpmCheckUpdatesHandler.upgradePackages");
   ("filter_updates", Zod.FilterUpdatesSchema, "NpmCheckUpdatesHandler.filterUpdates");
   ("resolve_conflicts", Zod.ResolveConflictsSchema, "NpmCheckUpdatesHandler.resolveConflicts");
   ("set_version_constraints", Zod.SetVersionConstraintsSchema,
    "NpmCheckUpdatesHandler.setVersionConstraints");
   ("run_doctor", Zod.RunDoctorSchema, "NpmCheckUpdatesHandler.runDoctor")].

(** [packagePath || 'package.json'] for a validated [packagePath]. *)
Definition manifest_argument (packagePath : JsValue) : string :=
  match packagePath with
  | JStr p => if String.eqb p EmptyString then "package.json" else p
  | _ => "package.json"
  end.

(** The observed calls of [ncu.run], with their options. *)
Fixpoint ncu_calls (t : list Observed) : list Props :=
  match t with
  | [] => []
  | Called (ncu_run options) :: tl => options :: ncu_calls tl
  | _ :: tl => ncu_calls tl
  end.

(** Clock readings in which each one is at least [rl] after the one
    before. *)
Fixpoint spaced (rl : Q) (times : list Z) : Prop :=
  match times with
  | a :: ((b :: _) as tl) => (rl <= inject_Z (b - a))%Q /\ spaced rl tl
  | _ => True
  end.

(** What every reachable world of the limiter satisfies, for the calls
    [acq] made so far. *)
Record Inv (rl : Q) (acq : list RateLimiter.Waiter) (w : RateLimiter.World) : Prop := {
  inv_rate : RateLimiter.rateLimit (RateLimiter.limiter w) = rl;
  inv_fifo :
    (map fst (RateLimiter.resolved w) ++ RateLimiter.queue (RateLimiter.limiter w))%list
    = acq;
  inv_spaced : spaced rl (map snd (RateLimiter.resolved w));
  inv_last :
    RateLimiter.resolved w <> [] ->
    last (map snd (RateLimiter.resolved w)) 0%Z
    = RateLimiter.lastRequestTime (RateLimiter.limiter w)
}.

(** A program that makes no call. *)
Definition silent {A} (p : Prog A) : Prop :=
  match p with
  | Return _ | Raise _ => True
  | _ => False
  end.

(** The options [resolveConflicts] hands to [runNcu], and what [runNcu]
    hands to [ncu.run]. *)
Definition resolveConflicts_options (packageFile : string) (options : Props) : Props :=
  NpmCheckUpdatesHandler.copy_if "packageManager" "packageManager" options
    (NpmCheckUpdatesHandler.flag_if "minimal" options
       (NpmCheckUpdatesHandler.flag_if "upgrade" options
          [("packageFile", JStr packageFile); ("peer", JBool true)])).

Definition runNcu_options (baseOptions : Props) : Props :=
  spread (spread [] baseOptions)
    [("jsonUpgraded", JBool true);
     ("silent", JBool true);
     ("stdout", JHost "process.stderr");
     ("stderr", JHost "process.stderr");
     ("loglevel", JStr "silent");
     ("json", JBool true)].

(** The last [n] elements of a list. *)
Definition lastn {A} (n : nat) (l : list A) : list A := skipn (List.length l - n) l.

(** [details.k], [undefined] where it cannot be read. *)
Definition property (details : JsValue) (k : string) : JsValue :=
  match get details k with
  | Ok v => v
  | Throw _ => JUndefined
  end.

(** The fields the specification lets a retained version keep. *)
Definition version_fields : list string :=
  ["name"; "version"; "description"; "main";
   "dependencies"; "devDependencies"; "peerDependencies"].

(** A version entry reduced to those fields. *)
Definition reduced (entry : string * JsValue) : string * JsValue :=
  (fst entry, JObj (map (fun k => (k, property (snd entry) k)) version_fields)).

(** A value that is neither an array nor an object. *)
Definition primitive (v : JsValue) : bool :=
  match v with
  | JArr _ | JObj _ | JHost _ => false
  | _ => true
  end.

(** A primitive as the registry sends it: a number that is an integer is a
    safe integer. *)
Definition plain_value (v : JsValue) : bool :=
  match v with
  | JNum z => safe_integer z
  | _ => primitive v
  end.

(** [v?.k], [undefined] where it cannot be read. *)
Definition opt (v : JsValue) (k : string) : JsValue :=
  match get_opt v k with
  | Ok x => x
  | Throw _ => JUndefined
  end.

(** [obj.score?.detail?.maintenance] and [obj.package.author?.name]. *)
Definition maintenance_of (obj : Props) : JsValue :=
  opt (opt (field "score" obj) "detail") "maintenance".

Definition author_name_of (package : Props) : JsValue :=
  opt (field "author" package) "name".

(** [m?.toString()] for a primitive [m]. *)
Definition printed (m : JsValue) : JsValue :=
  match toString_opt "obj.score?.detail?.maintenance?" m with
  | Ok w => w
  | Throw _ => JUndefined
  end.

(** A search hit as the registry sends it: an object whose [package] is an
    object with a [name] and a [version] string; the description, the
    author's name, the maintenance score and the date, where present, are
    primitives (strings and numbers, not arrays or objects). *)
Definition wf_search_object (obj : JsValue) : bool :=
  match obj with
  | JObj o =>
      match field "package" o with
      | JObj p =>
          Zod.is_JStr (field "name" p) && Zod.is_JStr (field "version" p) &&
          plain_value (field "description" p) && plain_value (author_name_of p) &&
          plain_value (maintenance_of o) && plain_value (field "date" p)
      | _ => false
      end
  | _ => false
  end.

(** The record [searchPackages] builds for a well-formed hit. *)
Definition info_of (h : Host) (obj : JsValue) : NpmSearcher.NpmPackageInfo :=
  let package := property obj "package" in
  {| NpmSearcher.name := property package "name";
     NpmSearcher.version := property package "version";
     NpmSearcher.description := property package "description";
     NpmSearcher.author := opt (property package "author") "name";
     NpmSearcher.homepage := opt (property package "links") "homepage";
     NpmSearcher.repository := opt (property package "links") "repository";
     NpmSearcher.keywords :=
       if truthy (property package "keywords") then property package "keywords"
       else JArr [];
     NpmSearcher.weeklyDownloads :=
       printed (opt (opt (property obj "score") "detail") "maintenance");
     NpmSearcher.lastPublish := toLocaleDateString h (property package "date") |}.

(** The text of a string value. *)
Definition string_of (v : JsValue) : string :=
  match v with
  | JStr s => s
  | _ => EmptyString
  end.

(** All the strings of a list, one after the other. *)
Definition concat_all (l : list string) : string := fold_right String.append EmptyString l.

(** The first line of the entry of a search hit. *)
Definition entry_heading (obj : JsValue) : string :=
  NpmSearcher.package_emoji ++ " " ++
  string_of (property (property obj "package") "name") ++ "@" ++
  string_of (property (property obj "package") "version") ++ nl.

(** ** Vocabulary of the further properties *)

(** Every declared tool with the schema its case of the [switch] parses
    the arguments with. *)
Definition tool_schemas : list (string * list (string * Zod.ZodType)) :=
  [("search_npm", Zod.SearchNpmSchema);
   ("fetch_package_content", Zod.FetchPackageContentSchema);
   ("get_package_versions", Zod.GetPackageVersionsSchema);
   ("get_package_details", Zod.GetPackageDetailsSchema);
   ("check_updates", Zod.CheckUpdatesSchema);
   ("upgrade_packages", Zod.UpgradePackagesSchema);
   ("filter_updates", Zod.FilterUpdatesSchema);
   ("resolve_conflicts", Zod.ResolveConflictsSchema);
   ("set_version_constraints", Zod.SetVersionConstraintsSchema);
   ("run_doctor", Zod.RunDoctorSchema)].

(** A synchronous outcome that is not a thrown [McpError]. *)
Definition plain {A} (r : Result A) : Prop :=
  match r with
  | Ok _ => True
  | Throw e => instanceof_McpError e = false
  end.

(** A program that, whatever the outside world answers, does not throw an
    [McpError]. *)
Fixpoint contained {A} (p : Prog A) : Prop :=
  match p with
  | Return _ => True
  | Raise e => instanceof_McpError e = false
  | Await c k => forall r, contained (k r)
  | Enter _ k => contained k
  end.

(** The world of [Sample.burst_events] after the four calls and the first
    timer callback. *)
Definition burst_midway : RateLimiter.World :=
  Eval vm_compute in
    match RateLimiter.run (firstn 5 Sample.burst_events) (RateLimiter.init 2) with
    | Some w => w
    | None => RateLimiter.init 2
    end.

(** A world in which the gate opens and every other call is rejected with
    [e]. *)
Definition world_rejecting (e : JsError) : Oracle :=
  fun _ c =>
    match c return option (Reply c) with
    | acquire => Some tt
    | fetch _ _ _ => Some (Throw e)
    | response_json _ => Some (Throw e)
    | response_text _ => Some (Throw e)
    | ncu_run _ => Some (Throw e)
    end.

(** What a call needs of the gate, and what it leaves: a [fetch] needs an
    [acquire] before it and uses it up. *)
Definition gate_needed (seen : bool) (c : Call) : bool :=
  match c with
  | fetch _ _ _ => seen
  | _ => true
  end.

Definition gate_after (seen : bool) (c : Call) : bool :=
  match c with
  | acquire => true
  | fetch _ _ _ => false
  | _ => seen
  end.

(** A trace in which every [fetch] comes after an [acquire] of its own. *)
Fixpoint gated (seen : bool) (t : list Observed) : bool :=
  match t with
  | [] => true
  | Called c :: tl => gate_needed seen c && gated (gate_after seen c) tl
  | Entered _ :: tl => gated seen tl
  end.

(** The abort deadlines of the [fetch] calls of a trace. *)
Fixpoint fetch_deadlines (t : list Observed) : list Z :=
  match t with
  | [] => []
  | Called (fetch _ _ timeoutMs) :: tl => timeoutMs :: fetch_deadlines tl
  | _ :: tl => fetch_deadlines tl
  end.

Definition deadline_ok (c : Call) : Prop :=
  match c with
  | fetch _ _ timeoutMs => (timeoutMs = 15000 \/ timeoutMs = 20000)%Z
  | _ => True
  end.

(** A program all of whose runs are gated and use the two network
    deadlines. *)
Fixpoint well_gated {A} (seen : bool) (p : Prog A) : Prop :=
  match p with
  | Return _ | Raise _ => True
  | Await c k =>
      gate_needed seen c = true /\ deadline_ok c /\
      forall r, well_gated (gate_after seen c) (k r)
  | Enter _ k => well_gated seen k
  end.

(** The tools that query the registry, with their schema and the prefix
    their [catch] puts before an error message. *)
Definition registry_tools : list (string * list (string * Zod.ZodType) * string) :=
  [("search_npm", Zod.SearchNpmSchema, "Error searching npm packages: ");
   ("fetch_package_content", Zod.FetchPackageContentSchema, "Error fetching package content: ");
   ("get_package_versions", Zod.GetPackageVersionsSchema, "Error fetching package versions: ");
   ("get_package_details", Zod.GetPackageDetailsSchema, "Error fetching package details: ")].

(** What a handler reports when [fetch] does not give a usable response:
    the rejection's message, or the status of a response that is not
    [ok]. *)
Definition fetch_failure (reply : Result Response) : string :=
  match reply with
  | Throw e => error_message e
  | Ok response => "HTTP error! Status: " ++ Number_toString (status response)
  end.

Definition fetch_failed (reply : Result Response) : bool :=
  match reply with
  | Throw _ => true
  | Ok response => negb (ok response)
  end.

(** A world in which the gate opens and the registry answers with the
    status [s] (without a body). *)
Definition world_http_status (s : Z) : Oracle :=
  fun _ c =>
    match c return option (Reply c) with
    | acquire => Some tt
    | fetch _ _ _ => Some (Ok {| ok := (200 <=? s)%Z && (s <=? 299)%Z; status := s |})
    | response_json _ => None
    | response_text _ => None
    | ncu_run _ => None
    end.

(** The options each handler builds for [runNcu] from the manifest path
    and its validated arguments. *)
Definition checkUpdates_options (packageFile : string) (options : Props) : Props :=
  NpmCheckUpdatesHandler.copy_if "packageManager" "packageManager" options
    (NpmCheckUpdatesHandler.flag_if "minimal" options
       (NpmCheckUpdatesHandler.flag_if "peer" options
          (NpmCheckUpdatesHandler.copy_if "target" "target" options
             (NpmCheckUpdatesHandler.copy_if "reject" "reject" options
                (NpmCheckUpdatesHandler.copy_if "filter" "filter" options
                   [("packageFile", JStr packageFile)]))))).

Definition upgradePackages_options (packageFile : string) (options : Props) : Props :=
  NpmCheckUpdatesHandler.copy_if "packageManager" "packageManager" options
    (NpmCheckUpdatesHandler.flag_if "minimal" options
       (NpmCheckUpdatesHandler.flag_if "peer" options
          (NpmCheckUpdatesHandler.copy_if "upgradeType" "target" options
             [("packageFile", JStr packageFile); ("upgrade", JBool true)]))).

Definition filterUpdates_options (packageFile : string) (options : Props) : Props :=
  NpmCheckUpdatesHandler.copy_if "packageManager" "packageManager" options
    (NpmCheckUpdatesHandler.flag_if "minimal" options
       (NpmCheckUpdatesHandler.flag_if "upgrade" options
          [("packageFile", JStr packageFile); ("filter", field "filter" options)])).

Definition setVersionConstraints_options (packageFile : string) (options : Props) : Props :=
  NpmCheckUpdatesHandler.copy_if "packageManager" "packageManager" options
    (NpmCheckUpdatesHandler.flag_if "minimal" options
       (NpmCheckUpdatesHandler.flag_if "upgrade" options
          (NpmCheckUpdatesHandler.flag_if "removeRange" options
             [("packageFile", JStr packageFile); ("target", field "target" options)]))).

Definition runDoctor_options (packageFile : string) (options : Props) : Props :=
  NpmCheckUpdatesHandler.copy_if "packageManager" "packageManager" options
    (NpmCheckUpdatesHandler.copy_if "doctorTest" "doctorTest" options
       (NpmCheckUpdatesHandler.copy_if "doctorInstall" "doctorInstall" options
          [("packageFile", JStr packageFile); ("doctor", JBool true);
           ("upgrade", JBool true)])).

(** The same, by tool name, from the arguments as the dispatcher parsed
    them. *)
Definition update_tool_options (name : string) (packageFile : string) (parsed : Props)
  : Props :=
  if String.eqb name "check_updates" then checkUpdates_options packageFile parsed
  else if String.eqb name "upgrade_packages" then upgradePackages_options packageFile parsed
  else if String.eqb name "filter_updates" then filterUpdates_options packageFile parsed
  else if String.eqb name "resolve_conflicts"
       then resolveConflicts_options packageFile
              (spread (spread [] parsed) [("peer", JBool true)])
  else if String.eqb name "set_version_constraints"
       then setVersionConstraints_options packageFile parsed
  else runDoctor_options packageFile parsed.

(** The settings [runNcu] forces on every call of [ncu.run]. *)
Definition forced_options : Props :=
  [("jsonUpgraded", JBool true);
   ("silent", JBool true);
   ("stdout", JHost "process.stderr");
   ("stderr", JHost "process.stderr");
   ("loglevel", JStr "silent");
   ("json", JBool true)].

(** A flag as the handlers forward it: [true] when the caller set it,
    absent otherwise. *)
Definition flag (v : JsValue) : JsValue := if truthy v then JBool true else JUndefined.

(** The name under which [ncu.run] gets an argument of a tool. *)
Definition ncu_name (k : string) : string :=
  if String.eqb k "upgradeType" then "target" else k.

(** A value as the handlers forward it: left out when it is falsy. *)
Definition forwarded (v : JsValue) : JsValue := if truthy v then v else JUndefined.

(** Whether [ncu.run] is told to rewrite the manifest, by tool. *)
Definition upgrade_setting (name : string) (parsed : Props) : JsValue :=
  if String.eqb name "check_updates" then JUndefined
  else if String.eqb name "upgrade_packages" || String.eqb name "run_doctor" then JBool true
  else flag (field "upgrade" parsed).

Definition doctor_setting (name : string) : JsValue :=
  if String.eqb name "run_doctor" then JBool true else JUndefined.

(** The calls of a trace. *)
Fixpoint calls (t : list Observed) : list Call :=
  match t with
  | [] => []
  | Called c :: tl => c :: calls tl
  | Entered _ :: tl => calls tl
  end.

(** A program all of whose calls, whatever the outside world answers,
    satisfy [P]. *)
Fixpoint every_call {A} (P : Call -> Prop) (p : Prog A) : Prop :=
  match p with
  | Return _ | Raise _ => True
  | Await c k => P c /\ forall r, every_call P (k r)
  | Enter _ k => every_call P k
  end.

(** The option names the handlers and [runNcu] write. *)
Definition ncu_option_names : list string :=
  ["packageFile"; "filter"; "reject"; "target"; "peer"; "minimal"; "packageManager";
   "upgrade"; "removeRange"; "doctor"; "doctorInstall"; "doctorTest";
   "jsonUpgraded"; "silent"; "stdout"; "stderr"; "loglevel"; "json"].

Definition known_options (options : Props) : Prop :=
  Forall (fun k => In k ncu_option_names) (map fst options).

(** What a tool may call: [ncu.run] is for the update tools, and with
    known options only; the gate and the network are for the registry
    tools. *)
Definition permitted (name : string) (c : Call) : Prop :=
  match c with
  | ncu_run options =>
      In name (map (fun t => fst (fst t)) update_tools) /\ known_options options
  | _ => In name (map (fun t => fst (fst t)) registry_tools)
  end.

(** What each update tool says when [ncu.run] reports nothing. *)
Definition nothing_message (name : string) : string :=
  if String.eqb name "check_updates" then "All dependencies are up-to-date."
  else if String.eqb name "upgrade_packages"
       then "No dependencies needed upgrading or were upgraded."
  else if String.eqb name "filter_updates"
       then "No updates found for the filtered dependencies."
  else if String.eqb name "resolve_conflicts"
       then "No conflicts found or resolved based on peer strategy."
  else if String.eqb name "set_version_constraints"
       then "No dependencies required changes based on the version constraints."
  else "Doctor mode completed. No breaking upgrades found or all dependencies are up-to-date.".

(** What the five counting tools say about [n] reported dependencies. *)
Definition count_message (name : string) (parsed : Props) (n : Z) : string :=
  if (0 <? n)%Z then
    if String.eqb name "check_updates"
    then "Found " ++ Number_toString n ++ " outdated dependencies."
    else if String.eqb name "upgrade_packages"
    then "Upgraded " ++ Number_toString n ++ " dependencies."
    else if String.eqb name "filter_updates"
    then "Found " ++ Number_toString n ++ " filtered dependencies " ++
         (if truthy (field "upgrade" parsed)
          then "and upgraded them." else "with available updates.")
    else if String.eqb name "resolve_conflicts"
    then "Attempted to resolve conflicts for " ++ Number_toString n ++
         " dependencies using the 'peer' strategy " ++
         (if truthy (field "upgrade" parsed) then "and applied changes." else ".")
    else "Applied version constraints to " ++ Number_toString n ++ " dependencies " ++
         (if truthy (field "upgrade" parsed)
          then "and updated package.json." else " (dry run).")
  else nothing_message name.

(** The update tools that count the keys of the result of [ncu.run]. *)
Definition counting_tools : list (string * list (string * Zod.ZodType) * string) :=
  firstn 5 update_tools.

(** [await ncu.run(ncuOptions) || {}]. *)
Definition or_empty (r : JsValue) : JsValue := if truthy r then r else JObj [].

(** The registry tools that read the body of the response as JSON. *)
Definition json_tools : list (string * list (string * Zod.ZodType) * string) :=
  [("search_npm", Zod.SearchNpmSchema, "Error searching npm packages: ");
   ("get_package_versions", Zod.GetPackageVersionsSchema, "Error fetching package versions: ");
   ("get_package_details", Zod.GetPackageDetailsSchema, "Error fetching package details: ")].

(** Whether the shaping code of a tool gets through a body. *)
Definition shaped (h : Host) (name : string) (data : JsValue) : Result unit :=
  if String.eqb name "search_npm"
  then letR _ := NpmSearcher.searchPackages_shape h data in Ok tt
  else if String.eqb name "get_package_versions"
  then letR _ := NpmSearcher.getPackageVersions_shape data in Ok tt
  else letR _ := NpmSearcher.getPackageDetails_shape data in Ok tt.

(** The tools as the [ListToolsRequestSchema] handler lists them. *)
Record Tool := mkTool {
  tool_name : string;
  tool_description : string;
  inputSchema : JsValue
}.

(** [E.options] of a [z.enum]. *)
Definition enum_options (t : Zod.ZodType) : JsValue :=
  match t with
  | Zod.z_enum options => JArr (map JStr options)
  | _ => JUndefined
  end.

Definition ListTools : list Tool :=
  [ {| tool_name := "search_npm";
       tool_description := "Search for npm packages";
       inputSchema :=
         JObj [("type", JStr "object");
               ("properties",
                JObj [("query", JObj [("type", JStr "string")]);
                      ("maxResults", JObj [("type", JStr "number"); ("default", JNum 10)])]);
               ("required", JArr [JStr "query"])] |};
    {| tool_name := "fetch_package_content";
       tool_description := "Fetch detailed content from an npm package page URL";
       inputSchema :=
         JObj [("type", JStr "object");
               ("properties", JObj [("url", JObj [("type", JStr "string")])]);
               ("required", JArr [JStr "url"])] |};
    {| tool_name := "get_package_versions";
       tool_description := "Get available versions for an npm package";
       inputSchema :=
         JObj [("type", JStr "object");
               ("properties", JObj [("packageName", JObj [("type", JStr "string")])]);
               ("required", JArr [JStr "packageName"])] |};
    {| tool_name := "get_package_details";
       tool_description := "Get detailed information about an npm package";
       inputSchema :=
         JObj [("type", JStr "object");
               ("properties", JObj [("packageName", JObj [("type", JStr "string")])]);
               ("required", JArr [JStr "packageName"])] |};
    {| tool_name := "check_updates";
       tool_description := "Scan package.json for outdated dependencies";
       inputSchema :=
         JObj [("type", JStr "object");
               ("properties",
                JObj [("packagePath", JObj [("type", JStr "string")]);
                      ("filter", JObj [("type", JStr "array");
                                       ("items", JObj [("type", JStr "string")])]);
                      ("reject", JObj [("type", JStr "array");
                                       ("items", JObj [("type", JStr "string")])]);
                      ("target", JObj [("type", JStr "string");
                                       ("enum", enum_options Zod.NcuTargetEnum)]);
                      ("peer", JObj [("type", JStr "boolean")]);
                      ("minimal", JObj [("type", JStr "boolean")]);
                      ("packageManager",
                       JObj [("type", JStr "string");
                             ("enum", enum_options Zod.PackageManagerEnum)])])] |};
    {| tool_name := "upgrade_packages";
       tool_description := "Upgrade dependencies in package.json";
       inputSchema :=
         JObj [("type", JStr "object");
               ("properties",
                JObj [("packagePath", JObj [("type", JStr "string")]);
                      ("upgradeType", JObj [("type", JStr "string");
                                            ("enum", enum_options Zod.NcuTargetEnum)]);
                      ("peer", JObj [("type", JStr "boolean")]);
                      ("minimal", JObj [("type", JStr "boolean")]);
                      ("packageManager",
                       JObj [("type", JStr "string");
                             ("enum", enum_options Zod.PackageManagerEnum)])])] |};
    {| tool_name := "filter_updates";
       tool_description := "Check/upgrade updates for specific packages";
       inputSchema :=
         JObj [("type", JStr "object");
               ("properties",
                JObj [("packagePath", JObj [("type", JStr "string")]);
                      ("filter", JObj [("type", JStr "array");
                                       ("items", JObj [("type", JStr "string")])]);
                      ("upgrade", JObj [("type", JStr "boolean")]);
                      ("minimal", JObj [("type", JStr "boolean")]);
                      ("packageManager",
                       JObj [("type", JStr "string");
                             ("enum", enum_options Zod.PackageManagerEnum)])]);
               ("required", JArr [JStr "filter"])] |};
    {| tool_name := "resolve_conflicts";
       tool_description := "Handle dependency conflicts (uses 'peer' strategy)";
       inputSchema :=
         JObj [("type", JStr "object");
               ("properties",
                JObj [("packagePath", JObj [("type", JStr "string")]);
                      ("upgrade", JObj [("type", JStr "boolean")]);
                      ("minimal", JObj [("type", JStr "boolean")]);
                      ("packageManager",
                       JObj [("type", JStr "string");
                             ("enum", enum_options Zod.PackageManagerEnum)])])] |};
    {| tool_name := "set_version_constraints";
       tool_description := "Configure version upgrade rules for dependencies";
       inputSchema :=
         JObj [("type", JStr "object");
               ("properties",
                JObj [("packagePath", JObj [("type", JStr "string")]);
                      ("target", JObj [("type", JStr "string");
                                       ("enum", enum_options Zod.NcuTargetEnum)]);
                      ("removeRange", JObj [("type", JStr "boolean")]);
                      ("upgrade", JObj [("type", JStr "boolean")]);
                      ("minimal", JObj [("type", JStr "boolean")]);
                      ("packageManager",
                       JObj [("type", JStr "string");
                             ("enum", enum_options Zod.PackageManagerEnum)])]);
               ("required", JArr [JStr "target"])] |};
    {| tool_name := "run_doctor";
       tool_description := "Iteratively install upgrades and run tests";
       inputSchema :=
         JObj [("type", JStr "object");
               ("properties",
                JObj [("packagePath", JObj [("type", JStr "string")]);
                      ("doctorInstall", JObj [("type", JStr "string")]);
                      ("doctorTest", JObj [("type", JStr "string")]);
                      ("packageManager",
                       JObj [("type", JStr "string");
                             ("enum", enum_options Zod.PackageManagerEnum)])])] |} ].

(** The strings of an array of strings. *)
Fixpoint strings_of (l : list JsValue) : list string :=
  match l with
  | [] => []
  | JStr s :: tl => s :: strings_of tl
  | _ :: tl => strings_of tl
  end.

(** [inputSchema.required] and the names of [inputSchema.properties] of a
    listed tool. *)
Definition required_of (tool : Tool) : list string :=
  match inputSchema tool with
  | JObj schema =>
      match field "required" schema with
      | JArr l => strings_of l
      | _ => []
      end
  | _ => []
  end.

Definition properties_of (tool : Tool) : list string :=
  match inputSchema tool with
  | JObj schema =>
      match field "properties" schema with
      | JObj properties => map fst properties
      | _ => []
      end
  | _ => []
  end.

(** ** Vocabulary of the claims about the registry tools *)



(** The first 4000 characters of a README followed by the truncation
    marker, for a README longer than that; the README itself otherwise. *)
Definition capped (readme : string) : string :=
  if Nat.ltb 4000 (String.length readme)
  then String.substring 0 4000 readme ++ "..." ++ nl ++ "[README content truncated]"
  else readme.

(** The only request [search_npm] makes for a query [q] and a size
    [size]. *)
Definition search_request (h : Host) (q size : string) (c : Call) : Prop :=
  match c with
  | fetch url options timeoutMs =>
      url = NpmSearcher.REGISTRY_URL ++ "/-/v1/search?text=" ++ encodeURIComponent h q ++
            "&size=" ++ size /\
      options = [("headers", NpmSearcher.HEADERS)] /\
      timeoutMs = 15000%Z
  | _ => True
  end.

(** ** Vocabulary of the liveness of the RateLimiter *)

(** The moment a timer is due: [delay] ms after it was set. *)
Definition due_time (tm : RateLimiter.Timer) : Q :=
  (inject_Z (RateLimiter.set_at tm) + RateLimiter.delay tm)%Q.

(** A timer callback that runs no earlier than its timer is due.  Nothing
    is asked of how late it runs, nor of the [acquire()] calls. *)
Definition on_time (w : RateLimiter.World) (e : RateLimiter.event) : Prop :=
  match e with
  | RateLimiter.Acquire _ _ => True
  | RateLimiter.Fire now i =>
      match nth_error (RateLimiter.timers w) i with
      | Some tm => (due_time tm <= inject_Z now)%Q
      | None => True
      end
  end.

(** A run all of whose timer callbacks are on time. *)
Fixpoint punctual (evs : list RateLimiter.event) (w : RateLimiter.World) : Prop :=
  match evs with
  | [] => True
  | e :: tl =>
      on_time w e /\
      match RateLimiter.step w e with
      | Some w' => punctual tl w'
      | None => True
      end
  end.

Definition is_Fire (e : RateLimiter.event) : bool :=
  match e with
  | RateLimiter.Fire _ _ => true
  | RateLimiter.Acquire _ _ => false
  end.

(** A pending timer that is due before the gate opens again: its callback
    may find the gate closed and arm a new timer. *)
Definition stale (l : RateLimiter.t) (tm : RateLimiter.Timer) : bool :=
  negb (Qle_bool (inject_Z (RateLimiter.lastRequestTime l) + RateLimiter.rateLimit l)
                 (due_time tm)).

(** [1 + 2 + ... + q]. *)
Fixpoint triangle (q : nat) : nat :=
  match q with
  | O => O
  | S q' => (S q' + triangle q')%nat
  end.

(** The timer callbacks still to come, at most: every queued caller is
    resolved by one, and between two dispatches every pending timer can
    be armed anew once. *)
Definition effort (w : RateLimiter.World) : nat :=
  (triangle (List.length (RateLimiter.queue (RateLimiter.limiter w))) +
   List.length (filter (stale (RateLimiter.limiter w)) (RateLimiter.timers w)))%nat.

(** The world of [Sample.burst_events] after the four calls: one caller
    resolved, three queued. *)
Definition burst_queued : RateLimiter.World :=
  Eval vm_compute in
    match RateLimiter.run (firstn 4 Sample.burst_events) (RateLimiter.init 2) with
    | Some w => w
    | None => RateLimiter.init 2
    end.

(** Timer callbacks that run late: the three timers run at 1501, and the
    first resolves a caller; the two armed anew are due at 2001 and run
    at 2003, and so on. *)
Definition late_callbacks : list RateLimiter.event :=
  [RateLimiter.Fire 1501 0%nat; RateLimiter.Fire 1501 0%nat; RateLimiter.Fire 1501 0%nat;
   RateLimiter.Fire 2003 0%nat; RateLimiter.Fire 2003 0%nat;
   RateLimiter.Fire 2505 0%nat].

Definition burst_late : RateLimiter.World :=
  Eval vm_compute in
    match RateLimiter.run late_callbacks burst_queued with
    | Some w => w
    | None => burst_queued
    end.

(* ===================================================================== *)
(** * Properties of the RateLimiter *)
(* ===================================================================== *)

Section RateLimiterFacts.
Import RateLimiter.

Local Open Scope Q_scope.

Lemma inject_Z_sub (a b : Z) : inject_Z (a - b) == inject_Z a - inject_Z b.
Proof.
  unfold Z.sub. rewrite inject_Z_plus, inject_Z_opp. reflexivity.
Qed.

Lemma spaced_snoc rl times now :
  spaced rl times ->
  (forall a, last times 0%Z = a -> times <> [] -> rl <= inject_Z (now - a)) ->
  spaced rl (times ++ [now]).
Proof.
  induction times as [|a [|b tl] IH]; intros Hs Hlast; simpl.
  - exact I.
  - split; [|exact I]. apply Hlast; [reflexivity|discriminate].
  - destruct Hs as [Hab Hs]. split; [exact Hab|].
    apply IH; [exact Hs|].
    intros x Hx _. apply Hlast; [|discriminate]. exact Hx.
Qed.

Lemma spaced_consecutive rl times i a b :
  spaced rl times ->
  nth_error times i = Some a -> nth_error times (S i) = Some b ->
  rl <= inject_Z (b - a).
Proof.
  revert i. induction times as [|x [|y tl] IH]; intros i Hs Ha Hb.
  - destruct i; discriminate.
  - destruct i; simpl in Hb; [discriminate|destruct i; discriminate].
  - destruct Hs as [Hxy Hs]. destruct i as [|i].
    + simpl in Ha, Hb. injection Ha as <-. injection Hb as <-. exact Hxy.
    + apply (IH i Hs); assumption.
Qed.

Lemma spaced_between rl times i k a b :
  spaced rl times ->
  nth_error times i = Some a -> nth_error times (i + k) = Some b ->
  inject_Z (Z.of_nat k) * rl <= inject_Z (b - a).
Proof.
  intros Hs Ha. revert b. induction k as [|k IH]; intros b Hb.
  - rewrite Nat.add_0_r, Ha in Hb. injection Hb as <-.
    rewrite Z.sub_diag. change (inject_Z (Z.of_nat 0)) with 0.
    change (inject_Z 0) with 0. lra.
  - rewrite Nat.add_succ_r in Hb.
    destruct (nth_error times (i + k)) as [c|] eqn:Hc.
    + specialize (IH c eq_refl).
      pose proof (spaced_consecutive rl times (i + k) c b Hs Hc Hb) as Hstep.
      rewrite Nat2Z.inj_succ. unfold Z.succ.
      rewrite inject_Z_plus. rewrite inject_Z_sub in *.
      change (inject_Z 1) with 1. lra.
    + apply nth_error_None in Hc.
      assert (nth_error times (S (i + k)) = None) as Hn by (apply nth_error_None; lia).
      congruence.
Qed.

Lemma last_snoc {A} (l : list A) (x d : A) : last (l ++ [x]) d = x.
Proof.
  induction l as [|y tl IH]; [reflexivity|].
  simpl. destruct (tl ++ [x])%list eqn:E; [destruct tl; discriminate|exact IH].
Qed.

Lemma processQueue_Inv rl acq now w :
  Inv rl acq w -> Inv rl acq (processQueue now w).
Proof.
  intros HI. pose proof HI as [Hr Hf Hs Hl]. unfold processQueue.
  destruct (queue (limiter w)) as [|next rest] eqn:Hq.
  - exact HI.
  - destruct (Qle_bool _ _) eqn:Hle.
    + apply Qle_bool_iff in Hle. rewrite Hr in Hle.
      split; simpl.
      * exact Hr.
      * rewrite map_app, <- app_assoc. simpl. exact Hf.
      * rewrite map_app. simpl. apply spaced_snoc; [exact Hs|].
        intros a Ha Hne. rewrite <- Ha, Hl; [exact Hle|].
        intro E. apply Hne. rewrite E. reflexivity.
      * intros _. rewrite map_app. simpl. apply last_snoc.
    + split; simpl; try assumption. rewrite Hq. exact Hf.
Qed.

Lemma step_Inv rl acq w e w' :
  Inv rl acq w -> step w e = Some w' -> Inv rl (acq ++ acquired [e]) w'.
Proof.
  intros HI Hstep. destruct e as [now r|now i]; simpl in Hstep.
  - injection Hstep as <-. unfold acquire. apply processQueue_Inv.
    destruct HI as [Hr Hf Hs Hl]. split; simpl; try assumption.
    rewrite app_assoc, Hf. reflexivity.
  - destruct (nth_error (timers w) i); [|discriminate].
    injection Hstep as <-. simpl. rewrite app_nil_r.
    apply processQueue_Inv. destruct HI as [Hr Hf Hs Hl]. split; assumption.
Qed.

Lemma acquired_app evs evs' : acquired (evs ++ evs') = (acquired evs ++ acquired evs')%list.
Proof.
  induction evs as [|[now r|now i] tl IH]; simpl; [reflexivity| |exact IH].
  rewrite IH. reflexivity.
Qed.

Lemma run_Inv rl evs : forall acq w w',
  Inv rl acq w -> run evs w = Some w' -> Inv rl (acq ++ acquired evs) w'.
Proof.
  induction evs as [|e tl IH]; intros acq w w' HI Hrun; simpl in Hrun.
  - injection Hrun as <-. simpl. rewrite app_nil_r. exact HI.
  - destruct (step w e) as [w1|] eqn:Hstep; [|discriminate].
    change (e :: tl) with ([e] ++ tl)%list. rewrite acquired_app, app_assoc.
    apply (IH _ w1); [|exact Hrun].
    apply (step_Inv rl acq w e); assumption.
Qed.

Lemma init_Inv rps : Inv (1000 / rps) [] (init rps).
Proof.
  split; simpl; try reflexivity; try exact I; try (intros H; contradiction).
Qed.

(** C1. Whatever the order and the clock readings of the [acquire()]
    calls and of the timer callbacks, the callbacks are resolved in the
    order of the calls (the resolved ones followed by the queued ones are
    the calls made); two consecutive resolutions are at least
    [1000 / requestsPerSecond] ms apart; and of any two resolutions the one
    [k] places later comes at least [k] times that spacing after the
    other, so the resolution number [k] (counted from 0) is at least [k]
    spacings after the first.  The burst of N calls made at one instant is
    the case where all [Acquire] events carry the same reading. *)
Theorem acquire_fifo_and_spacing (requestsPerSecond : Q) (evs : list event) (w : World) :
  0 < requestsPerSecond ->
  run evs (init requestsPerSecond) = Some w ->
  (map fst (resolved w) ++ queue (limiter w))%list = acquired evs /\
  (forall i a b,
      nth_error (resolved w) i = Some a ->
      nth_error (resolved w) (S i) = Some b ->
      1000 / requestsPerSecond <= inject_Z (snd b - snd a)) /\
  (forall i k a b,
      nth_error (resolved w) i = Some a ->
      nth_error (resolved w) (i + k) = Some b ->
      inject_Z (Z.of_nat k) * (1000 / requestsPerSecond) <= inject_Z (snd b - snd a)).
Proof.
  intros _ Hrun.
  pose proof (run_Inv _ evs [] _ _ (init_Inv requestsPerSecond) Hrun) as [Hr Hf Hs Hl].
  simpl in Hf. split; [exact Hf|]. split.
  - intros i a b Ha Hb.
    apply (spaced_consecutive _ (map snd (resolved w)) i); [exact Hs| |];
      rewrite nth_error_map; [rewrite Ha|rewrite Hb]; reflexivity.
  - intros i k a b Ha Hb.
    apply (spaced_between _ (map snd (resolved w)) i k); [exact Hs| |];
      rewrite nth_error_map; [rewrite Ha|rewrite Hb]; reflexivity.
Qed.

End RateLimiterFacts.

(** The burst of [Sample.burst_events]: the hypotheses hold and all four
    callers are resolved, one every 500 ms. *)
Lemma acquire_fifo_and_spacing_witness :
  (0 < 2)%Q /\
  RateLimiter.run Sample.burst_events (RateLimiter.init 2) = Some Sample.burst_world /\
  RateLimiter.resolved Sample.burst_world =
    [(0%nat, 1000); (1%nat, 1500); (2%nat, 2000); (3%nat, 2500)] /\
  ((map fst (RateLimiter.resolved Sample.burst_world) ++
    RateLimiter.queue (RateLimiter.limiter Sample.burst_world))%list
   = RateLimiter.acquired Sample.burst_events /\
   (forall i a b,
       nth_error (RateLimiter.resolved Sample.burst_world) i = Some a ->
       nth_error (RateLimiter.resolved Sample.burst_world) (S i) = Some b ->
       (1000 / 2 <= inject_Z (snd b - snd a))%Q) /\
   (forall i k a b,
       nth_error (RateLimiter.resolved Sample.burst_world) i = Some a ->
       nth_error (RateLimiter.resolved Sample.burst_world) (i + k) = Some b ->
       (inject_Z (Z.of_nat k) * (1000 / 2) <= inject_Z (snd b - snd a))%Q)).
Proof.
  split; [reflexivity|]. split; [vm_compute; reflexivity|].
  split; [vm_compute; reflexivity|].
  apply (acquire_fifo_and_spacing 2 Sample.burst_events Sample.burst_world).
  - reflexivity.
  - vm_compute. reflexivity.
Defined.

(* ===================================================================== *)
(** * Properties of objects as property lists *)
(* ===================================================================== *)

Section PropsFacts.

Lemma field_set_prop k k' v o :
  field k (set_prop k' v o) = if String.eqb k k' then v else field k o.
Proof.
  induction o as [|[k0 v0] tl IH]; simpl.
  - destruct (String.eqb k k'); reflexivity.
  - destruct (String.eqb k' k0) eqn:E0; simpl.
    + apply String.eqb_eq in E0. subst k0.
      destruct (String.eqb k k'); reflexivity.
    + destruct (String.eqb k k0) eqn:E1.
      * apply String.eqb_eq in E1. subst k0.
        rewrite String.eqb_sym in E0. rewrite E0. reflexivity.
      * exact IH.
Qed.

Lemma has_own_In k o : has_own k o = true <-> In k (map fst o).
Proof.
  induction o as [|[k0 v0] tl IH]; simpl.
  - split; [discriminate|contradiction].
  - rewrite orb_true_iff, IH, String.eqb_eq. split; intros [H|H]; auto.
Qed.

Lemma set_prop_fresh k v o :
  ~ In k (map fst o) -> set_prop k v o = (o ++ [(k, v)])%list.
Proof.
  induction o as [|[k0 v0] tl IH]; simpl; intros Hn; [reflexivity|].
  destruct (String.eqb k k0) eqn:E.
  - apply String.eqb_eq in E. exfalso. auto.
  - rewrite IH; [reflexivity|]. auto.
Qed.

Lemma keys_set_prop k v o :
  map fst (set_prop k v o) =
  if has_own k o then map fst o else (map fst o ++ [k])%list.
Proof.
  induction o as [|[k0 v0] tl IH]; simpl; [reflexivity|].
  destruct (String.eqb k k0) eqn:E; simpl; [reflexivity|].
  rewrite IH. destruct (has_own k tl); reflexivity.
Qed.

Lemma NoDup_set_prop k v o :
  NoDup (map fst o) -> NoDup (map fst (set_prop k v o)).
Proof.
  intros Hn. rewrite keys_set_prop. destruct (has_own k o) eqn:E; [exact Hn|].
  apply NoDup_app; [exact Hn|repeat constructor; simpl; tauto|].
  intros x Hx [<-|[]]. apply has_own_In in Hx. congruence.
Qed.

Lemma spread_fresh src : forall o,
  NoDup (map fst src) ->
  (forall k, In k (map fst src) -> ~ In k (map fst o)) ->
  spread o src = (o ++ src)%list.
Proof.
  unfold spread. induction src as [|[k v] tl IH]; intros o Hn Hfresh; simpl.
  - rewrite app_nil_r. reflexivity.
  - simpl in Hn. inversion Hn as [|? ? Hk Hn']; subst.
    rewrite set_prop_fresh by (apply Hfresh; simpl; auto).
    rewrite IH; [rewrite <- app_assoc; reflexivity|exact Hn'|].
    intros k0 Hin. rewrite map_app, in_app_iff. simpl.
    intros [H|[H|[]]].
    + apply (Hfresh k0); simpl; auto.
    + subst k0. contradiction.
Qed.

Lemma spread_nil_NoDup o : NoDup (map fst o) -> spread [] o = o.
Proof.
  intros Hn. rewrite spread_fresh; [reflexivity|exact Hn|]. intros k _ [].
Qed.

Lemma Object_fromEntries_NoDup o : NoDup (map fst o) -> Object_fromEntries o = o.
Proof. apply spread_nil_NoDup. Qed.

Lemma field_spread_other k src : forall o,
  has_own k src = false -> field k (spread o src) = field k o.
Proof.
  unfold spread. induction src as [|[k0 v0] tl IH]; intros o Hk; simpl; [reflexivity|].
  simpl in Hk. apply orb_false_iff in Hk as [Hk0 Hk].
  rewrite IH by exact Hk. simpl. rewrite field_set_prop, Hk0. reflexivity.
Qed.

End PropsFacts.

(* ===================================================================== *)
(** * Properties of the dispatcher *)
(* ===================================================================== *)

Import Dispatcher.

Lemma race_settled l : forall p,
  state p <> None -> fold_left race_settle l p = p.
Proof.
  induction l as [|x tl IH]; intros p Hp; simpl; [reflexivity|].
  assert (race_settle p x = p) as ->.
  { unfold race_settle. destruct (state p); [reflexivity|contradiction]. }
  apply IH. exact Hp.
Qed.

Lemma race_first s rest :
  reactions (Promise_race (s :: rest)) = [s].
Proof.
  unfold Promise_race. simpl.
  rewrite race_settled; [reflexivity|]. simpl. discriminate.
Qed.

Lemma settlements_nonempty timer_after (r : Run ToolResult) :
  exists s rest, settlements timer_after r = s :: rest.
Proof.
  unfold settlements. destruct (outcome r); [destruct (Nat.ltb _ _)|]; eauto.
Qed.

Lemma resultPromise_unknown h name args :
  ~ In name declared_tools ->
  resultPromise h name args = Raise (McpError MethodNotFound ("Unknown tool: " ++ name)).
Proof.
  intros Hn. unfold resultPromise.
  repeat match goal with
         | |- context [String.eqb name ?s] =>
             let E := fresh "E" in
             destruct (String.eqb name s) eqn:E;
             [apply String.eqb_eq in E; exfalso; apply Hn; rewrite E; simpl; tauto|]
         end.
  reflexivity.
Qed.

(** C8. A name that is not among the declared tools makes the handler
    throw [McpError(ErrorCode.MethodNotFound, "Unknown tool: <name>")] to
    its caller; nothing is observed: no handler method is entered and
    [RateLimiter.acquire()] is not called (nor any other call made). *)
Theorem unknown_tool_is_MethodNotFound h world timer_after name args :
  ~ In name declared_tools ->
  callTool h world timer_after name args =
  {| surfaced := [Throw (McpError MethodNotFound ("Unknown tool: " ++ name))];
     observed := [] |}.
Proof.
  intros Hn. unfold callTool. rewrite (resultPromise_unknown h name args Hn).
  cbn [exec trace]. unfold settlements. cbn [outcome awaits settlement_of].
  replace (Nat.ltb timer_after 0) with false by (destruct timer_after; reflexivity).
  rewrite race_first. reflexivity.
Qed.

(** [bogus_tool] is such a name. *)
Lemma unknown_tool_is_MethodNotFound_witness :
  ~ In "bogus_tool" declared_tools /\
  callTool Sample.host (Sample.world JNull EmptyString JNull) 0 "bogus_tool" (JObj []) =
  {| surfaced := [Throw (McpError MethodNotFound "Unknown tool: bogus_tool")];
     observed := [] |}.
Proof.
  split.
  - simpl. intros H. repeat (destruct H as [H|H]; [discriminate H|]). exact H.
  - apply (unknown_tool_is_MethodNotFound Sample.host
             (Sample.world JNull EmptyString JNull) 0 "bogus_tool" (JObj [])).
    simpl. intros H. repeat (destruct H as [H|H]; [discriminate H|]). exact H.
Defined.

(** C2. An invocation surfaces exactly one outcome.  If the handler has
    not settled when the timer of [toolTimeout] runs (it never settles, or
    it still has an await to complete), that outcome is the envelope
    [{ content: [{ type: "text", text: "Tool execution timed out after
    30s" }], isError: true }]; the handler's own, later settlement is not
    surfaced. *)
Theorem timeout_surfaces_once h world timer_after name args :
  let r := exec world 0 (resultPromise h name args) in
  List.length (surfaced (callTool h world timer_after name args)) = 1%nat /\
  (outcome r = None \/ (timer_after < awaits r)%nat ->
   surfaced (callTool h world timer_after name args) =
   [Ok (error_envelope "Tool execution timed out after 30s")]).
Proof.
  intros r. unfold callTool. fold r. cbn [surfaced]. split.
  - destruct (settlements_nonempty timer_after r) as (s & rest & ->).
    rewrite race_first. reflexivity.
  - intros Hlate. unfold settlements.
    destruct (outcome r) as [o|].
    + destruct Hlate as [Hnone|Hlt]; [discriminate|].
      apply Nat.ltb_lt in Hlt. rewrite Hlt. rewrite race_first. reflexivity.
    + rewrite race_first. reflexivity.
Qed.

(** ** What a schema lets through *)

Lemma parse_shape_field h shape : forall input out k,
  Zod.parse_shape h shape input = Some out ->
  field k out = JUndefined \/
  exists t, In (k, t) shape /\ Zod.parse h t (field k input) = Some (field k out).
Proof.
  induction shape as [|[k0 t0] tl IH]; intros input out k Hp; simpl in Hp.
  - injection Hp as <-. left. reflexivity.
  - destruct (Zod.parse h t0 (field k0 input)) as [v|] eqn:Hv; [|discriminate].
    destruct (Zod.parse_shape h tl input) as [rest|] eqn:Hrest;
      [|destruct v; discriminate].
    assert (field k rest = JUndefined \/
            exists t, In (k, t) ((k0, t0) :: tl) /\
                      Zod.parse h t (field k input) = Some (field k rest)) as Hrec.
    { destruct (IH input rest k Hrest) as [H|(t & Hin & Ht)]; [left; exact H|].
      right. exists t. split; [right; exact Hin|exact Ht]. }
    assert (out = rest \/ (out = (k0, v) :: rest /\ v <> JUndefined)) as [->|[-> Hne]].
    { destruct v; injection Hp as <-; auto; right; split; auto; discriminate. }
    + exact Hrec.
    + simpl. destruct (String.eqb k k0) eqn:E; [|exact Hrec].
      apply String.eqb_eq in E. subst k0. right. exists t0. split; [left; reflexivity|exact Hv].
Qed.

Lemma parse_shape_keys h shape : forall input out k,
  Zod.parse_shape h shape input = Some out ->
  In k (map fst out) -> In k (map fst shape).
Proof.
  induction shape as [|[k0 t0] tl IH]; intros input out k Hp Hin; simpl in Hp.
  - injection Hp as <-. exact Hin.
  - destruct (Zod.parse h t0 (field k0 input)) as [v|]; [|discriminate].
    destruct (Zod.parse_shape h tl input) as [rest|] eqn:Hrest;
      [|destruct v; discriminate].
    assert (out = rest \/ out = (k0, v) :: rest) as [->| ->]
      by (destruct v; injection Hp as <-; auto).
    + right. apply (IH input rest k Hrest Hin).
    + destruct Hin as [<-|Hin]; [left; reflexivity|].
      right. apply (IH input rest k Hrest Hin).
Qed.

Lemma parse_shape_NoDup h shape : forall input out,
  NoDup (map fst shape) ->
  Zod.parse_shape h shape input = Some out ->
  NoDup (map fst out).
Proof.
  induction shape as [|[k0 t0] tl IH]; intros input out Hn Hp; simpl in Hp.
  - injection Hp as <-. constructor.
  - inversion Hn as [|? ? Hk0 Hn']; subst.
    destruct (Zod.parse h t0 (field k0 input)) as [v|]; [|discriminate].
    destruct (Zod.parse_shape h tl input) as [rest|] eqn:Hrest;
      [|destruct v; discriminate].
    specialize (IH input rest Hn' Hrest).
    assert (out = rest \/ out = (k0, v) :: rest) as [->| ->]
      by (destruct v; injection Hp as <-; auto).
    + exact IH.
    + simpl. constructor; [|exact IH].
      intros Hin. apply Hk0. apply (parse_shape_keys h tl input rest k0 Hrest Hin).
Qed.

Ltac solve_NoDup :=
  repeat (constructor; [simpl; intuition discriminate|]); constructor.

(** Every schema of an update tool declares [packagePath] as
    [z.string().optional()], so a validated [packagePath] is a string or
    absent. *)
Lemma validated_packagePath h name schema method args parsed :
  In (name, schema, method) update_tools ->
  Zod.safeParse h schema args = Some parsed ->
  NoDup (map fst parsed) /\
  (field "packagePath" parsed = JUndefined \/ exists p, field "packagePath" parsed = JStr p).
Proof.
  intros Hin Hp. unfold Zod.safeParse in Hp.
  destruct args as [| | | | | | |input|]; try discriminate.
  assert (NoDup (map fst schema) /\
          forall t, In ("packagePath", t) schema -> t = Zod.z_optional Zod.z_string)
    as [Hnd Hty].
  { simpl in Hin.
    repeat (destruct Hin as [Hin|Hin];
            [injection Hin as <- <- <-; split;
             [simpl; solve_NoDup
             |intros t Ht; simpl in Ht;
              repeat (destruct Ht as [Ht|Ht];
                      [first [injection Ht as <-; reflexivity|discriminate Ht]|]);
              contradiction]|]).
    contradiction. }
  split; [apply (parse_shape_NoDup h schema input parsed Hnd Hp)|].
  destruct (parse_shape_field h schema input parsed "packagePath" Hp) as [H|(t & Ht & Hv)];
    [left; exact H|].
  apply Hty in Ht. subst t. simpl in Hv.
  destruct (field "packagePath" input); simpl in Hv; try discriminate;
    injection Hv as Hv; rewrite <- Hv; eauto.
Qed.

Lemma resolvePackagePath_missing h packagePath :
  (packagePath = JUndefined \/ exists p, packagePath = JStr p) ->
  fs_existsSync h (path_resolve h (process_cwd h) (manifest_argument packagePath)) = false ->
  NpmCheckUpdatesHandler.resolvePackagePath h packagePath =
  Throw (Error ("Package file not found: " ++
                path_resolve h (process_cwd h) (manifest_argument packagePath))).
Proof.
  intros [->|[p ->]] Hmissing; unfold NpmCheckUpdatesHandler.resolvePackagePath;
    simpl in *.
  - rewrite Hmissing. reflexivity.
  - destruct (String.eqb p EmptyString); simpl; rewrite Hmissing; reflexivity.
Qed.

Lemma resolvePackagePath_found h packagePath :
  (packagePath = JUndefined \/ exists p, packagePath = JStr p) ->
  fs_existsSync h (path_resolve h (process_cwd h) (manifest_argument packagePath)) = true ->
  NpmCheckUpdatesHandler.resolvePackagePath h packagePath =
  Ok (path_resolve h (process_cwd h) (manifest_argument packagePath)).
Proof.
  intros [->|[p ->]] Hfound; unfold NpmCheckUpdatesHandler.resolvePackagePath;
    simpl in *.
  - rewrite Hfound. reflexivity.
  - destruct (String.eqb p EmptyString); simpl; rewrite Hfound; reflexivity.
Qed.

(** ** The update tools *)

Lemma resultPromise_update_tools h args :
  resultPromise h "check_updates" args =
    (letP parsed := parse_args h Zod.CheckUpdatesSchema args in
     letP r := NpmCheckUpdatesHandler.checkUpdates h parsed in
     Return (ncu_text h r)) /\
  resultPromise h "upgrade_packages" args =
    (letP parsed := parse_args h Zod.UpgradePackagesSchema args in
     letP r := NpmCheckUpdatesHandler.upgradePackages h parsed in
     Return (ncu_text h r)) /\
  resultPromise h "filter_updates" args =
    (letP parsed := parse_args h Zod.FilterUpdatesSchema args in
     letP r := NpmCheckUpdatesHandler.filterUpdates h parsed in
     Return (ncu_text h r)) /\
  resultPromise h "resolve_conflicts" args =
    (letP parsed := parse_args h Zod.ResolveConflictsSchema args in
     letP r := NpmCheckUpdatesHandler.resolveConflicts h
                 (spread (spread [] parsed) [("peer", JBool true)]) in
     Return (ncu_text h r)) /\
  resultPromise h "set_version_constraints" args =
    (letP parsed := parse_args h Zod.SetVersionConstraintsSchema args in
     letP r := NpmCheckUpdatesHandler.setVersionConstraints h parsed in
     Return (ncu_text h r)) /\
  resultPromise h "run_doctor" args =
    (letP parsed := parse_args h Zod.RunDoctorSchema args in
     letP r := NpmCheckUpdatesHandler.runDoctor h parsed in
     Return (ncu_text h r)).
Proof. repeat split. Qed.

Lemma callTool_throws_at_once h world timer_after name args tr e :
  exec world 0 (resultPromise h name args) = mkRun tr 0 (Some (Throw e)) ->
  callTool h world timer_after name args =
  {| surfaced := [after_race (Rejected e)]; observed := tr |}.
Proof.
  intros Hexec. unfold callTool. rewrite Hexec. cbn [trace].
  unfold settlements. cbn [outcome awaits settlement_of].
  replace (Nat.ltb timer_after 0) with false by (destruct timer_after; reflexivity).
  rewrite race_first. reflexivity.
Qed.

Lemma callTool_fails_at_once h world timer_after name args tr message :
  exec world 0 (resultPromise h name args) = mkRun tr 0 (Some (Throw (Error message))) ->
  callTool h world timer_after name args =
  {| surfaced := [Ok (error_envelope message)]; observed := tr |}.
Proof.
  intros Hexec. rewrite (callTool_throws_at_once _ _ _ _ _ _ _ Hexec). reflexivity.
Qed.

Lemma peer_added_keeps_packagePath parsed :
  NoDup (map fst parsed) ->
  field "packagePath" (spread (spread [] parsed) [("peer", JBool true)]) =
  field "packagePath" parsed.
Proof.
  intros Hnd. rewrite field_spread_other by reflexivity.
  rewrite spread_nil_NoDup by exact Hnd. reflexivity.
Qed.

(** C9. For each of the six update tools, called with arguments that pass
    its schema: when the resolved manifest path does not exist, the caller
    gets the [isError: true] envelope whose text is
    [Package file not found: <resolved path>], and the only thing observed
    is the entry into the handler method, so [ncu.run] is not called. *)
Theorem missing_manifest_is_reported
    h world timer_after name schema method args parsed :
  In (name, schema, method) update_tools ->
  Zod.safeParse h schema args = Some parsed ->
  fs_existsSync h
    (path_resolve h (process_cwd h) (manifest_argument (field "packagePath" parsed)))
  = false ->
  callTool h world timer_after name args =
  {| surfaced :=
       [Ok (error_envelope
              ("Package file not found: " ++
               path_resolve h (process_cwd h)
                 (manifest_argument (field "packagePath" parsed))))];
     observed := [Entered method] |}.
Proof.
  intros Hin Hp Hmissing.
  destruct (validated_packagePath h name schema method args parsed Hin Hp) as [Hnd Hpp].
  pose proof (resolvePackagePath_missing h _ Hpp Hmissing) as Hres.
  pose proof (peer_added_keeps_packagePath parsed Hnd) as Hpeer.
  destruct (resultPromise_update_tools h args) as (P1 & P2 & P3 & P4 & P5 & P6).
  simpl in Hin.
  repeat (destruct Hin as [Hin|Hin];
          [injection Hin as <- <- <-;
           apply callTool_fails_at_once;
           first [rewrite P1|rewrite P2|rewrite P3|rewrite P4|rewrite P5|rewrite P6];
           unfold parse_args; rewrite Hp; cbn [Prog_bind];
           unfold NpmCheckUpdatesHandler.checkUpdates,
             NpmCheckUpdatesHandler.upgradePackages,
             NpmCheckUpdatesHandler.filterUpdates,
             NpmCheckUpdatesHandler.resolveConflicts,
             NpmCheckUpdatesHandler.setVersionConstraints,
             NpmCheckUpdatesHandler.runDoctor;
           rewrite ?Hpeer; rewrite Hres; reflexivity|]).
  contradiction.
Qed.

(** C9 on the sample host: [missing/package.json] is not there. *)
Lemma missing_manifest_is_reported_witness :
  In ("check_updates", Zod.CheckUpdatesSchema, "NpmCheckUpdatesHandler.checkUpdates")
     update_tools /\
  Zod.safeParse Sample.host Zod.CheckUpdatesSchema
    (JObj [("packagePath", JStr "missing/package.json")])
  = Some [("packagePath", JStr "missing/package.json")] /\
  fs_existsSync Sample.host "/srv/app/missing/package.json" = false /\
  callTool Sample.host (Sample.world JNull EmptyString (JObj [])) 0 "check_updates"
    (JObj [("packagePath", JStr "missing/package.json")]) =
  {| surfaced :=
       [Ok (error_envelope "Package file not found: /srv/app/missing/package.json")];
     observed := [Entered "NpmCheckUpdatesHandler.checkUpdates"] |}.
Proof.
  split; [left; reflexivity|]. split; [reflexivity|]. split; [reflexivity|].
  apply (missing_manifest_is_reported Sample.host
           (Sample.world JNull EmptyString (JObj [])) 0
           "check_updates" Zod.CheckUpdatesSchema "NpmCheckUpdatesHandler.checkUpdates"
           (JObj [("packagePath", JStr "missing/package.json")])
           [("packagePath", JStr "missing/package.json")]).
  - left. reflexivity.
  - reflexivity.
  - reflexivity.
Defined.

(** ** Programs that make no call *)
Lemma silent_lift {A} (r : Result A) : silent (lift r).
Proof. destruct r; exact I. Qed.

Lemma silent_bind {A B} (p : Prog A) (f : A -> Prog B) :
  silent p -> (forall a, silent (f a)) -> silent (Prog_bind p f).
Proof. destruct p; simpl; intros Hp Hf; try contradiction; auto. Qed.

Lemma silent_try_catch {A} (p : Prog A) handler :
  silent p -> (forall e, silent (handler e)) -> silent (try_catch p handler).
Proof. destruct p; simpl; intros Hp Hh; try contradiction; auto. Qed.

Lemma silent_if {A} (b : bool) (p q : Prog A) :
  silent p -> silent q -> silent (if b then p else q).
Proof. destruct b; auto. Qed.

Lemma silent_trace {A} world n (p : Prog A) : silent p -> trace (exec world n p) = [].
Proof. destruct p; simpl; intros Hp; try contradiction; reflexivity. Qed.

Ltac solve_silent :=
  repeat first
    [ exact I | apply silent_lift | apply silent_bind | apply silent_try_catch
    | apply silent_if | intro ].

Lemma field_flag_if k k0 options o :
  String.eqb k k0 = false ->
  field k (NpmCheckUpdatesHandler.flag_if k0 options o) = field k o.
Proof.
  intros Hk. unfold NpmCheckUpdatesHandler.flag_if.
  destruct (truthy _); [|reflexivity]. rewrite field_set_prop, Hk. reflexivity.
Qed.

Lemma field_copy_if k k0 k1 options o :
  String.eqb k k1 = false ->
  field k (NpmCheckUpdatesHandler.copy_if k0 k1 options o) = field k o.
Proof.
  intros Hk. unfold NpmCheckUpdatesHandler.copy_if.
  destruct (truthy _); [|reflexivity]. rewrite field_set_prop, Hk. reflexivity.
Qed.

Lemma NoDup_flag_if k options o :
  NoDup (map fst o) -> NoDup (map fst (NpmCheckUpdatesHandler.flag_if k options o)).
Proof.
  intros Hn. unfold NpmCheckUpdatesHandler.flag_if.
  destruct (truthy _); [apply NoDup_set_prop|]; exact Hn.
Qed.

Lemma NoDup_copy_if k k' options o :
  NoDup (map fst o) -> NoDup (map fst (NpmCheckUpdatesHandler.copy_if k k' options o)).
Proof.
  intros Hn. unfold NpmCheckUpdatesHandler.copy_if.
  destruct (truthy _); [apply NoDup_set_prop|]; exact Hn.
Qed.

Lemma resolveConflicts_options_peer packageFile options :
  field "peer" (runNcu_options (resolveConflicts_options packageFile options)) = JBool true.
Proof.
  unfold runNcu_options, resolveConflicts_options.
  rewrite field_spread_other by reflexivity.
  rewrite spread_nil_NoDup.
  - rewrite field_copy_if, !field_flag_if by reflexivity. reflexivity.
  - apply NoDup_copy_if, NoDup_flag_if, NoDup_flag_if. simpl. solve_NoDup.
Qed.

Lemma resolveConflicts_trace h world options :
  let r := exec world 0 (NpmCheckUpdatesHandler.resolveConflicts h options) in
  match NpmCheckUpdatesHandler.resolvePackagePath h (field "packagePath" options) with
  | Throw e =>
      r = mkRun [Entered "NpmCheckUpdatesHandler.resolveConflicts"] 0 (Some (Throw e))
  | Ok packageFile =>
      trace r = [Entered "NpmCheckUpdatesHandler.resolveConflicts";
                 Called (ncu_run (runNcu_options (resolveConflicts_options packageFile options)))]
  end.
Proof.
  unfold NpmCheckUpdatesHandler.resolveConflicts.
  destruct (NpmCheckUpdatesHandler.resolvePackagePath h (field "packagePath" options))
    as [packageFile|e]; [|reflexivity].
  cbn [lift Prog_bind]. unfold NpmCheckUpdatesHandler.runNcu, await_call.
  fold (resolveConflicts_options packageFile options).
  fold (runNcu_options (resolveConflicts_options packageFile options)).
  cbn [Prog_bind try_catch exec trace].
  destruct (world 0%nat (ncu_run _)) as [reply|]; [|reflexivity].
  cbn [trace]. rewrite silent_trace; [reflexivity|]. solve_silent.
Qed.

Lemma trace_bind_silent {A B} world (p : Prog A) (f : A -> Prog B) :
  (forall a, silent (f a)) ->
  forall n, trace (exec world n (Prog_bind p f)) = trace (exec world n p).
Proof.
  intros Hf. induction p as [a|e|c k IH|m k IH]; intros n; simpl.
  - apply silent_trace, Hf.
  - reflexivity.
  - destruct (world n c) as [r|]; simpl; [|reflexivity]. rewrite IH. reflexivity.
  - rewrite IH. reflexivity.
Qed.

(** C10. Whatever the arguments, every call of [ncu.run] made by a
    [resolve_conflicts] invocation carries [peer: true]; and when the
    arguments pass the schema and the manifest exists, [ncu.run] is called,
    exactly once. *)
Theorem resolve_conflicts_always_peer h world timer_after args :
  Forall (fun options => field "peer" options = JBool true)
    (ncu_calls (observed (callTool h world timer_after "resolve_conflicts" args))) /\
  (forall parsed,
      Zod.safeParse h Zod.ResolveConflictsSchema args = Some parsed ->
      fs_existsSync h
        (path_resolve h (process_cwd h) (manifest_argument (field "packagePath" parsed)))
      = true ->
      exists options,
        ncu_calls (observed (callTool h world timer_after "resolve_conflicts" args))
        = [options]).
Proof.
  unfold callTool. cbn [observed].
  destruct (resultPromise_update_tools h args) as (_ & _ & _ & -> & _).
  unfold parse_args.
  destruct (Zod.safeParse h Zod.ResolveConflictsSchema args) as [parsed|] eqn:Hp.
  - cbn [Prog_bind]. rewrite trace_bind_silent by (intros; exact I).
    assert (In ("resolve_conflicts", Zod.ResolveConflictsSchema,
                "NpmCheckUpdatesHandler.resolveConflicts") update_tools) as Hin
      by (simpl; auto).
    destruct (validated_packagePath h _ _ _ args parsed Hin Hp) as [Hnd Hpp].
    pose proof (resolveConflicts_trace h world
                  (spread (spread [] parsed) [("peer", JBool true)])) as Htr.
    cbv zeta in Htr. rewrite (peer_added_keeps_packagePath parsed Hnd) in Htr.
    split.
    + destruct (NpmCheckUpdatesHandler.resolvePackagePath h (field "packagePath" parsed))
        as [packageFile|e].
      * rewrite Htr. simpl. constructor; [|constructor].
        apply resolveConflicts_options_peer.
      * rewrite Htr. simpl. constructor.
    + intros parsed' Hp' Hfound. injection Hp' as <-.
      rewrite (resolvePackagePath_found h _ Hpp Hfound) in Htr.
      rewrite Htr. simpl. eexists. reflexivity.
  - split; [simpl; constructor|]. intros parsed' Hp'. discriminate.
Qed.

(** C10 on the sample host: the caller passes [peer: false]; the schema
    strips it and [ncu.run] is still called with [peer: true]. *)
Lemma resolve_conflicts_always_peer_witness :
  Zod.safeParse Sample.host Zod.ResolveConflictsSchema
    (JObj [("peer", JBool false); ("upgrade", JBool true)])
  = Some [("upgrade", JBool true)] /\
  fs_existsSync Sample.host "/srv/app/package.json" = true /\
  ncu_calls (observed (callTool Sample.host Sample.world_ncu_hangs 0 "resolve_conflicts"
                         (JObj [("peer", JBool false); ("upgrade", JBool true)])))
  = [[("packageFile", JStr "/srv/app/package.json");
      ("peer", JBool true);
      ("upgrade", JBool true);
      ("jsonUpgraded", JBool true);
      ("silent", JBool true);
      ("stdout", JHost "process.stderr");
      ("stderr", JHost "process.stderr");
      ("loglevel", JStr "silent");
      ("json", JBool true)]] /\
  Forall (fun options => field "peer" options = JBool true)
    (ncu_calls (observed (callTool Sample.host Sample.world_ncu_hangs 0 "resolve_conflicts"
                            (JObj [("peer", JBool false); ("upgrade", JBool true)])))) /\
  exists options,
    ncu_calls (observed (callTool Sample.host Sample.world_ncu_hangs 0 "resolve_conflicts"
                           (JObj [("peer", JBool false); ("upgrade", JBool true)])))
    = [options].
Proof.
  split; [reflexivity|]. split; [reflexivity|]. split; [reflexivity|].
  pose proof (resolve_conflicts_always_peer Sample.host Sample.world_ncu_hangs 0
                (JObj [("peer", JBool false); ("upgrade", JBool true)])) as [Hall Hone].
  split; [exact Hall|].
  apply (Hone [("upgrade", JBool true)]); reflexivity.
Defined.

(** C2 on the sample host: the timer runs after the first await of
    [get_package_versions] (the gate), before the registry has answered. *)
Lemma timeout_surfaces_once_witness :
  (1 < awaits (exec (Sample.world (JObj [("versions", JObj [("1.0.0", JObj [])])])
                       EmptyString JNull) 0
                 (resultPromise Sample.host "get_package_versions"
                    (JObj [("packageName", JStr "left-pad")]))))%nat /\
  surfaced (callTool Sample.host
              (Sample.world (JObj [("versions", JObj [("1.0.0", JObj [])])])
                 EmptyString JNull) 1 "get_package_versions"
              (JObj [("packageName", JStr "left-pad")])) =
  [Ok (error_envelope "Tool execution timed out after 30s")].
Proof.
  split; [vm_compute; lia|].
  apply (proj2 (timeout_surfaces_once Sample.host
                  (Sample.world (JObj [("versions", JObj [("1.0.0", JObj [])])])
                     EmptyString JNull) 1 "get_package_versions"
                  (JObj [("packageName", JStr "left-pad")]))).
  right. vm_compute. lia.
Defined.

(* ===================================================================== *)
(** * Properties of the shaping and formatting functions *)
(* ===================================================================== *)

Lemma append_assoc (a b c : string) : (a ++ b) ++ c = a ++ (b ++ c).
Proof. induction a as [|x a IH]; simpl; [reflexivity|]. rewrite IH. reflexivity. Qed.

Lemma append_nil_r (a : string) : a ++ EmptyString = a.
Proof. induction a as [|x a IH]; simpl; [reflexivity|]. rewrite IH. reflexivity. Qed.

Lemma length_append (a b : string) :
  String.length (a ++ b) = (String.length a + String.length b)%nat.
Proof. induction a as [|x a IH]; simpl; [reflexivity|]. rewrite IH. reflexivity. Qed.

Lemma length_substring_0 (n : nat) (s : string) :
  (n <= String.length s)%nat -> String.length (String.substring 0 n s) = n.
Proof.
  revert s. induction n as [|n IH]; intros s Hn.
  - destruct s; reflexivity.
  - destruct s as [|c s]; simpl in *; [lia|]. rewrite IH by lia. reflexivity.
Qed.

Lemma relative_index_nonneg len (i : nat) :
  relative_index len (Z.of_nat i) = Nat.min i len.
Proof.
  unfold relative_index.
  destruct (Z.of_nat i <? 0)%Z eqn:E; [apply Z.ltb_lt in E; lia|]. lia.
Qed.

Lemma relative_index_from_end len (i : nat) :
  relative_index len (- Z.of_nat (S i)) = (len - S i)%nat.
Proof.
  unfold relative_index.
  destruct (- Z.of_nat (S i) <? 0)%Z eqn:E; [lia|apply Z.ltb_ge in E; lia].
Qed.

Lemma slice_0 {A} (n : nat) (l : list A) :
  slice 0 (Z.of_nat n) l = firstn (Nat.min (List.length l) n) l.
Proof.
  unfold slice. rewrite (relative_index_nonneg _ 0), relative_index_nonneg.
  simpl. rewrite Nat.sub_0_r, Nat.min_comm. reflexivity.
Qed.

Lemma slice_from_end {A} (n : nat) (l : list A) :
  slice_from (- Z.of_nat (S n)) l = skipn (List.length l - S n) l.
Proof. unfold slice_from. rewrite relative_index_from_end. reflexivity. Qed.

(** C4. For a list of [V] versions the text is a heading (or, for an
    empty list, the sentence that no versions were found), then the first
    [min V 15] versions joined by [", "] and nothing else from the list,
    then, exactly when [V > 15], the line [...and (V - 15) more
    versions]. *)
Theorem formatVersions_shows_min_15 (packageName : string) (versions : list string) :
  let V := List.length versions in
  let shown := firstn (Nat.min V 15) versions in
  List.length shown = Nat.min V 15 /\
  NpmSearcher.formatVersions packageName versions =
    (if Nat.eqb V 0 then "No versions found for " ++ packageName ++ "."
     else NpmSearcher.package_emoji ++ " " ++ packageName ++ nl ++
          "Available versions (newest first):" ++ nl)
    ++ join ", " shown
    ++ (if Nat.ltb 15 V
        then nl ++ "...and " ++ Number_toString (Z.of_nat (V - 15)) ++ " more versions"
        else EmptyString).
Proof.
  intros V shown. split.
  - unfold shown. rewrite length_firstn. fold V. lia.
  - unfold NpmSearcher.formatVersions. fold V.
    destruct (Nat.eqb V 0) eqn:E0.
    + apply Nat.eqb_eq in E0. unfold shown. rewrite E0. simpl.
      rewrite append_nil_r. reflexivity.
    + apply Nat.eqb_neq in E0.
      change 15%Z with (Z.of_nat 15). rewrite slice_0. fold V. fold shown.
      destruct (Nat.ltb 15 V) eqn:E15.
      * apply Nat.ltb_lt in E15.
        replace (Z.of_nat 15 <? Z.of_nat V)%Z with true by (symmetry; apply Z.ltb_lt; lia).
        replace (Z.of_nat V - Z.of_nat 15)%Z with (Z.of_nat (V - 15)) by lia.
        rewrite !append_assoc. reflexivity.
      * apply Nat.ltb_ge in E15.
        replace (Z.of_nat 15 <? Z.of_nat V)%Z with false by (symmetry; apply Z.ltb_ge; lia).
        rewrite append_nil_r, !append_assoc. reflexivity.
Qed.

Lemma substring_head (readme : string) :
  (4000 < String.length readme)%nat ->
  substring 0 NpmSearcher.README_LIMIT readme = String.substring 0 4000 readme.
Proof.
  intros Hlen. unfold substring, NpmSearcher.README_LIMIT.
  replace (Z.to_nat (Z.min (Z.max 0 0) (Z.of_nat (String.length readme)))) with 0%nat by lia.
  replace (Z.to_nat (Z.min (Z.max 4000 0) (Z.of_nat (String.length readme))))
    with 4000%nat by lia.
  reflexivity.
Qed.

Lemma readme_body_long (readme : string) :
  (4000 < String.length readme)%nat ->
  NpmSearcher.readme_body readme =
  String.substring 0 4000 readme ++ NpmSearcher.README_TRUNCATED.
Proof.
  intros Hlen. unfold NpmSearcher.readme_body.
  replace (NpmSearcher.README_LIMIT <? Z.of_nat (String.length readme))%Z with true
    by (symmetry; apply Z.ltb_lt; unfold NpmSearcher.README_LIMIT; lia).
  rewrite substring_head by exact Hlen. reflexivity.
Qed.

Lemma readme_body_short (readme : string) :
  (String.length readme <= 4000)%nat ->
  NpmSearcher.readme_body readme = readme.
Proof.
  intros Hlen. unfold NpmSearcher.readme_body.
  replace (NpmSearcher.README_LIMIT <? Z.of_nat (String.length readme))%Z with false
    by (symmetry; apply Z.ltb_ge; unfold NpmSearcher.README_LIMIT; lia).
  reflexivity.
Qed.

Lemma truthy_JStr (s : string) : truthy (JStr s) = negb (String.eqb s EmptyString).
Proof. reflexivity. Qed.

Lemma append_empty (a b : string) : a ++ b = EmptyString -> a = EmptyString /\ b = EmptyString.
Proof. destruct a; simpl; [auto|discriminate]. Qed.

(** The text [fetchPackageContent] makes of a page, part by part, and its
    README body. *)
Lemma fetchPackageContent_shape_parts (h : Host) (html : string) :
  let text selector := trim (cheerio_text h html selector) in
  let packageName := text "#top h1" in
  let packageVersion := text ("[data-testid=" ++ dquote ++ "version-badge" ++ dquote ++ "]") in
  let description := text "#package-description" in
  let readme := text "#readme" in
  let body := NpmSearcher.readme_body readme in
  let part label value tail :=
    if String.eqb value EmptyString then EmptyString else label ++ value ++ tail in
  NpmSearcher.fetchPackageContent_shape h html =
    (if String.eqb packageName EmptyString && String.eqb packageVersion EmptyString &&
        String.eqb description EmptyString && String.eqb readme EmptyString
     then "No extractable content found."
     else part "Package: " packageName nl ++
          part "Version: " packageVersion nl ++
          part "Description: " description (nl ++ nl) ++
          (if String.eqb readme EmptyString then EmptyString
           else "README:" ++ nl ++ body)) /\
  (String.length body <= 4030)%nat /\
  ((4000 < String.length readme)%nat ->
   exists head,
     String.length head = 4000%nat /\ String.prefix head readme = true /\
     body = head ++ "..." ++ nl ++ "[README content truncated]") /\
  ((String.length readme <= 4000)%nat -> body = readme).
Proof.
  intros text packageName packageVersion description readme body part.
  split; [|split; [|split]].
  - unfold NpmSearcher.fetchPackageContent_shape.
    fold (text "#top h1"). fold packageName.
    fold (text ("[data-testid=" ++ dquote ++ "version-badge" ++ dquote ++ "]")).
    fold packageVersion.
    fold (text "#package-description"). fold description.
    fold (text "#readme"). fold readme. fold body.
    rewrite !truthy_JStr. unfold part.
    destruct (String.eqb packageName EmptyString) eqn:E1;
      destruct (String.eqb packageVersion EmptyString) eqn:E2;
      destruct (String.eqb description EmptyString) eqn:E3;
      destruct (String.eqb readme EmptyString) eqn:E4;
      cbn [negb andb];
      rewrite ?append_nil_r;
      try reflexivity;
      match goal with
      | |- (if negb (String.eqb ?c EmptyString) then _ else _) = _ =>
          destruct (String.eqb c EmptyString) eqn:Ec;
          [apply String.eqb_eq in Ec; simpl in Ec; try discriminate Ec|]
      end;
      cbn [negb]; rewrite ?append_assoc; try reflexivity.
  - destruct (Nat.ltb 4000 (String.length readme)) eqn:E.
    + apply Nat.ltb_lt in E. unfold body. rewrite readme_body_long by exact E.
      rewrite length_append, length_substring_0 by lia. vm_compute. lia.
    + apply Nat.ltb_ge in E. unfold body. rewrite readme_body_short by exact E. lia.
  - intros Hlen. exists (String.substring 0 4000 readme).
    split; [apply length_substring_0; lia|]. split.
    + apply String.prefix_correct. rewrite length_substring_0 by lia. reflexivity.
    + unfold body. rewrite readme_body_long by exact Hlen. reflexivity.
  - intros Hlen. unfold body. apply readme_body_short. exact Hlen.
Qed.

(** ** Package details *)

Lemma get_property v k : nullish v = false -> get v k = Ok (property v k).
Proof.
  unfold property. destruct v; simpl; intros Hn; try discriminate; try reflexivity.
  - destruct (String.eqb k "length"); reflexivity.
  - destruct (String.eqb k "length"); reflexivity.
Qed.

Lemma getPackageDetails_map_reduced entry :
  nullish (snd entry) = false ->
  NpmSearcher.getPackageDetails_map entry = Ok (reduced entry).
Proof.
  destruct entry as [version details]. simpl. intros Hn.
  unfold NpmSearcher.getPackageDetails_map.
  rewrite !(get_property details) by exact Hn. reflexivity.
Qed.

Lemma mapR_all_Ok {A B} (f : A -> Result B) (g : A -> B) (l : list A) :
  Forall (fun x => f x = Ok (g x)) l -> mapR f l = Ok (map g l).
Proof.
  induction 1 as [|x tl Hx _ IH]; simpl; [reflexivity|].
  rewrite Hx. simpl. rewrite IH. reflexivity.
Qed.

Lemma Forall_skipn {A} (P : A -> Prop) n (l : list A) : Forall P l -> Forall P (skipn n l).
Proof.
  revert l. induction n as [|n IH]; intros l Hl; [exact Hl|].
  destruct l as [|x tl]; [constructor|]. simpl. apply IH. inversion Hl; assumption.
Qed.





Lemma keys_reduced (l : Props) : map fst (map reduced l) = map fst l.
Proof. rewrite map_map. apply map_ext. intros [k v]. reflexivity. Qed.


Lemma truthy_not_nullish v : truthy v = true -> nullish v = false.
Proof. destruct v; simpl; intros H; try discriminate; reflexivity. Qed.

Lemma Object_entries_total v : nullish v = false -> exists es, Object_entries v = Ok es.
Proof. destruct v; simpl; intros H; try discriminate; eauto. Qed.

Lemma getPackageDetails_time_total (time : JsValue) :
  exists time', NpmSearcher.getPackageDetails_time time = Ok time'.
Proof.
  unfold NpmSearcher.getPackageDetails_time.
  destruct (truthy time) eqn:Et; [|eauto].
  apply truthy_not_nullish in Et.
  rewrite !(get_property time) by exact Et. cbn [Result_bind].
  destruct (Object_entries_total time Et) as [es ->]. cbn [Result_bind]. eauto.
Qed.


(** ** Search results *)

Lemma get_opt_opt v k : get_opt v k = Ok (opt v k).
Proof.
  unfold opt, get_opt. destruct (nullish v) eqn:E; [reflexivity|].
  rewrite (get_property v k E). reflexivity.
Qed.

Lemma ToString_primitive v : primitive v = true -> exists s, ToString v = Ok s.
Proof.
  destruct v; simpl; intros H; try discriminate; eauto. destruct b; eauto.
Qed.

Lemma toString_opt_primitive what v :
  primitive v = true -> exists w, toString_opt what v = Ok w.
Proof.
  destruct v; simpl; intros H; try discriminate; eauto. destruct b; simpl; eauto.
Qed.

Lemma toString_opt_printed v :
  primitive v = true -> toString_opt "obj.score?.detail?.maintenance?" v = Ok (printed v).
Proof.
  intros H. unfold printed.
  destruct (toString_opt_primitive "obj.score?.detail?.maintenance?" v H) as [w ->].
  reflexivity.
Qed.

Lemma plain_value_primitive v : plain_value v = true -> primitive v = true.
Proof. destruct v; simpl; intros H; try discriminate; reflexivity. Qed.

Lemma ToPrimitive_primitive v : primitive v = true -> ToPrimitive v = Ok v.
Proof. destruct v; simpl; intros H; try discriminate; reflexivity. Qed.

Lemma searchPackages_map_wf h obj :
  wf_search_object obj = true ->
  NpmSearcher.searchPackages_map h obj = Ok (info_of h obj) /\
  (exists n, NpmSearcher.name (info_of h obj) = JStr n) /\
  (exists v, NpmSearcher.version (info_of h obj) = JStr v) /\
  primitive (NpmSearcher.description (info_of h obj)) = true /\
  primitive (NpmSearcher.author (info_of h obj)) = true.
Proof.
  unfold wf_search_object. destruct obj as [| | | | | | |o|]; try discriminate.
  destruct (field "package" o) as [| | | | | | |p|] eqn:Hp; try discriminate.
  intros Hwf. repeat (apply andb_prop in Hwf as [Hwf ?]).
  repeat match goal with
         | H : plain_value _ = true |- _ => apply plain_value_primitive in H
         end.
  unfold info_of, property. cbn [get]. rewrite Hp. cbn [get].
  split; [|repeat split].
  - unfold NpmSearcher.searchPackages_map. cbn [get Result_bind]. rewrite Hp.
    cbn [get Result_bind]. repeat (rewrite get_opt_opt; cbn [Result_bind]).
    rewrite toString_opt_printed by assumption. cbn [Result_bind].
    rewrite ToPrimitive_primitive by assumption. reflexivity.
  - cbn [NpmSearcher.name]. destruct (field "name" p); try discriminate. eauto.
  - cbn [NpmSearcher.version]. destruct (field "version" p); try discriminate. eauto.
  - assumption.
  - assumption.
Qed.

Lemma formatSearchResults_entry_wf pkg n v :
  NpmSearcher.name pkg = JStr n ->
  NpmSearcher.version pkg = JStr v ->
  primitive (NpmSearcher.description pkg) = true ->
  primitive (NpmSearcher.author pkg) = true ->
  exists rest,
    NpmSearcher.formatSearchResults_entry pkg =
    Ok (NpmSearcher.package_emoji ++ " " ++ n ++ "@" ++ v ++ nl ++ rest).
Proof.
  intros Hn Hv Hd Ha. unfold NpmSearcher.formatSearchResults_entry.
  rewrite Hn, Hv. cbn [ToString Result_bind].
  destruct (ToString_primitive _ Hd) as [d ->].
  destruct (ToString_primitive _ Ha) as [a ->].
  destruct (truthy (NpmSearcher.description pkg)), (truthy (NpmSearcher.author pkg));
    cbn [Result_bind]; rewrite ?append_assoc; eexists; reflexivity.
Qed.

Lemma searchPackages_map_all h objects :
  forallb wf_search_object objects = true ->
  mapR (NpmSearcher.searchPackages_map h) objects = Ok (map (info_of h) objects).
Proof.
  intros Hwf. apply mapR_all_Ok. apply Forall_forall. intros obj Hin.
  rewrite forallb_forall in Hwf. apply (searchPackages_map_wf h obj (Hwf obj Hin)).
Qed.

Lemma formatSearchResults_entries h objects :
  forallb wf_search_object objects = true ->
  exists entries,
    mapR NpmSearcher.formatSearchResults_entry (map (info_of h) objects) = Ok entries /\
    Forall2 (fun obj entry => exists rest, entry = entry_heading obj ++ rest)
            objects entries.
Proof.
  induction objects as [|obj tl IH]; simpl; intros Hwf.
  - exists []. split; [reflexivity|constructor].
  - apply andb_prop in Hwf as [Hobj Htl].
    destruct (IH Htl) as (entries & Hentries & Hall).
    destruct (searchPackages_map_wf h obj Hobj) as (_ & [n Hn] & [v Hv] & Hd & Ha).
    destruct (formatSearchResults_entry_wf (info_of h obj) n v Hn Hv Hd Ha) as [rest Hrest].
    exists ((NpmSearcher.package_emoji ++ " " ++ n ++ "@" ++ v ++ nl ++ rest) :: entries).
    split.
    + rewrite Hrest. cbn [Result_bind]. rewrite Hentries. reflexivity.
    + constructor; [|exact Hall]. exists rest. unfold entry_heading.
      cbn [NpmSearcher.name NpmSearcher.version info_of] in Hn, Hv.
      rewrite Hn, Hv. cbn [string_of]. unfold NpmSearcher.package_emoji.
      repeat (cbn [append]; rewrite ?append_assoc). reflexivity.
Qed.

Lemma formatSearchResults_fold pkgs : forall output entries,
  mapR NpmSearcher.formatSearchResults_entry pkgs = Ok entries ->
  fold_left
    (fun acc pkg =>
       letR output := acc in
       letR entry := NpmSearcher.formatSearchResults_entry pkg in
       Ok (output ++ entry))
    pkgs (Ok output)
  = Ok (output ++ concat_all entries).
Proof.
  induction pkgs as [|pkg tl IH]; simpl; intros output entries Hentries.
  - injection Hentries as <-. simpl. rewrite append_nil_r. reflexivity.
  - destruct (NpmSearcher.formatSearchResults_entry pkg) as [entry|e]; [|discriminate].
    cbn [Result_bind] in *.
    destruct (mapR NpmSearcher.formatSearchResults_entry tl) as [rest|e]; [|discriminate].
    cbn [Result_bind] in Hentries. injection Hentries as <-.
    rewrite (IH (output ++ entry) rest eq_refl). simpl. rewrite append_assoc. reflexivity.
Qed.

(** What [searchPackages] returns for a response of well-formed hits, and
    the text [formatSearchResults] makes of it: the line of the total and
    of the number shown, an empty line, and one entry per hit. *)
Lemma searchPackages_shape_formats
    (h : Host) (response : Props) (objects : list JsValue) (total : Z) :
  field "objects" response = JArr objects ->
  field "total" response = JNum total ->
  objects <> [] ->
  forallb wf_search_object objects = true ->
  exists entries,
    NpmSearcher.searchPackages_shape h (JObj response) =
      Ok {| NpmSearcher.packages := map (info_of h) objects;
            NpmSearcher.totalResults := JNum total |} /\
    List.length entries = List.length objects /\
    Forall2 (fun obj entry => exists rest, entry = entry_heading obj ++ rest)
            objects entries /\
    NpmSearcher.formatSearchResults
      {| NpmSearcher.packages := map (info_of h) objects;
         NpmSearcher.totalResults := JNum total |} =
      Ok ("Found " ++ Number_toString total ++ " packages (showing " ++
          Number_toString (Z.of_nat (List.length objects)) ++ "):" ++ nl ++ nl ++
          concat_all entries).
Proof.
  intros Hobjects Htotal Hne Hwf.
  destruct (formatSearchResults_entries h objects Hwf) as (entries & Hentries & Hall).
  exists entries. split; [|split; [|split]].
  - unfold NpmSearcher.searchPackages_shape. cbn [get Result_bind].
    rewrite Hobjects. cbn [NpmSearcher.Array_of Result_bind].
    rewrite (searchPackages_map_all h objects Hwf). cbn [Result_bind].
    rewrite Htotal. reflexivity.
  - symmetry. apply (Forall2_length Hall).
  - exact Hall.
  - unfold NpmSearcher.formatSearchResults.
    cbn [NpmSearcher.packages NpmSearcher.totalResults].
    rewrite length_map.
    destruct objects as [|obj tl]; [contradiction|].
    cbn [List.length Nat.eqb ToString Result_bind].
    rewrite (formatSearchResults_fold _ _ entries Hentries).
    rewrite !append_assoc. reflexivity.
Qed.

(** ** Totality of the shaping functions *)

Lemma fetchPackageContent_shape_not_empty h html :
  NpmSearcher.fetchPackageContent_shape h html <> EmptyString.
Proof.
  unfold NpmSearcher.fetchPackageContent_shape.
  match goal with
  | |- (if truthy (JStr ?c) then _ else _) <> _ =>
      rewrite (truthy_JStr c); destruct (String.eqb c EmptyString) eqn:E; cbn [negb]
  end.
  - discriminate.
  - apply String.eqb_neq in E. exact E.
Qed.

Lemma getPackageDetails_shape_total (document versions : Props) :
  field "versions" document = JObj versions ->
  Forall (fun entry => nullish (snd entry) = false) versions ->
  exists processedData,
    NpmSearcher.getPackageDetails_shape (JObj document) = Ok (JObj processedData) /\
    (field "time" document = JUndefined -> field "time" processedData = JUndefined).
Proof.
  intros Hv Hwf.
  destruct (getPackageDetails_time_total (field "time" document)) as [time' Htime].
  unfold NpmSearcher.getPackageDetails_shape.
  cbn [get Result_bind]. rewrite Hv. cbn [Object_entries Result_bind].
  rewrite (mapR_all_Ok _ reduced).
  - cbn [Result_bind]. rewrite Htime. cbn [Result_bind].
    eexists. split; [reflexivity|].
    intros Hno. rewrite Hno in Htime. simpl in Htime. injection Htime as <-. reflexivity.
  - unfold slice_from. apply Forall_skipn.
    eapply Forall_impl; [|exact Hwf].
    intros entry Hn. apply getPackageDetails_map_reduced, Hn.
Qed.

(** C3, as the code has it.  On well-formed payloads the shaping functions
    return: the search mapping gives one record per hit, the version list
    is the keys of [versions] reversed, the detail trimming gives an
    object, and the page text is never empty.  Optional parts that are
    absent are left out: without [author], [links] or [score] a hit gets
    [undefined] for author, homepage, repository and weeklyDownloads,
    without [keywords] it gets the empty array, and a document without
    [time] gets [time: undefined].  A payload without [objects] (search) or
    without [versions] (version list, details) is not degraded: the
    function throws a [TypeError]. *)
Theorem shaping_total_on_well_formed (h : Host) :
  (forall response objects,
      field "objects" response = JArr objects ->
      forallb wf_search_object objects = true ->
      NpmSearcher.searchPackages_shape h (JObj response) =
      Ok {| NpmSearcher.packages := map (info_of h) objects;
            NpmSearcher.totalResults := field "total" response |}) /\
  (forall hit package,
      field "package" hit = JObj package ->
      (field "author" package = JUndefined ->
       NpmSearcher.author (info_of h (JObj hit)) = JUndefined) /\
      (field "links" package = JUndefined ->
       NpmSearcher.homepage (info_of h (JObj hit)) = JUndefined /\
       NpmSearcher.repository (info_of h (JObj hit)) = JUndefined) /\
      (field "keywords" package = JUndefined ->
       NpmSearcher.keywords (info_of h (JObj hit)) = JArr []) /\
      (field "score" hit = JUndefined ->
       NpmSearcher.weeklyDownloads (info_of h (JObj hit)) = JUndefined)) /\
  (forall document versions,
      field "versions" document = JObj versions ->
      NpmSearcher.getPackageVersions_shape (JObj document) = Ok (rev (map fst versions))) /\
  (forall document versions,
      field "versions" document = JObj versions ->
      Forall (fun entry => nullish (snd entry) = false) versions ->
      exists processedData,
        NpmSearcher.getPackageDetails_shape (JObj document) = Ok (JObj processedData) /\
        (field "time" document = JUndefined -> field "time" processedData = JUndefined)) /\
  (forall html, NpmSearcher.fetchPackageContent_shape h html <> EmptyString) /\
  (forall response,
      field "objects" response = JUndefined ->
      NpmSearcher.searchPackages_shape h (JObj response) =
      Throw (TypeError "Cannot read properties of undefined (reading 'map')")) /\
  (forall document,
      field "versions" document = JUndefined ->
      NpmSearcher.getPackageVersions_shape (JObj document) =
        Throw (TypeError "Cannot convert undefined or null to object") /\
      NpmSearcher.getPackageDetails_shape (JObj document) =
        Throw (TypeError "Cannot convert undefined or null to object")).
Proof.
  split; [|split; [|split; [|split; [|split; [|split]]]]].
  - intros response objects Hobjects Hwf.
    unfold NpmSearcher.searchPackages_shape. cbn [get Result_bind].
    rewrite Hobjects. cbn [NpmSearcher.Array_of Result_bind].
    rewrite (searchPackages_map_all h objects Hwf). reflexivity.
  - intros hit package Hp. unfold info_of, property.
    cbn [get NpmSearcher.author NpmSearcher.homepage NpmSearcher.repository
         NpmSearcher.keywords NpmSearcher.weeklyDownloads].
    rewrite Hp. cbn [get].
    split; [|split; [|split]].
    + intros Ha. rewrite Ha. reflexivity.
    + intros Hl. rewrite Hl. split; reflexivity.
    + intros Hk. rewrite Hk. reflexivity.
    + intros Hs. rewrite Hs. reflexivity.
  - intros document versions Hv.
    unfold NpmSearcher.getPackageVersions_shape. cbn [get Result_bind].
    rewrite Hv. reflexivity.
  - intros document versions Hv Hwf.
    apply (getPackageDetails_shape_total document versions Hv Hwf).
  - intros html. apply fetchPackageContent_shape_not_empty.
  - intros response Hno.
    unfold NpmSearcher.searchPackages_shape. cbn [get Result_bind].
    rewrite Hno. reflexivity.
  - intros document Hno. split.
    + unfold NpmSearcher.getPackageVersions_shape. cbn [get Result_bind].
      rewrite Hno. reflexivity.
    + unfold NpmSearcher.getPackageDetails_shape. cbn [get Result_bind].
      rewrite Hno. reflexivity.
Qed.

(** The claim as the specification words it fails on the code: a search
    response without [objects] and a package document without [versions]
    make the shaping functions throw, and the caller of [search_npm] gets
    an error envelope instead of a result with the field left out. *)
Lemma malformed_payload_raises :
  NpmSearcher.searchPackages_shape Sample.host (JObj [("total", JNum 0)]) =
    Throw (TypeError "Cannot read properties of undefined (reading 'map')") /\
  NpmSearcher.getPackageVersions_shape (JObj [("name", JStr "left-pad")]) =
    Throw (TypeError "Cannot convert undefined or null to object") /\
  NpmSearcher.getPackageDetails_shape (JObj [("name", JStr "left-pad")]) =
    Throw (TypeError "Cannot convert undefined or null to object") /\
  surfaced
    (callTool Sample.host (Sample.world (JObj [("total", JNum 0)]) EmptyString JNull) 9
       "search_npm" (JObj [("query", JStr "pad")])) =
    [Ok (error_envelope
           "Error searching npm packages: Cannot read properties of undefined (reading 'map')")].
Proof. repeat split. Qed.

(** C3 on the samples: the sample response and document are shaped, and a
    hit with nothing but a name and a version loses only optional
    fields. *)
Lemma shaping_total_on_well_formed_witness :
  field "objects" Sample.search_response = JArr Sample.search_hits /\
  forallb wf_search_object Sample.search_hits = true /\
  field "versions" Sample.document = JObj Sample.document_versions /\
  Forall (fun entry => nullish (snd entry) = false) Sample.document_versions /\
  NpmSearcher.searchPackages_shape Sample.host (JObj Sample.search_response) =
    Ok {| NpmSearcher.packages := map (info_of Sample.host) Sample.search_hits;
          NpmSearcher.totalResults := field "total" Sample.search_response |} /\
  NpmSearcher.getPackageVersions_shape (JObj Sample.document) =
    Ok (rev (map fst Sample.document_versions)) /\
  exists processedData,
    NpmSearcher.getPackageDetails_shape (JObj Sample.document) = Ok (JObj processedData) /\
    (field "time" Sample.document = JUndefined -> field "time" processedData = JUndefined).
Proof.
  destruct (shaping_total_on_well_formed Sample.host)
    as (Hsearch & _ & Hversions & Hdetails & _).
  split; [reflexivity|]. split; [reflexivity|]. split; [reflexivity|].
  split; [repeat constructor|]. split; [|split].
  - apply (Hsearch Sample.search_response Sample.search_hits); reflexivity.
  - apply (Hversions Sample.document Sample.document_versions). reflexivity.
  - apply (Hdetails Sample.document Sample.document_versions);
      [reflexivity|repeat constructor].
Defined.

(* ===================================================================== *)
(** * Further properties of the RateLimiter *)
(* ===================================================================== *)

Section RateLimiterTimers.
Import RateLimiter.
Local Open Scope list_scope.

Lemma length_remove_nth {A} (l : list A) : forall i x,
  nth_error l i = Some x -> S (List.length (remove_nth i l)) = List.length l.
Proof.
  induction l as [|y tl IH]; intros i x Hi.
  - destruct i; discriminate.
  - destruct i as [|i]; simpl; [reflexivity|].
    simpl in Hi. rewrite (IH i x Hi). reflexivity.
Qed.

Lemma processQueue_balance now w :
  S (List.length (timers w)) = List.length (queue (limiter w)) ->
  List.length (timers (processQueue now w)) =
  List.length (queue (limiter (processQueue now w))).
Proof.
  intros Hb. unfold processQueue.
  destruct (queue (limiter w)) as [|next rest] eqn:Hq; [discriminate|].
  destruct (Qle_bool _ _); simpl.
  - simpl in Hb. lia.
  - rewrite length_app, Hq. simpl in *. lia.
Qed.

Lemma step_balance w e w' :
  List.length (timers w) = List.length (queue (limiter w)) ->
  step w e = Some w' ->
  List.length (timers w') = List.length (queue (limiter w')).
Proof.
  intros Hb Hstep. destruct e as [now r|now i]; simpl in Hstep.
  - injection Hstep as <-. unfold acquire. apply processQueue_balance.
    simpl. rewrite length_app. simpl. lia.
  - destruct (nth_error (timers w) i) as [tm|] eqn:Hi; [|discriminate].
    injection Hstep as <-. apply processQueue_balance. simpl.
    rewrite (length_remove_nth _ i tm Hi). exact Hb.
Qed.

(** X2. In every world the limiter can reach there is exactly one pending
    timer for each queued caller: no caller waits without a wake-up, and
    no timer is armed for nobody. *)
Theorem one_timer_per_queued_caller (requestsPerSecond : Q) (evs : list event) (w : World) :
  run evs (init requestsPerSecond) = Some w ->
  List.length (timers w) = List.length (queue (limiter w)).
Proof.
  assert (forall evs w0 w1,
             List.length (timers w0) = List.length (queue (limiter w0)) ->
             run evs w0 = Some w1 ->
             List.length (timers w1) = List.length (queue (limiter w1))) as Hrun.
  { clear. induction evs as [|e tl IH]; intros w0 w1 Hb Hr; simpl in Hr.
    - injection Hr as <-. exact Hb.
    - destruct (step w0 e) as [w'|] eqn:Hs; [|discriminate].
      apply (IH w' w1); [|exact Hr]. apply (step_balance w0 e w' Hb Hs). }
  intros Hr. apply (Hrun evs (init requestsPerSecond) w); [reflexivity|exact Hr].
Qed.

End RateLimiterTimers.

(** [one_timer_per_queued_caller] after four callers and one timer callback: two callers wait, two
    timers are pending. *)
Lemma one_timer_per_queued_caller_witness :
  RateLimiter.run (firstn 5 Sample.burst_events) (RateLimiter.init 2) = Some burst_midway /\
  RateLimiter.queue (RateLimiter.limiter burst_midway) = [2%nat; 3%nat] /\
  List.length (RateLimiter.timers burst_midway) =
  List.length (RateLimiter.queue (RateLimiter.limiter burst_midway)).
Proof.
  split; [vm_compute; reflexivity|]. split; [reflexivity|].
  apply (one_timer_per_queued_caller 2 (firstn 5 Sample.burst_events) burst_midway).
  vm_compute. reflexivity.
Defined.

(* ===================================================================== *)
(** * Runs of programs *)
(* ===================================================================== *)

Lemma exec_lift {A} world n (r : Result A) : exec world n (lift r) = mkRun [] n (Some r).
Proof. destruct r; reflexivity. Qed.

Lemma exec_bind {A B} world (p : Prog A) (f : A -> Prog B) : forall n,
  exec world n (Prog_bind p f) =
  match outcome (exec world n p) with
  | Some (Ok a) =>
      mkRun (trace (exec world n p) ++ trace (exec world (awaits (exec world n p)) (f a)))%list
            (awaits (exec world (awaits (exec world n p)) (f a)))
            (outcome (exec world (awaits (exec world n p)) (f a)))
  | Some (Throw e) => mkRun (trace (exec world n p)) (awaits (exec world n p)) (Some (Throw e))
  | None => mkRun (trace (exec world n p)) (awaits (exec world n p)) None
  end.
Proof.
  induction p as [a|e|c k IH|m k IH]; intros n; simpl.
  - destruct (exec world n (f a)); reflexivity.
  - reflexivity.
  - destruct (world n c) as [r|]; simpl; [|reflexivity].
    rewrite IH. destruct (outcome (exec world (S n) (k r))) as [[a|e]|]; reflexivity.
  - rewrite IH. destruct (outcome (exec world n k)) as [[a|e]|]; reflexivity.
Qed.

Lemma exec_try_catch {A} world (p : Prog A) handler : forall n,
  exec world n (try_catch p handler) =
  match outcome (exec world n p) with
  | Some (Throw e) =>
      mkRun (trace (exec world n p) ++ trace (exec world (awaits (exec world n p)) (handler e)))%list
            (awaits (exec world (awaits (exec world n p)) (handler e)))
            (outcome (exec world (awaits (exec world n p)) (handler e)))
  | _ => exec world n p
  end.
Proof.
  induction p as [a|e|c k IH|m k IH]; intros n; simpl.
  - reflexivity.
  - destruct (exec world n (handler e)); reflexivity.
  - destruct (world n c) as [r|]; simpl; [|reflexivity].
    rewrite IH. destruct (exec world (S n) (k r)) as [t m [[a|e]|]]; reflexivity.
  - rewrite IH. destruct (exec world n k) as [t m' [[a|e]|]]; reflexivity.
Qed.

Lemma resultPromise_registry_tools h args :
  resultPromise h "search_npm" args =
    (letP parsed := parse_args h Zod.SearchNpmSchema args in
     letP results := NpmSearcher.searchPackages h parsed in
     letP t := lift (NpmSearcher.formatSearchResults results) in
     Return (text_result t)) /\
  resultPromise h "fetch_package_content" args =
    (letP parsed := parse_args h Zod.FetchPackageContentSchema args in
     letP content := NpmSearcher.fetchPackageContent h parsed in
     Return (text_result content)) /\
  resultPromise h "get_package_versions" args =
    (letP parsed := parse_args h Zod.GetPackageVersionsSchema args in
     letP versions := NpmSearcher.getPackageVersions parsed in
     letP pn := lift (ToString (field "packageName" parsed)) in
     Return (text_result (NpmSearcher.formatVersions pn versions))) /\
  resultPromise h "get_package_details" args =
    (letP parsed := parse_args h Zod.GetPackageDetailsSchema args in
     letP details := NpmSearcher.getPackageDetails parsed in
     Return (text_result (JSON_stringify h details))).
Proof. repeat split. Qed.

(** The program each declared tool runs once its arguments are parsed. *)
Lemma resultPromise_parsed h name schema args :
  In (name, schema) tool_schemas ->
  exists body : Props -> Prog ToolResult,
    resultPromise h name args = (letP parsed := parse_args h schema args in body parsed).
Proof.
  intros Hin.
  destruct (resultPromise_registry_tools h args) as (R1 & R2 & R3 & R4).
  destruct (resultPromise_update_tools h args) as (P1 & P2 & P3 & P4 & P5 & P6).
  simpl in Hin.
  repeat (destruct Hin as [Hin|Hin];
          [injection Hin as <- <-; eexists;
           first [exact R1|exact R2|exact R3|exact R4
                 |exact P1|exact P2|exact P3|exact P4|exact P5|exact P6]|]).
  contradiction.
Qed.

(* ===================================================================== *)
(** * Validation comes first *)
(* ===================================================================== *)

(** X3. For each of the ten declared tools: arguments that do not pass the
    tool's schema are answered with [McpError(ErrorCode.InvalidParams)],
    thrown to the caller, and nothing is observed, so no handler method is
    entered and neither the gate, the network nor [ncu.run] is touched. *)
Theorem invalid_arguments_are_InvalidParams h world timer_after name schema args :
  In (name, schema) tool_schemas ->
  Zod.safeParse h schema args = None ->
  callTool h world timer_after name args =
  {| surfaced := [Throw (McpError InvalidParams "Invalid arguments: [object Object]")];
     observed := [] |}.
Proof.
  intros Hin Hp.
  destruct (resultPromise_parsed h name schema args Hin) as [body Hbody].
  rewrite (callTool_throws_at_once h world timer_after name args []
             (McpError InvalidParams "Invalid arguments: [object Object]")).
  - reflexivity.
  - rewrite Hbody. unfold parse_args. rewrite Hp. reflexivity.
Qed.

(** [invalid_arguments_are_InvalidParams] on [filter_updates] called with an empty filter list. *)
Lemma invalid_arguments_are_InvalidParams_witness :
  In ("filter_updates", Zod.FilterUpdatesSchema) tool_schemas /\
  Zod.safeParse Sample.host Zod.FilterUpdatesSchema (JObj [("filter", JArr [])]) = None /\
  callTool Sample.host Sample.world_ncu_hangs 0 "filter_updates" (JObj [("filter", JArr [])]) =
  {| surfaced := [Throw (McpError InvalidParams "Invalid arguments: [object Object]")];
     observed := [] |}.
Proof.
  split; [simpl; tauto|]. split; [reflexivity|].
  apply (invalid_arguments_are_InvalidParams Sample.host Sample.world_ncu_hangs 0
           "filter_updates" Zod.FilterUpdatesSchema (JObj [("filter", JArr [])])).
  - simpl. tauto.
  - reflexivity.
Defined.

(* ===================================================================== *)
(** * Runtime failures stay inside the envelope *)
(* ===================================================================== *)

Lemma plain_bind {A B} (r : Result A) (k : A -> Result B) :
  plain r -> (forall a, plain (k a)) -> plain (Result_bind r k).
Proof. destruct r; simpl; auto. Qed.

Lemma plain_if {A} (b : bool) (r s : Result A) : plain r -> plain s -> plain (if b then r else s).
Proof. destruct b; auto. Qed.

Lemma plain_get v k : plain (get v k).
Proof.
  destruct v; simpl; try exact I; try reflexivity;
    destruct (String.eqb k "length"); exact I.
Qed.

Lemma plain_Object_entries v : plain (Object_entries v).
Proof. destruct v; simpl; try exact I; reflexivity. Qed.

Lemma plain_Object_keys v : plain (Object_keys v).
Proof. apply plain_bind; [apply plain_Object_entries|intros; exact I]. Qed.

Lemma plain_Object_values v : plain (Object_values v).
Proof. apply plain_bind; [apply plain_Object_entries|intros; exact I]. Qed.

Lemma plain_count_keys v : plain (NpmCheckUpdatesHandler.count_keys v).
Proof. apply plain_bind; [apply plain_Object_keys|intros; exact I]. Qed.

Lemma plain_ToString : forall v, plain (ToString v).
Proof.
  fix IH 1. intros v. destruct v as [| |b|z|s|s|items|o|n]; try exact I.
  - destruct b; exact I.
  - cbn [ToString]. apply plain_bind; [|intros; exact I].
    induction items as [|x tl IHl]; [exact I|].
    apply plain_bind.
    + destruct (nullish x); [exact I|apply IH].
    + intros s. apply plain_bind; [exact IHl|intros; exact I].
  - cbn [ToString]. destruct (has_own "toString" o); [reflexivity|exact I].
Qed.

Lemma plain_resolvePackagePath h v : plain (NpmCheckUpdatesHandler.resolvePackagePath h v).
Proof.
  unfold NpmCheckUpdatesHandler.resolvePackagePath.
  destruct (if truthy v then v else JStr "package.json"); try reflexivity.
  destruct (negb _); [reflexivity|exact I].
Qed.

Lemma plain_formatSearchResults_entry pkg : plain (NpmSearcher.formatSearchResults_entry pkg).
Proof.
  unfold NpmSearcher.formatSearchResults_entry.
  repeat first
    [ exact I
    | apply plain_ToString
    | apply plain_bind
    | apply plain_if
    | intro ].
Qed.

Lemma plain_formatSearchResults results : plain (NpmSearcher.formatSearchResults results).
Proof.
  unfold NpmSearcher.formatSearchResults.
  apply plain_if; [exact I|].
  apply plain_bind; [apply plain_ToString|]. intros total.
  assert (forall acc : Result string, plain acc ->
            plain (fold_left
                     (fun acc pkg =>
                        letR output := acc in
                        letR entry := NpmSearcher.formatSearchResults_entry pkg in
                        Ok (output ++ entry))
                     (NpmSearcher.packages results) acc)) as Hfold.
  { induction (NpmSearcher.packages results) as [|pkg tl IHl]; intros acc Hacc; [exact Hacc|].
    simpl. apply IHl. apply plain_bind; [exact Hacc|]. intros output.
    apply plain_bind; [apply plain_formatSearchResults_entry|intros; exact I]. }
  apply Hfold. exact I.
Qed.

Lemma contained_lift {A} (r : Result A) : plain r -> contained (lift r).
Proof. destruct r; simpl; auto. Qed.

Lemma contained_bind {A B} (p : Prog A) (f : A -> Prog B) :
  contained p -> (forall a, contained (f a)) -> contained (Prog_bind p f).
Proof.
  induction p as [a|e|c k IH|m k IH]; simpl; intros Hp Hf; auto.
Qed.

Lemma contained_try_catch {A} (p : Prog A) handler :
  (forall e, contained (handler e)) -> contained (try_catch p handler).
Proof.
  intros Hh. induction p as [a|e|c k IH|m k IH]; simpl; auto.
Qed.

Lemma contained_if {A} (b : bool) (p q : Prog A) :
  contained p -> contained q -> contained (if b then p else q).
Proof. destruct b; auto. Qed.

Lemma contained_outcome {A} world (p : Prog A) : forall n e,
  contained p -> outcome (exec world n p) = Some (Throw e) -> instanceof_McpError e = false.
Proof.
  induction p as [a|e0|c k IH|m k IH]; intros n e Hp Ho; simpl in *.
  - discriminate.
  - injection Ho as <-. exact Hp.
  - destruct (world n c) as [r|]; simpl in Ho; [|discriminate].
    apply (IH r (S n) e (Hp r) Ho).
  - apply (IH n e Hp Ho).
Qed.

Ltac solve_plain :=
  repeat first
    [ exact I
    | apply plain_ToString
    | apply plain_resolvePackagePath
    | apply plain_count_keys
    | apply plain_Object_values
    | apply plain_formatSearchResults
    | apply plain_bind
    | apply plain_if
    | intro ].

Ltac solve_contained :=
  repeat first
    [ exact I
    | reflexivity
    | apply contained_try_catch
    | apply contained_lift; solve_plain
    | apply contained_bind
    | apply contained_if
    | progress cbn [contained]
    | progress cbv zeta
    | intro ].

Lemma contained_handlers h parsed :
  contained (NpmSearcher.searchPackages h parsed) /\
  contained (NpmSearcher.fetchPackageContent h parsed) /\
  contained (NpmSearcher.getPackageVersions parsed) /\
  contained (NpmSearcher.getPackageDetails parsed) /\
  contained (NpmCheckUpdatesHandler.checkUpdates h parsed) /\
  contained (NpmCheckUpdatesHandler.upgradePackages h parsed) /\
  contained (NpmCheckUpdatesHandler.filterUpdates h parsed) /\
  contained (NpmCheckUpdatesHandler.resolveConflicts h parsed) /\
  contained (NpmCheckUpdatesHandler.setVersionConstraints h parsed) /\
  contained (NpmCheckUpdatesHandler.runDoctor h parsed).
Proof.
  unfold NpmSearcher.searchPackages, NpmSearcher.fetchPackageContent,
    NpmSearcher.getPackageVersions, NpmSearcher.getPackageDetails,
    NpmCheckUpdatesHandler.checkUpdates, NpmCheckUpdatesHandler.upgradePackages,
    NpmCheckUpdatesHandler.filterUpdates, NpmCheckUpdatesHandler.resolveConflicts,
    NpmCheckUpdatesHandler.setVersionConstraints, NpmCheckUpdatesHandler.runDoctor,
    NpmCheckUpdatesHandler.runNcu.
  repeat split; solve_contained.
Qed.

Lemma contained_envelope h world timer_after name args :
  contained (resultPromise h name args) ->
  exists envelope, surfaced (callTool h world timer_after name args) = [Ok envelope].
Proof.
  intros Hc. unfold callTool. cbn [surfaced]. unfold settlements.
  destruct (outcome (exec world 0%nat (resultPromise h name args))) as [[v|e]|] eqn:Ho.
  - destruct (Nat.ltb _ _); rewrite race_first; eexists; reflexivity.
  - pose proof (contained_outcome world _ 0%nat e Hc Ho) as He.
    destruct (Nat.ltb _ _); rewrite race_first; cbn [map after_race settlement_of];
      [|rewrite He]; eexists; reflexivity.
  - rewrite race_first. eexists. reflexivity.
Qed.

(** X4. For each declared tool called with arguments that pass its
    schema: whatever the registry, the file system and [ncu.run] answer,
    and whenever the timer runs, the caller gets an envelope; no failure
    inside a handler reaches the caller as a thrown error. *)
Theorem runtime_failures_stay_in_the_envelope
    h world timer_after name schema args parsed :
  In (name, schema) tool_schemas ->
  Zod.safeParse h schema args = Some parsed ->
  exists envelope, surfaced (callTool h world timer_after name args) = [Ok envelope].
Proof.
  intros Hin Hp. apply contained_envelope.
  destruct (resultPromise_registry_tools h args) as (R1 & R2 & R3 & R4).
  destruct (resultPromise_update_tools h args) as (P1 & P2 & P3 & P4 & P5 & P6).
  pose proof (contained_handlers h parsed) as (H1 & H2 & H3 & H4 & H5 & H6 & H7 & _ & H9 & H10).
  pose proof (contained_handlers h (spread (spread [] parsed) [("peer", JBool true)]))
    as (_ & _ & _ & _ & _ & _ & _ & H8 & _).
  simpl in Hin.
  repeat (destruct Hin as [Hin|Hin];
          [injection Hin as <- <-;
           first [rewrite R1|rewrite R2|rewrite R3|rewrite R4
                 |rewrite P1|rewrite P2|rewrite P3|rewrite P4|rewrite P5|rewrite P6];
           unfold parse_args; rewrite Hp; cbn [Prog_bind];
           apply contained_bind; [assumption|]; solve_contained|]).
  contradiction.
Qed.

(** [runtime_failures_stay_in_the_envelope] on [check_updates] in a world where [ncu.run] rejects, and with an
    [McpError] at that: the caller still gets an envelope. *)
Lemma runtime_failures_stay_in_the_envelope_witness :
  In ("check_updates", Zod.CheckUpdatesSchema) tool_schemas /\
  Zod.safeParse Sample.host Zod.CheckUpdatesSchema (JObj []) = Some [] /\
  surfaced (callTool Sample.host (world_rejecting (McpError InvalidParams "boom")) 5
              "check_updates" (JObj [])) =
    [Ok (error_envelope "NCU execution failed: MCP error -32602: boom")] /\
  exists envelope,
    surfaced (callTool Sample.host (world_rejecting (McpError InvalidParams "boom")) 5
                "check_updates" (JObj [])) = [Ok envelope].
Proof.
  split; [simpl; tauto|]. split; [reflexivity|]. split; [vm_compute; reflexivity|].
  apply (runtime_failures_stay_in_the_envelope Sample.host
           (world_rejecting (McpError InvalidParams "boom")) 5
           "check_updates" Zod.CheckUpdatesSchema (JObj []) []).
  - simpl. tauto.
  - reflexivity.
Defined.

(* ===================================================================== *)
(** * The gate comes before the network *)
(* ===================================================================== *)

Lemma well_gated_trace {A} world (p : Prog A) : forall seen n,
  well_gated seen p ->
  gated seen (trace (exec world n p)) = true /\
  Forall (fun d => d = 15000 \/ d = 20000)%Z (fetch_deadlines (trace (exec world n p))).
Proof.
  induction p as [a|e|c k IH|m k IH]; intros seen n Hp; simpl in *.
  - split; [reflexivity|constructor].
  - split; [reflexivity|constructor].
  - destruct Hp as (Hneed & Hdead & Hk).
    destruct (world n c) as [r|]; simpl.
    + destruct (IH r (gate_after seen c) (S n) (Hk r)) as [Hg Hd].
      rewrite Hneed, Hg. split; [reflexivity|].
      destruct c; simpl in *; try exact Hd. constructor; assumption.
    + rewrite Hneed. split; [reflexivity|].
      destruct c; simpl in *; try (constructor; [exact Hdead|]); constructor.
  - apply IH. exact Hp.
Qed.

Lemma silent_well_gated {A} seen (p : Prog A) : silent p -> well_gated seen p.
Proof. destruct p; simpl; intros Hp; try contradiction; exact I. Qed.

Lemma well_gated_bind_silent {A B} (p : Prog A) (f : A -> Prog B) : forall seen,
  well_gated seen p -> (forall a, silent (f a)) -> well_gated seen (Prog_bind p f).
Proof.
  induction p as [a|e|c k IH|m k IH]; intros seen Hp Hf; simpl in *.
  - apply silent_well_gated, Hf.
  - exact I.
  - destruct Hp as (Hneed & Hdead & Hk). repeat split; auto.
  - auto.
Qed.

Ltac step_gated :=
  repeat first
    [ exact I
    | reflexivity
    | progress cbn [well_gated Prog_bind try_catch lift await_call gate_needed gate_after
                    deadline_ok NpmSearcher.fetchWithTimeout]
    | progress cbv zeta
    | intro
    | split
    | left; reflexivity
    | right; reflexivity
    | match goal with
      | |- context [lift ?r] => destruct r
      | |- context [NpmSearcher.check_ok ?r] =>
          unfold NpmSearcher.check_ok; destruct (negb (ok r))
      | |- context [if ?b then _ else _] => destruct b
      end ].

Lemma well_gated_handlers h parsed :
  well_gated false (NpmSearcher.searchPackages h parsed) /\
  well_gated false (NpmSearcher.fetchPackageContent h parsed) /\
  well_gated false (NpmSearcher.getPackageVersions parsed) /\
  well_gated false (NpmSearcher.getPackageDetails parsed) /\
  well_gated false (NpmCheckUpdatesHandler.checkUpdates h parsed) /\
  well_gated false (NpmCheckUpdatesHandler.upgradePackages h parsed) /\
  well_gated false (NpmCheckUpdatesHandler.filterUpdates h parsed) /\
  well_gated false (NpmCheckUpdatesHandler.resolveConflicts h parsed) /\
  well_gated false (NpmCheckUpdatesHandler.setVersionConstraints h parsed) /\
  well_gated false (NpmCheckUpdatesHandler.runDoctor h parsed).
Proof.
  unfold NpmSearcher.searchPackages, NpmSearcher.fetchPackageContent,
    NpmSearcher.getPackageVersions, NpmSearcher.getPackageDetails,
    NpmCheckUpdatesHandler.checkUpdates, NpmCheckUpdatesHandler.upgradePackages,
    NpmCheckUpdatesHandler.filterUpdates, NpmCheckUpdatesHandler.resolveConflicts,
    NpmCheckUpdatesHandler.setVersionConstraints, NpmCheckUpdatesHandler.runDoctor,
    NpmCheckUpdatesHandler.runNcu.
  split; [step_gated|]. split; [step_gated|]. split; [step_gated|]. split; [step_gated|].
  split; [step_gated|]. split; [step_gated|]. split; [step_gated|]. split; [step_gated|].
  split; step_gated.
Qed.

(** X5. In every invocation, whatever the tool name, the arguments and
    the answers of the outside world: each [fetch] is made after an
    [acquire()] of its own, and its abort deadline is 15 s or 20 s, below
    the 30 s of the invocation. *)
Theorem every_fetch_is_gated h world timer_after name args :
  gated false (observed (callTool h world timer_after name args)) = true /\
  Forall (fun d => (d = 15000 \/ d = 20000) /\ d < toolTimeout)%Z
         (fetch_deadlines (observed (callTool h world timer_after name args))).
Proof.
  assert (well_gated false (resultPromise h name args)) as Hwg.
  { destruct (in_dec String.string_dec name declared_tools) as [Hin|Hout].
    - destruct (resultPromise_registry_tools h args) as (R1 & R2 & R3 & R4).
      destruct (resultPromise_update_tools h args) as (P1 & P2 & P3 & P4 & P5 & P6).
      simpl in Hin.
      repeat (destruct Hin as [<-|Hin];
              [first [rewrite R1|rewrite R2|rewrite R3|rewrite R4
                     |rewrite P1|rewrite P2|rewrite P3|rewrite P4|rewrite P5|rewrite P6];
               unfold parse_args;
               match goal with
               | |- context [Zod.safeParse ?h ?s ?a] =>
                   destruct (Zod.safeParse h s a) as [parsed|]
               end;
               [cbn [Prog_bind];
                apply well_gated_bind_silent; [|solve_silent];
                first [apply (well_gated_handlers h parsed)
                      |apply (well_gated_handlers
                                h (spread (spread [] parsed) [("peer", JBool true)]))]
               |exact I]|]).
      contradiction.
    - rewrite (resultPromise_unknown h name args Hout). exact I. }
  unfold callTool. cbn [observed].
  destruct (well_gated_trace world _ false 0%nat Hwg) as [Hg Hd].
  split; [exact Hg|].
  eapply Forall_impl; [|exact Hd].
  intros d [-> | ->]; (split; [auto|reflexivity]).
Qed.

(* ===================================================================== *)
(** * Validated arguments *)
(* ===================================================================== *)

Lemma field_absent k (o : Props) : ~ In k (map fst o) -> field k o = JUndefined.
Proof.
  induction o as [|[k0 v0] tl IH]; simpl; intros Hn; [reflexivity|].
  destruct (String.eqb k k0) eqn:E.
  - apply String.eqb_eq in E. subst. exfalso. auto.
  - apply IH. auto.
Qed.

(** The value of a key of the schema in the parsed object is what the
    key's type makes of the input. *)
Lemma parse_shape_lookup h shape : forall input out k t,
  NoDup (map fst shape) ->
  In (k, t) shape ->
  Zod.parse_shape h shape input = Some out ->
  Zod.parse h t (field k input) = Some (field k out).
Proof.
  induction shape as [|[k0 t0] tl IH]; intros input out k t Hnd Hin Hp; [contradiction|].
  simpl in Hp. inversion Hnd as [|? ? Hk0 Hnd']; subst.
  destruct (Zod.parse h t0 (field k0 input)) as [v|] eqn:Hv; [|discriminate].
  destruct (Zod.parse_shape h tl input) as [rest|] eqn:Hrest;
    [|destruct v; discriminate].
  assert ((v = JUndefined /\ out = rest) \/ (v <> JUndefined /\ out = (k0, v) :: rest))
    as Hout.
  { destruct v; injection Hp as <-; first [left; split; reflexivity
                                         |right; split; [discriminate|reflexivity]]. }
  destruct Hin as [Heq|Hin].
  - injection Heq as -> ->.
    assert (field k rest = JUndefined) as Hrestk.
    { apply field_absent. intros Hin. apply Hk0.
      apply (parse_shape_keys h tl input rest k Hrest Hin). }
    destruct Hout as [[-> ->]|[Hne ->]].
    + rewrite Hrestk. exact Hv.
    + simpl. rewrite String.eqb_refl. exact Hv.
  - assert (String.eqb k k0 = false) as Hkk.
    { apply String.eqb_neq. intros ->. apply Hk0.
      apply in_map_iff. exists (k0, t). split; [reflexivity|exact Hin]. }
    destruct Hout as [[_ ->]|[_ ->]].
    + apply (IH input rest k t Hnd' Hin Hrest).
    + simpl. rewrite Hkk. apply (IH input rest k t Hnd' Hin Hrest).
Qed.

Lemma safeParse_lookup h shape args parsed k t :
  NoDup (map fst shape) ->
  In (k, t) shape ->
  Zod.safeParse h shape args = Some parsed ->
  exists input, args = JObj input /\ Zod.parse h t (field k input) = Some (field k parsed).
Proof.
  intros Hnd Hin Hp. unfold Zod.safeParse in Hp.
  destruct args as [| | | | | | |input|]; try discriminate.
  exists input. split; [reflexivity|].
  apply (parse_shape_lookup h shape input parsed k t Hnd Hin Hp).
Qed.

Lemma parsed_string h shape args parsed k :
  NoDup (map fst shape) ->
  In (k, Zod.z_string) shape \/ In (k, Zod.z_string_url) shape ->
  Zod.safeParse h shape args = Some parsed ->
  exists s, field k parsed = JStr s.
Proof.
  intros Hnd Hin Hp.
  destruct Hin as [Hin|Hin];
    destruct (safeParse_lookup h shape args parsed k _ Hnd Hin Hp) as (input & _ & Hv);
    simpl in Hv; destruct (field k input); try discriminate.
  - injection Hv as <-. eauto.
  - destruct (is_url h s); [|discriminate]. injection Hv as <-. eauto.
Qed.

Lemma parsed_maxResults h args parsed :
  Zod.safeParse h Zod.SearchNpmSchema args = Some parsed ->
  exists size, ToString (field "maxResults" parsed) = Ok size /\
    forall input, args = JObj input ->
      (field "maxResults" input = JUndefined -> size = "10") /\
      (forall n, field "maxResults" input = JNum n -> size = Number_toString n).
Proof.
  intros Hp.
  destruct (safeParse_lookup h Zod.SearchNpmSchema args parsed "maxResults"
              (Zod.z_default (Zod.z_optional Zod.z_number) (JNum 10)))
    as (input & -> & Hv); [simpl; solve_NoDup|simpl; tauto|exact Hp|].
  simpl in Hv.
  destruct (field "maxResults" input) as [| | |n|r| | | |] eqn:Hm; simpl in Hv;
    try discriminate; injection Hv as <-; eexists; (split; [reflexivity|]);
    intros input' Heq; injection Heq as <-; rewrite Hm;
    (split; [intros H|intros n' H]); try discriminate; try reflexivity.
  injection H as <-. reflexivity.
Qed.

(* ===================================================================== *)
(** * Failures of the registry *)
(* ===================================================================== *)

Lemma callTool_of_run h world timer_after name args tr m o :
  exec world 0 (resultPromise h name args) = mkRun tr m (Some o) ->
  (m <= timer_after)%nat ->
  callTool h world timer_after name args =
  {| surfaced := [after_race (settlement_of o)]; observed := tr |}.
Proof.
  intros Hexec Hm. unfold callTool. rewrite Hexec. cbn [trace].
  unfold settlements. cbn [outcome awaits].
  replace (Nat.ltb timer_after m) with false by (symmetry; apply Nat.ltb_ge; exact Hm).
  rewrite race_first. reflexivity.
Qed.

Ltac run_handler :=
  cbn [exec Prog_bind try_catch lift await_call NpmSearcher.fetchWithTimeout
       ToString trace awaits outcome].

Lemma searchPackages_fetch_failure h (world : Oracle) parsed q size (reply : Result Response) :
  field "query" parsed = JStr q ->
  ToString (field "maxResults" parsed) = Ok size ->
  world 0%nat acquire = Some tt ->
  world 1%nat (fetch (NpmSearcher.REGISTRY_URL ++ "/-/v1/search?text=" ++
                      encodeURIComponent h q ++ "&size=" ++ size)
                 [("headers", NpmSearcher.HEADERS)] 15000) = Some reply ->
  fetch_failed reply = true ->
  exec world 0 (NpmSearcher.searchPackages h parsed) =
  mkRun [Entered "NpmSearcher.searchPackages"; Called acquire;
         Called (fetch (NpmSearcher.REGISTRY_URL ++ "/-/v1/search?text=" ++
                        encodeURIComponent h q ++ "&size=" ++ size)
                   [("headers", NpmSearcher.HEADERS)] 15000)]
        2 (Some (Throw (Error ("Error searching npm packages: " ++ fetch_failure reply)))).
Proof.
  intros Hq Hsize Hacq Hfetch Hfailed. unfold NpmSearcher.searchPackages.
  rewrite Hq, Hsize. run_handler. rewrite Hacq. run_handler. rewrite Hfetch.
  destruct reply as [response|e]; run_handler; [|reflexivity].
  simpl in Hfailed. unfold NpmSearcher.check_ok. rewrite Hfailed. reflexivity.
Qed.

Lemma fetchPackageContent_fetch_failure h (world : Oracle) parsed u (reply : Result Response) :
  field "url" parsed = JStr u ->
  world 0%nat acquire = Some tt ->
  world 1%nat (fetch u [("headers", NpmSearcher.HEADERS); ("redirect", JStr "follow")] 20000)
  = Some reply ->
  fetch_failed reply = true ->
  exec world 0 (NpmSearcher.fetchPackageContent h parsed) =
  mkRun [Entered "NpmSearcher.fetchPackageContent"; Called acquire;
         Called (fetch u [("headers", NpmSearcher.HEADERS); ("redirect", JStr "follow")] 20000)]
        2 (Some (Throw (Error ("Error fetching package content: " ++ fetch_failure reply)))).
Proof.
  intros Hu Hacq Hfetch Hfailed. unfold NpmSearcher.fetchPackageContent.
  rewrite Hu. run_handler. rewrite Hacq. run_handler. rewrite Hfetch.
  destruct reply as [response|e]; run_handler; [|reflexivity].
  simpl in Hfailed. unfold NpmSearcher.check_ok. rewrite Hfailed. reflexivity.
Qed.

Lemma getPackageVersions_fetch_failure (world : Oracle) parsed pn (reply : Result Response) :
  field "packageName" parsed = JStr pn ->
  world 0%nat acquire = Some tt ->
  world 1%nat (fetch (NpmSearcher.REGISTRY_URL ++ "/" ++ pn)
                 [("headers", NpmSearcher.HEADERS)] 15000) = Some reply ->
  fetch_failed reply = true ->
  exec world 0 (NpmSearcher.getPackageVersions parsed) =
  mkRun [Entered "NpmSearcher.getPackageVersions"; Called acquire;
         Called (fetch (NpmSearcher.REGISTRY_URL ++ "/" ++ pn)
                   [("headers", NpmSearcher.HEADERS)] 15000)]
        2 (Some (Throw (Error ("Error fetching package versions: " ++ fetch_failure reply)))).
Proof.
  intros Hpn Hacq Hfetch Hfailed. unfold NpmSearcher.getPackageVersions.
  rewrite Hpn. run_handler. rewrite Hacq. run_handler. rewrite Hfetch.
  destruct reply as [response|e]; run_handler; [|reflexivity].
  simpl in Hfailed. unfold NpmSearcher.check_ok. rewrite Hfailed. reflexivity.
Qed.

Lemma getPackageDetails_fetch_failure (world : Oracle) parsed pn (reply : Result Response) :
  field "packageName" parsed = JStr pn ->
  world 0%nat acquire = Some tt ->
  world 1%nat (fetch (NpmSearcher.REGISTRY_URL ++ "/" ++ pn)
                 [("headers", NpmSearcher.HEADERS)] 20000) = Some reply ->
  fetch_failed reply = true ->
  exec world 0 (NpmSearcher.getPackageDetails parsed) =
  mkRun [Entered "NpmSearcher.getPackageDetails"; Called acquire;
         Called (fetch (NpmSearcher.REGISTRY_URL ++ "/" ++ pn)
                   [("headers", NpmSearcher.HEADERS)] 20000)]
        2 (Some (Throw (Error ("Error fetching package details: " ++ fetch_failure reply)))).
Proof.
  intros Hpn Hacq Hfetch Hfailed. unfold NpmSearcher.getPackageDetails.
  rewrite Hpn. run_handler. rewrite Hacq. run_handler. rewrite Hfetch.
  destruct reply as [response|e]; run_handler; [|reflexivity].
  simpl in Hfailed. unfold NpmSearcher.check_ok. rewrite Hfailed. reflexivity.
Qed.

Lemma exec_bind_throw {A B} world (p : Prog A) (f : A -> Prog B) n tr m e :
  exec world n p = mkRun tr m (Some (Throw e)) ->
  exec world n (Prog_bind p f) = mkRun tr m (Some (Throw e)).
Proof. intros Hp. rewrite exec_bind, Hp. reflexivity. Qed.

(** X6. For each of the four registry tools, called with valid arguments
    once the gate has opened: when [fetch] rejects (a network failure, or
    the abort at its deadline) or answers with a status that is not [ok],
    the caller gets the [isError] envelope whose text is the tool's prefix
    followed by the rejection's message or by [HTTP error! Status: <status>];
    the body of the response is not read. *)
Theorem failed_fetch_is_reported
    h (world : Oracle) timer_after name schema prefix args parsed
    (reply : Result Response) :
  In (name, schema, prefix) registry_tools ->
  Zod.safeParse h schema args = Some parsed ->
  world 0%nat acquire = Some tt ->
  (forall url options timeoutMs, world 1%nat (fetch url options timeoutMs) = Some reply) ->
  fetch_failed reply = true ->
  (2 <= timer_after)%nat ->
  surfaced (callTool h world timer_after name args) =
    [Ok (error_envelope (prefix ++ fetch_failure reply))] /\
  exists method url options timeoutMs,
    observed (callTool h world timer_after name args) =
    [Entered method; Called acquire; Called (fetch url options timeoutMs)].
Proof.
  intros Hin Hp Hacq Hfetch Hfailed Htimer.
  destruct (resultPromise_registry_tools h args) as (R1 & R2 & R3 & R4).
  simpl in Hin. destruct Hin as [Hin|[Hin|[Hin|[Hin|[]]]]]; injection Hin as <- <- <-.
  - destruct (parsed_string h Zod.SearchNpmSchema args parsed "query") as [q Hq];
      [simpl; solve_NoDup|left; simpl; tauto|exact Hp|].
    destruct (parsed_maxResults h args parsed Hp) as (size & Hsize & _).
    pose proof (searchPackages_fetch_failure h world parsed q size reply Hq Hsize Hacq
                  (Hfetch _ _ _) Hfailed) as Hrun.
    apply (exec_bind_throw world _
             (fun results =>
                letP t := lift (NpmSearcher.formatSearchResults results) in
                Return (text_result t))) in Hrun.
    assert (exec world 0 (resultPromise h "search_npm" args) = _) as Hall
      by (rewrite R1; unfold parse_args; rewrite Hp; exact Hrun).
    rewrite (callTool_of_run h world timer_after _ args _ _ _ Hall Htimer).
    split; [reflexivity|]. repeat eexists.
  - destruct (parsed_string h Zod.FetchPackageContentSchema args parsed "url") as [u Hu];
      [simpl; solve_NoDup|right; simpl; tauto|exact Hp|].
    pose proof (fetchPackageContent_fetch_failure h world parsed u reply Hu Hacq
                  (Hfetch _ _ _) Hfailed) as Hrun.
    apply (exec_bind_throw world _ (fun content => Return (text_result content))) in Hrun.
    assert (exec world 0 (resultPromise h "fetch_package_content" args) = _) as Hall
      by (rewrite R2; unfold parse_args; rewrite Hp; exact Hrun).
    rewrite (callTool_of_run h world timer_after _ args _ _ _ Hall Htimer).
    split; [reflexivity|]. repeat eexists.
  - destruct (parsed_string h Zod.GetPackageVersionsSchema args parsed "packageName")
      as [pn Hpn]; [simpl; solve_NoDup|left; simpl; tauto|exact Hp|].
    pose proof (getPackageVersions_fetch_failure world parsed pn reply Hpn Hacq
                  (Hfetch _ _ _) Hfailed) as Hrun.
    apply (exec_bind_throw world _
             (fun versions =>
                letP pn := lift (ToString (field "packageName" parsed)) in
                Return (text_result (NpmSearcher.formatVersions pn versions)))) in Hrun.
    assert (exec world 0 (resultPromise h "get_package_versions" args) = _) as Hall
      by (rewrite R3; unfold parse_args; rewrite Hp; exact Hrun).
    rewrite (callTool_of_run h world timer_after _ args _ _ _ Hall Htimer).
    split; [reflexivity|]. repeat eexists.
  - destruct (parsed_string h Zod.GetPackageDetailsSchema args parsed "packageName")
      as [pn Hpn]; [simpl; solve_NoDup|left; simpl; tauto|exact Hp|].
    pose proof (getPackageDetails_fetch_failure world parsed pn reply Hpn Hacq
                  (Hfetch _ _ _) Hfailed) as Hrun.
    apply (exec_bind_throw world _
             (fun details => Return (text_result (JSON_stringify h details)))) in Hrun.
    assert (exec world 0 (resultPromise h "get_package_details" args) = _) as Hall
      by (rewrite R4; unfold parse_args; rewrite Hp; exact Hrun).
    rewrite (callTool_of_run h world timer_after _ args _ _ _ Hall Htimer).
    split; [reflexivity|]. repeat eexists.
Qed.

(* ===================================================================== *)
(** * What the update tools hand to ncu.run *)
(* ===================================================================== *)

Lemma field_spread k src : forall o,
  NoDup (map fst src) ->
  field k (spread o src) = if has_own k src then field k src else field k o.
Proof.
  unfold spread. induction src as [|[k0 v0] tl IH]; intros o Hnd; [reflexivity|].
  inversion Hnd as [|? ? Hk0 Hnd']; subst. cbn [fold_left fst snd].
  rewrite (IH _ Hnd'). rewrite field_set_prop. simpl.
  destruct (String.eqb k k0) eqn:E; simpl; [|reflexivity].
  apply String.eqb_eq in E. subst k0.
  destruct (has_own k tl) eqn:Eo; [|reflexivity].
  apply has_own_In in Eo. contradiction.
Qed.

Lemma field_copy_if_at k k0 k1 options o :
  field k (NpmCheckUpdatesHandler.copy_if k0 k1 options o) =
  if String.eqb k k1 && truthy (field k0 options) then field k0 options else field k o.
Proof.
  unfold NpmCheckUpdatesHandler.copy_if.
  destruct (truthy (field k0 options)); [|rewrite andb_false_r; reflexivity].
  rewrite field_set_prop, andb_true_r. reflexivity.
Qed.

Lemma field_flag_if_at k k0 options o :
  field k (NpmCheckUpdatesHandler.flag_if k0 options o) =
  if String.eqb k k0 && truthy (field k0 options) then JBool true else field k o.
Proof.
  unfold NpmCheckUpdatesHandler.flag_if.
  destruct (truthy (field k0 options)); [|rewrite andb_false_r; reflexivity].
  rewrite field_set_prop, andb_true_r. reflexivity.
Qed.

Lemma NoDup_update_tool_options name packageFile parsed :
  NoDup (map fst (update_tool_options name packageFile parsed)).
Proof.
  unfold update_tool_options, checkUpdates_options, upgradePackages_options,
    filterUpdates_options, resolveConflicts_options, setVersionConstraints_options,
    runDoctor_options.
  repeat match goal with
         | |- context [if ?b then _ else _] => destruct b
         end;
    repeat first [apply NoDup_copy_if | apply NoDup_flag_if]; simpl; solve_NoDup.
Qed.

(** What [runNcu] adds to the options it is given. *)
Lemma runNcu_options_field k baseOptions :
  NoDup (map fst baseOptions) ->
  field k (runNcu_options baseOptions) =
  if has_own k forced_options then field k forced_options else field k baseOptions.
Proof.
  intros Hnd. unfold runNcu_options. fold forced_options.
  rewrite field_spread by (simpl; solve_NoDup).
  rewrite spread_nil_NoDup by exact Hnd. reflexivity.
Qed.

Lemma silent_exec {A} world n (p : Prog A) :
  silent p -> trace (exec world n p) = [] /\ awaits (exec world n p) = n.
Proof. destruct p; simpl; intros Hp; try contradiction; split; reflexivity. Qed.

(** The run of a handler of the shape all six have: resolve the manifest,
    call [runNcu], then compute without further calls. *)
Lemma ncu_shape_run (world : Oracle) m (R : Result string) (base : string -> Props)
    (rest : JsValue -> Prog NpmCheckUpdatesHandler.Outcome)
    (cont : NpmCheckUpdatesHandler.Outcome -> Prog ToolResult) pf p :
  p = Prog_bind
        (Enter m
           (Prog_bind (lift R)
              (fun packageFile =>
                 Prog_bind (NpmCheckUpdatesHandler.runNcu (base packageFile)) rest)))
        cont ->
  R = Ok pf ->
  (forall r, silent (rest r)) ->
  (forall o, silent (cont o)) ->
  trace (exec world 0 p) = [Entered m; Called (ncu_run (runNcu_options (base pf)))] /\
  (forall e,
      world 0%nat (ncu_run (runNcu_options (base pf))) = Some (Throw e) ->
      exec world 0 p =
      mkRun [Entered m; Called (ncu_run (runNcu_options (base pf)))] 1
            (Some (Throw (Error ("NCU execution failed: " ++ error_message e))))) /\
  (forall r,
      world 0%nat (ncu_run (runNcu_options (base pf))) = Some (Ok r) ->
      exec world 0 p =
      mkRun [Entered m; Called (ncu_run (runNcu_options (base pf)))] 1
            (outcome (exec world 1 (Prog_bind (rest (if truthy r then r else JObj [])) cont)))).
Proof.
  intros -> -> Hrest Hcont.
  assert (forall (w : Oracle) n (q : Prog ToolResult), silent q -> trace (exec w n q) = [])
    as Hquiet by (intros w n q Hq; apply (silent_exec w n q Hq)).
  cbn [lift Prog_bind]. unfold NpmCheckUpdatesHandler.runNcu, await_call.
  fold (runNcu_options (base pf)).
  cbn [Prog_bind try_catch exec].
  split; [|split].
  - destruct (world 0%nat (ncu_run (runNcu_options (base pf)))) as [reply|];
      cbn [trace]; [|reflexivity].
    rewrite Hquiet; [reflexivity|].
    repeat first [ exact I | apply Hrest | apply Hcont | apply silent_lift
                 | apply silent_bind | apply silent_try_catch | intro ].
  - intros e He. rewrite He. reflexivity.
  - intros r Hr. rewrite Hr. cbn [lift Prog_bind try_catch].
    assert (silent (Prog_bind (rest (if truthy r then r else JObj [])) cont)) as Hs
      by (apply silent_bind; [apply Hrest|apply Hcont]).
    destruct (silent_exec world 1 _ Hs) as [Ht Ha].
    cbn [trace awaits outcome]. rewrite Ht, Ha. reflexivity.
Qed.

(** The six handlers have that shape. *)
Lemma update_tool_shape h name schema method args parsed :
  In (name, schema, method) update_tools ->
  Zod.safeParse h schema args = Some parsed ->
  NoDup (map fst parsed) ->
  exists (rest : JsValue -> Prog NpmCheckUpdatesHandler.Outcome)
         (cont : NpmCheckUpdatesHandler.Outcome -> Prog ToolResult),
    (forall r, silent (rest r)) /\ (forall o, silent (cont o)) /\
    resultPromise h name args =
    Prog_bind
      (Enter method
         (Prog_bind
            (lift (NpmCheckUpdatesHandler.resolvePackagePath h (field "packagePath" parsed)))
            (fun packageFile =>
               Prog_bind
                 (NpmCheckUpdatesHandler.runNcu (update_tool_options name packageFile parsed))
                 rest)))
      cont.
Proof.
  intros Hin Hp Hnd.
  pose proof (peer_added_keeps_packagePath parsed Hnd) as Hpeer.
  destruct (resultPromise_update_tools h args) as (P1 & P2 & P3 & P4 & P5 & P6).
  simpl in Hin.
  repeat (destruct Hin as [Hin|Hin];
          [injection Hin as <- <- <-;
           first [rewrite P1|rewrite P2|rewrite P3|rewrite P4|rewrite P5|rewrite P6];
           unfold parse_args; rewrite Hp; cbn [Prog_bind];
           do 2 eexists; split; [|split]; cycle 2;
           [first [reflexivity|rewrite <- Hpeer; reflexivity]
           |solve_silent|solve_silent]|]).
  contradiction.
Qed.

(** The run of an update tool whose manifest exists: the handler is
    entered and [ncu.run] is called once, with the handler's options
    completed by [runNcu]. *)
Lemma update_tool_run h (world : Oracle) name schema method args parsed :
  In (name, schema, method) update_tools ->
  Zod.safeParse h schema args = Some parsed ->
  fs_existsSync h
    (path_resolve h (process_cwd h) (manifest_argument (field "packagePath" parsed)))
  = true ->
  exists (rest : JsValue -> Prog NpmCheckUpdatesHandler.Outcome)
         (cont : NpmCheckUpdatesHandler.Outcome -> Prog ToolResult) options,
    options =
      runNcu_options
        (update_tool_options name
           (path_resolve h (process_cwd h) (manifest_argument (field "packagePath" parsed)))
           parsed) /\
    (forall r, silent (rest r)) /\ (forall o, silent (cont o)) /\
    resultPromise h name args =
      Prog_bind
        (Enter method
           (Prog_bind
              (lift (NpmCheckUpdatesHandler.resolvePackagePath h (field "packagePath" parsed)))
              (fun packageFile =>
                 Prog_bind
                   (NpmCheckUpdatesHandler.runNcu (update_tool_options name packageFile parsed))
                   rest)))
        cont /\
    trace (exec world 0 (resultPromise h name args)) = [Entered method; Called (ncu_run options)] /\
    (forall e,
        world 0%nat (ncu_run options) = Some (Throw e) ->
        exec world 0 (resultPromise h name args) =
        mkRun [Entered method; Called (ncu_run options)] 1
              (Some (Throw (Error ("NCU execution failed: " ++ error_message e))))) /\
    (forall r,
        world 0%nat (ncu_run options) = Some (Ok r) ->
        exec world 0 (resultPromise h name args) =
        mkRun [Entered method; Called (ncu_run options)] 1
              (outcome (exec world 1
                          (Prog_bind (rest (if truthy r then r else JObj [])) cont)))).
Proof.
  intros Hin Hp Hfound.
  destruct (validated_packagePath h name schema method args parsed Hin Hp) as [Hnd Hpp].
  pose proof (resolvePackagePath_found h _ Hpp Hfound) as Hres.
  destruct (update_tool_shape h name schema method args parsed Hin Hp Hnd)
    as (rest & cont & Hrest & Hcont & Hshape).
  exists rest, cont. eexists. split; [reflexivity|].
  split; [exact Hrest|]. split; [exact Hcont|]. split; [exact Hshape|].
  apply (ncu_shape_run world method _
           (fun packageFile => update_tool_options name packageFile parsed)
           rest cont _ _ Hshape Hres Hrest Hcont).
Qed.

Ltac field_chain :=
  unfold update_tool_options; cbn [String.eqb Ascii.eqb Bool.eqb];
  unfold checkUpdates_options, upgradePackages_options, filterUpdates_options,
    resolveConflicts_options, setVersionConstraints_options, runDoctor_options;
  repeat first [rewrite field_copy_if_at | rewrite field_flag_if_at];
  cbn [String.eqb Ascii.eqb Bool.eqb andb field].

Lemma ncu_calls_one method options :
  ncu_calls [Entered method; Called (ncu_run options)] = [options].
Proof. reflexivity. Qed.

(** X8. For each of the six update tools, called with valid arguments on
    a manifest that exists: [ncu.run] is called exactly once; its options
    name the resolved manifest as [packageFile] and carry the settings
    [runNcu] forces ([jsonUpgraded], [silent], [json] true, [loglevel]
    silent, both streams on stderr). *)
Theorem update_tools_call_ncu_once
    h (world : Oracle) timer_after name schema method args parsed :
  In (name, schema, method) update_tools ->
  Zod.safeParse h schema args = Some parsed ->
  fs_existsSync h
    (path_resolve h (process_cwd h) (manifest_argument (field "packagePath" parsed)))
  = true ->
  exists options,
    ncu_calls (observed (callTool h world timer_after name args)) = [options] /\
    field "packageFile" options =
      JStr (path_resolve h (process_cwd h) (manifest_argument (field "packagePath" parsed))) /\
    Forall (fun setting => field (fst setting) options = snd setting) forced_options.
Proof.
  intros Hin Hp Hfound.
  destruct (update_tool_run h world name schema method args parsed Hin Hp Hfound)
    as (rest & cont & options & Hopt & _ & _ & _ & Htrace & _).
  exists options. unfold callTool. cbn [observed]. rewrite Htrace.
  split; [reflexivity|]. subst options.
  split.
  - rewrite runNcu_options_field by apply NoDup_update_tool_options.
    cbn [forced_options has_own String.eqb Ascii.eqb Bool.eqb orb].
    simpl in Hin.
    repeat (destruct Hin as [Hin|Hin];
            [injection Hin as <- <- <-; field_chain; reflexivity|]).
    contradiction.
  - repeat constructor;
      rewrite runNcu_options_field by apply NoDup_update_tool_options; reflexivity.
Qed.

(** X9. For each of the six update tools, called with valid arguments on
    a manifest that exists: when [ncu.run] rejects, the caller gets the
    [isError] envelope [NCU execution failed: <message of the rejection>]. *)
Theorem ncu_failure_is_reported
    h (world : Oracle) timer_after name schema method args parsed e :
  In (name, schema, method) update_tools ->
  Zod.safeParse h schema args = Some parsed ->
  fs_existsSync h
    (path_resolve h (process_cwd h) (manifest_argument (field "packagePath" parsed)))
  = true ->
  (forall options, world 0%nat (ncu_run options) = Some (Throw e)) ->
  (1 <= timer_after)%nat ->
  surfaced (callTool h world timer_after name args) =
  [Ok (error_envelope ("NCU execution failed: " ++ error_message e))].
Proof.
  intros Hin Hp Hfound Hreject Htimer.
  destruct (update_tool_run h world name schema method args parsed Hin Hp Hfound)
    as (rest & cont & options & _ & _ & _ & _ & _ & Hthrow & _).
  rewrite (callTool_of_run h world timer_after name args _ _ _
             (Hthrow e (Hreject options)) Htimer).
  reflexivity.
Qed.

(** [failed_fetch_is_reported] on [get_package_versions] when the registry
    answers 404. *)
Lemma failed_fetch_is_reported_witness :
  surfaced (callTool Sample.host (world_http_status 404) 5 "get_package_versions"
              (JObj [("packageName", JStr "no-such-package")])) =
    [Ok (error_envelope "Error fetching package versions: HTTP error! Status: 404")] /\
  exists method url options timeoutMs,
    observed (callTool Sample.host (world_http_status 404) 5 "get_package_versions"
                (JObj [("packageName", JStr "no-such-package")])) =
    [Entered method; Called acquire; Called (fetch url options timeoutMs)].
Proof.
  apply (failed_fetch_is_reported Sample.host (world_http_status 404) 5
           "get_package_versions" Zod.GetPackageVersionsSchema
           "Error fetching package versions: "
           (JObj [("packageName", JStr "no-such-package")])
           [("packageName", JStr "no-such-package")]
           (Ok {| ok := false; status := 404 |})).
  - simpl. tauto.
  - reflexivity.
  - reflexivity.
  - intros url options timeoutMs. reflexivity.
  - reflexivity.
  - lia.
Defined.

(** [update_tools_call_ncu_once] on [upgrade_packages] without arguments. *)
Lemma update_tools_call_ncu_once_witness :
  exists options,
    ncu_calls (observed (callTool Sample.host (Sample.world JNull EmptyString (JObj [])) 5
                           "upgrade_packages" (JObj []))) = [options] /\
    field "packageFile" options = JStr "/srv/app/package.json" /\
    Forall (fun setting => field (fst setting) options = snd setting) forced_options.
Proof.
  apply (update_tools_call_ncu_once Sample.host (Sample.world JNull EmptyString (JObj [])) 5
           "upgrade_packages" Zod.UpgradePackagesSchema
           "NpmCheckUpdatesHandler.upgradePackages" (JObj []) []).
  - simpl. tauto.
  - reflexivity.
  - reflexivity.
Defined.

(** [ncu_failure_is_reported] on [run_doctor] when [ncu.run] rejects. *)
Lemma ncu_failure_is_reported_witness :
  surfaced (callTool Sample.host (world_rejecting (Error "no lockfile")) 5 "run_doctor"
              (JObj [])) =
  [Ok (error_envelope "NCU execution failed: no lockfile")].
Proof.
  apply (ncu_failure_is_reported Sample.host (world_rejecting (Error "no lockfile")) 5
           "run_doctor" Zod.RunDoctorSchema "NpmCheckUpdatesHandler.runDoctor"
           (JObj []) [] (Error "no lockfile")).
  - simpl. tauto.
  - reflexivity.
  - reflexivity.
  - intros options. reflexivity.
  - lia.
Defined.

(** The one call of [ncu.run] of an update tool whose manifest exists. *)
Lemma update_tool_calls h (world : Oracle) timer_after name schema method args parsed :
  In (name, schema, method) update_tools ->
  Zod.safeParse h schema args = Some parsed ->
  fs_existsSync h
    (path_resolve h (process_cwd h) (manifest_argument (field "packagePath" parsed)))
  = true ->
  ncu_calls (observed (callTool h world timer_after name args)) =
  [runNcu_options
     (update_tool_options name
        (path_resolve h (process_cwd h) (manifest_argument (field "packagePath" parsed)))
        parsed)].
Proof.
  intros Hin Hp Hfound.
  destruct (update_tool_run h world name schema method args parsed Hin Hp Hfound)
    as (rest & cont & options & Hopt & _ & _ & _ & Htrace & _).
  unfold callTool. cbn [observed]. rewrite Htrace, Hopt. reflexivity.
Qed.

Lemma field_peer_added k parsed :
  NoDup (map fst parsed) ->
  String.eqb k "peer" = false ->
  field k (spread (spread [] parsed) [("peer", JBool true)]) = field k parsed.
Proof.
  intros Hnd Hk. rewrite field_spread_other by (simpl; rewrite Hk; reflexivity).
  rewrite spread_nil_NoDup by exact Hnd. reflexivity.
Qed.

Lemma NoDup_update_schemas name schema method :
  In (name, schema, method) update_tools -> NoDup (map fst schema).
Proof.
  simpl. intros Hin.
  repeat (destruct Hin as [Hin|Hin]; [injection Hin as <- <- <-; simpl; solve_NoDup|]).
  contradiction.
Qed.

(** X10. For each of the six update tools, called with valid arguments on a
    manifest that exists: every argument of the tool's schema other than
    [packagePath] reaches [ncu.run] unchanged and under its own name
    ([upgradeType] as [target]), unless it is falsy (a flag that is
    [false], an empty string), in which case the option is left out. *)
Theorem validated_arguments_are_forwarded
    h (world : Oracle) timer_after name schema method args parsed k t :
  In (name, schema, method) update_tools ->
  Zod.safeParse h schema args = Some parsed ->
  fs_existsSync h
    (path_resolve h (process_cwd h) (manifest_argument (field "packagePath" parsed)))
  = true ->
  In (k, t) schema ->
  k <> "packagePath" ->
  exists options,
    ncu_calls (observed (callTool h world timer_after name args)) = [options] /\
    field (ncu_name k) options = forwarded (field k parsed).
Proof.
  intros Hin Hp Hfound Hk Hnot.
  rewrite (update_tool_calls h world timer_after name schema method args parsed Hin Hp Hfound).
  eexists. split; [reflexivity|].
  destruct (validated_packagePath h name schema method args parsed Hin Hp) as [Hnd _].
  destruct (safeParse_lookup h schema args parsed k t
              (NoDup_update_schemas name schema method Hin) Hk Hp) as (input & _ & Hv).
  rewrite runNcu_options_field by apply NoDup_update_tool_options.
  simpl in Hin.
  repeat (destruct Hin as [Hin|Hin]; [injection Hin as <- <- <-|]); try contradiction.
  all: simpl in Hk;
    repeat (destruct Hk as [Hk|Hk]; [injection Hk as <- <-|]); try contradiction;
    try (exfalso; apply Hnot; reflexivity).
  all: cbn [ncu_name forced_options has_own String.eqb Ascii.eqb Bool.eqb orb].
  all: field_chain.
  all: rewrite ?field_peer_added by (first [exact Hnd | reflexivity]).
  all: unfold forwarded.
  all: try reflexivity.
  all: simpl in Hv; destruct (field _ input) as [| |b| | |s|l| |]; try discriminate Hv;
    try (injection Hv as <-; try destruct b; reflexivity).
  all: try (destruct s; simpl in Hv; [discriminate Hv|]).
  all: match type of Hv with
       | (if ?c then _ else _) = _ => destruct c; [|discriminate Hv]
       end;
    injection Hv as <-; reflexivity.
Qed.

(** [validated_arguments_are_forwarded] on [upgradeType] of
    [upgrade_packages]. *)
Lemma validated_arguments_are_forwarded_witness :
  exists options,
    ncu_calls (observed (callTool Sample.host (Sample.world JNull EmptyString (JObj [])) 5
                           "upgrade_packages"
                           (JObj [("upgradeType", JStr "minor"); ("peer", JBool false)])))
    = [options] /\
    field "target" options = JStr "minor".
Proof.
  apply (validated_arguments_are_forwarded Sample.host
           (Sample.world JNull EmptyString (JObj [])) 5
           "upgrade_packages" Zod.UpgradePackagesSchema
           "NpmCheckUpdatesHandler.upgradePackages"
           (JObj [("upgradeType", JStr "minor"); ("peer", JBool false)])
           [("upgradeType", JStr "minor"); ("peer", JBool false)]
           "upgradeType" (Zod.z_optional Zod.NcuTargetEnum)).
  - simpl. tauto.
  - reflexivity.
  - reflexivity.
  - simpl. tauto.
  - discriminate.
Defined.

(** X11. For each of the six update tools, called with valid arguments on a
    manifest that exists: [ncu.run] is told to rewrite the manifest
    ([upgrade: true]) always by [upgrade_packages] and [run_doctor], never
    by [check_updates] (whatever the caller sends), and by the other three
    exactly when the caller set [upgrade]; [doctor: true] is sent by
    [run_doctor] alone. *)
Theorem manifest_is_rewritten_only_on_request
    h (world : Oracle) timer_after name schema method args parsed :
  In (name, schema, method) update_tools ->
  Zod.safeParse h schema args = Some parsed ->
  fs_existsSync h
    (path_resolve h (process_cwd h) (manifest_argument (field "packagePath" parsed)))
  = true ->
  exists options,
    ncu_calls (observed (callTool h world timer_after name args)) = [options] /\
    field "upgrade" options = upgrade_setting name parsed /\
    field "doctor" options = doctor_setting name.
Proof.
  intros Hin Hp Hfound.
  rewrite (update_tool_calls h world timer_after name schema method args parsed Hin Hp Hfound).
  eexists. split; [reflexivity|].
  destruct (validated_packagePath h name schema method args parsed Hin Hp) as [Hnd _].
  rewrite !runNcu_options_field by apply NoDup_update_tool_options.
  cbn [forced_options has_own String.eqb Ascii.eqb Bool.eqb orb].
  simpl in Hin.
  repeat (destruct Hin as [Hin|Hin]; [injection Hin as <- <- <-|]); try contradiction.
  all: split; field_chain; rewrite ?field_peer_added by (first [exact Hnd | reflexivity]);
    reflexivity.
Qed.

(** [manifest_is_rewritten_only_on_request] on [check_updates] called
    with [upgrade: true]: the option does not reach [ncu.run]. *)
Lemma manifest_is_rewritten_only_on_request_witness :
  exists options,
    ncu_calls (observed (callTool Sample.host (Sample.world JNull EmptyString (JObj [])) 5
                           "check_updates" (JObj [("upgrade", JBool true)])))
    = [options] /\
    field "upgrade" options = JUndefined /\
    field "doctor" options = JUndefined.
Proof.
  apply (manifest_is_rewritten_only_on_request Sample.host
           (Sample.world JNull EmptyString (JObj [])) 5
           "check_updates" Zod.CheckUpdatesSchema "NpmCheckUpdatesHandler.checkUpdates"
           (JObj [("upgrade", JBool true)]) []).
  - simpl. tauto.
  - reflexivity.
  - reflexivity.
Defined.

(* ===================================================================== *)
(** * Each tool keeps to its own backend *)
(* ===================================================================== *)

Lemma every_call_trace {A} (P : Call -> Prop) world (p : Prog A) : forall n,
  every_call P p -> Forall P (calls (trace (exec world n p))).
Proof.
  induction p as [a|e|c k IH|m k IH]; intros n Hp; simpl in *.
  - constructor.
  - constructor.
  - destruct Hp as [Hc Hk]. destruct (world n c) as [r|]; simpl.
    + constructor; [exact Hc|]. apply IH, Hk.
    + constructor; [exact Hc|constructor].
  - apply IH. exact Hp.
Qed.

Lemma silent_every_call {A} (P : Call -> Prop) (p : Prog A) : silent p -> every_call P p.
Proof. destruct p; simpl; intros Hp; try contradiction; exact I. Qed.

Lemma every_call_bind_silent {A B} (P : Call -> Prop) (p : Prog A) (f : A -> Prog B) :
  every_call P p -> (forall a, silent (f a)) -> every_call P (Prog_bind p f).
Proof.
  induction p as [a|e|c k IH|m k IH]; intros Hp Hf; simpl in *.
  - apply silent_every_call, Hf.
  - exact I.
  - destruct Hp as [Hc Hk]. split; auto.
  - auto.
Qed.

Lemma every_call_impl {A} (P Q : Call -> Prop) (p : Prog A) :
  (forall c, P c -> Q c) -> every_call P p -> every_call Q p.
Proof.
  intros HPQ. induction p as [a|e|c k IH|m k IH]; simpl; auto.
  intros [Hc Hk]. split; auto.
Qed.

Lemma keys_spread k src : forall o,
  In k (map fst (spread o src)) -> In k (map fst o) \/ In k (map fst src).
Proof.
  unfold spread. induction src as [|[k0 v0] tl IH]; intros o Hk; simpl in *; [auto|].
  apply IH in Hk. destruct Hk as [Hk|Hk]; [|auto].
  rewrite keys_set_prop in Hk. destruct (has_own k0 o); [auto|].
  apply in_app_iff in Hk. destruct Hk as [Hk|[Hk|[]]]; auto.
Qed.

Lemma keys_copy_if k k0 k1 options o :
  In k (map fst (NpmCheckUpdatesHandler.copy_if k0 k1 options o)) ->
  k1 = k \/ In k (map fst o).
Proof.
  unfold NpmCheckUpdatesHandler.copy_if. destruct (truthy _); [|auto].
  rewrite keys_set_prop. destruct (has_own k1 o); [auto|].
  intros Hk. apply in_app_iff in Hk. destruct Hk as [Hk|[Hk|[]]]; auto.
Qed.

Lemma keys_flag_if k k0 options o :
  In k (map fst (NpmCheckUpdatesHandler.flag_if k0 options o)) ->
  k0 = k \/ In k (map fst o).
Proof.
  unfold NpmCheckUpdatesHandler.flag_if. destruct (truthy _); [|auto].
  rewrite keys_set_prop. destruct (has_own k0 o); [auto|].
  intros Hk. apply in_app_iff in Hk. destruct Hk as [Hk|[Hk|[]]]; auto.
Qed.

Ltac known_key :=
  unfold known_options; apply Forall_forall; intros k Hk;
  apply keys_spread in Hk; destruct Hk as [Hk|Hk];
  [apply keys_spread in Hk; destruct Hk as [[]|Hk];
   repeat (first [apply keys_copy_if in Hk | apply keys_flag_if in Hk];
           destruct Hk as [<-|Hk]; [simpl; tauto|])|];
  simpl in Hk; repeat (destruct Hk as [<-|Hk]; [simpl; tauto|]); contradiction.

Ltac step_calls known :=
  repeat first
    [ exact I
    | progress cbn [every_call Prog_bind try_catch lift await_call
                    NpmSearcher.fetchWithTimeout]
    | progress cbv zeta
    | intro
    | split
    | known
    | match goal with
      | |- context [lift ?r] => destruct r
      | |- context [NpmSearcher.check_ok ?r] =>
          unfold NpmSearcher.check_ok; destruct (negb (ok r))
      | |- context [if ?b then _ else _] => destruct b
      end ].

Lemma registry_handlers_calls name h parsed :
  In name (map (fun t => fst (fst t)) registry_tools) ->
  every_call (permitted name) (NpmSearcher.searchPackages h parsed) /\
  every_call (permitted name) (NpmSearcher.fetchPackageContent h parsed) /\
  every_call (permitted name) (NpmSearcher.getPackageVersions parsed) /\
  every_call (permitted name) (NpmSearcher.getPackageDetails parsed).
Proof.
  intros Hin.
  unfold NpmSearcher.searchPackages, NpmSearcher.fetchPackageContent,
    NpmSearcher.getPackageVersions, NpmSearcher.getPackageDetails.
  split; [step_calls ltac:(exact Hin)|]. split; [step_calls ltac:(exact Hin)|].
  split; step_calls ltac:(exact Hin).
Qed.

Lemma update_handlers_calls name h parsed :
  In name (map (fun t => fst (fst t)) update_tools) ->
  every_call (permitted name) (NpmCheckUpdatesHandler.checkUpdates h parsed) /\
  every_call (permitted name) (NpmCheckUpdatesHandler.upgradePackages h parsed) /\
  every_call (permitted name) (NpmCheckUpdatesHandler.filterUpdates h parsed) /\
  every_call (permitted name) (NpmCheckUpdatesHandler.resolveConflicts h parsed) /\
  every_call (permitted name) (NpmCheckUpdatesHandler.setVersionConstraints h parsed) /\
  every_call (permitted name) (NpmCheckUpdatesHandler.runDoctor h parsed).
Proof.
  intros Hin.
  unfold NpmCheckUpdatesHandler.checkUpdates, NpmCheckUpdatesHandler.upgradePackages,
    NpmCheckUpdatesHandler.filterUpdates, NpmCheckUpdatesHandler.resolveConflicts,
    NpmCheckUpdatesHandler.setVersionConstraints, NpmCheckUpdatesHandler.runDoctor,
    NpmCheckUpdatesHandler.runNcu.
  split; [step_calls ltac:(first [exact Hin | known_key])|].
  split; [step_calls ltac:(first [exact Hin | known_key])|].
  split; [step_calls ltac:(first [exact Hin | known_key])|].
  split; [step_calls ltac:(first [exact Hin | known_key])|].
  split; step_calls ltac:(first [exact Hin | known_key]).
Qed.

(** X12. In every invocation, whatever the tool name, the arguments and the
    answers of the outside world: [ncu.run] is called by the six update
    tools only, and the options it gets carry no name but those the
    handlers and [runNcu] write, so no other option of ncu can be set by a
    caller; the gate and the network are used by the four registry tools
    only. *)
Theorem tools_keep_to_their_backend h world timer_after name args :
  Forall (permitted name) (calls (observed (callTool h world timer_after name args))).
Proof.
  unfold callTool. cbn [observed]. apply every_call_trace.
  destruct (in_dec String.string_dec name declared_tools) as [Hin|Hout].
  - destruct (resultPromise_registry_tools h args) as (R1 & R2 & R3 & R4).
    destruct (resultPromise_update_tools h args) as (P1 & P2 & P3 & P4 & P5 & P6).
    simpl in Hin.
    repeat (destruct Hin as [<-|Hin];
            [first [rewrite R1|rewrite R2|rewrite R3|rewrite R4
                   |rewrite P1|rewrite P2|rewrite P3|rewrite P4|rewrite P5|rewrite P6];
             unfold parse_args;
             match goal with
             | |- context [Zod.safeParse ?h ?s ?a] =>
                 destruct (Zod.safeParse h s a) as [parsed|]
             end;
             [cbn [Prog_bind];
              apply every_call_bind_silent; [|solve_silent];
              first [apply (registry_handlers_calls _ h parsed); simpl; tauto
                    |apply (update_handlers_calls _ h parsed); simpl; tauto
                    |apply (update_handlers_calls
                              _ h (spread (spread [] parsed) [("peer", JBool true)]));
                     simpl; tauto]
             |exact I]|]).
    contradiction.
  - rewrite (resultPromise_unknown h name args Hout). exact I.
Qed.

(* ===================================================================== *)
(** * What the update tools answer *)
(* ===================================================================== *)

Lemma count_keys_or_empty r :
  exists keys, Object_keys (or_empty r) = Ok keys /\
               NpmCheckUpdatesHandler.count_keys (or_empty r) = Ok (Z.of_nat (List.length keys)).
Proof.
  unfold NpmCheckUpdatesHandler.count_keys, Object_keys, or_empty.
  destruct r as [| |[]|z|f|s|l|o|x]; cbn [truthy Object_entries Result_bind];
    try (eexists; split; reflexivity).
  - destruct (negb (z =? 0)%Z); cbn [Object_entries Result_bind]; eexists; split; reflexivity.
  - destruct (negb (String.eqb s EmptyString)); cbn [Object_entries Result_bind];
      eexists; split; reflexivity.
Qed.

Ltac run_update_handler Hres Hworld :=
  rewrite Hres;
  cbn [exec Prog_bind try_catch lift await_call trace awaits outcome];
  rewrite Hworld;
  cbn [exec Prog_bind try_catch lift await_call trace awaits outcome].

Lemma counting_handlers_run h (world : Oracle) options pf r keys :
  NpmCheckUpdatesHandler.resolvePackagePath h (field "packagePath" options) = Ok pf ->
  (forall o, world 0%nat (ncu_run o) = Some (Ok r)) ->
  Object_keys (or_empty r) = Ok keys ->
  let n := Z.of_nat (List.length keys) in
  (exists tr,
      exec world 0 (NpmCheckUpdatesHandler.checkUpdates h options) =
      mkRun tr 1 (Some (Ok {| NpmCheckUpdatesHandler.data := or_empty r;
                              NpmCheckUpdatesHandler.message :=
                                count_message "check_updates" options n |}))) /\
  (exists tr,
      exec world 0 (NpmCheckUpdatesHandler.upgradePackages h options) =
      mkRun tr 1 (Some (Ok {| NpmCheckUpdatesHandler.data := or_empty r;
                              NpmCheckUpdatesHandler.message :=
                                count_message "upgrade_packages" options n |}))) /\
  (exists tr,
      exec world 0 (NpmCheckUpdatesHandler.filterUpdates h options) =
      mkRun tr 1 (Some (Ok {| NpmCheckUpdatesHandler.data := or_empty r;
                              NpmCheckUpdatesHandler.message :=
                                count_message "filter_updates" options n |}))) /\
  (exists tr,
      exec world 0 (NpmCheckUpdatesHandler.resolveConflicts h options) =
      mkRun tr 1 (Some (Ok {| NpmCheckUpdatesHandler.data := or_empty r;
                              NpmCheckUpdatesHandler.message :=
                                count_message "resolve_conflicts" options n |}))) /\
  (exists tr,
      exec world 0 (NpmCheckUpdatesHandler.setVersionConstraints h options) =
      mkRun tr 1 (Some (Ok {| NpmCheckUpdatesHandler.data := or_empty r;
                              NpmCheckUpdatesHandler.message :=
                                count_message "set_version_constraints" options n |}))).
Proof.
  intros Hres Hworld Hkeys n.
  assert (NpmCheckUpdatesHandler.count_keys (or_empty r) = Ok n) as Hcount
    by (unfold NpmCheckUpdatesHandler.count_keys; rewrite Hkeys; reflexivity).
  unfold NpmCheckUpdatesHandler.checkUpdates, NpmCheckUpdatesHandler.upgradePackages,
    NpmCheckUpdatesHandler.filterUpdates, NpmCheckUpdatesHandler.resolveConflicts,
    NpmCheckUpdatesHandler.setVersionConstraints, NpmCheckUpdatesHandler.runNcu.
  fold (or_empty r).
  repeat split; run_update_handler Hres Hworld; fold (or_empty r); rewrite Hcount;
    cbn [exec Prog_bind lift trace awaits outcome]; eexists; reflexivity.
Qed.

Lemma exec_bind_return {A B} world (p : Prog A) (g : A -> B) n tr m a :
  exec world n p = mkRun tr m (Some (Ok a)) ->
  exec world n (Prog_bind p (fun x => Return (g x))) = mkRun tr m (Some (Ok (g a))).
Proof.
  intros Hp. rewrite exec_bind, Hp. cbn [outcome trace awaits exec].
  rewrite app_nil_r. reflexivity.
Qed.

(** X13. For [check_updates], [upgrade_packages], [filter_updates],
    [resolve_conflicts] and [set_version_constraints], called with valid
    arguments on a manifest that exists: when [ncu.run] resolves, the
    answer is the tool's sentence about the number of keys of the result,
    an empty line, and the result as JSON.  A result that is [undefined]
    (or otherwise falsy) counts as the empty object: the sentence is the
    tool's nothing-to-do sentence and the JSON is that of [{}]. *)
Theorem update_tools_report_the_count
    h (world : Oracle) timer_after name schema method args parsed r :
  In (name, schema, method) counting_tools ->
  Zod.safeParse h schema args = Some parsed ->
  fs_existsSync h
    (path_resolve h (process_cwd h) (manifest_argument (field "packagePath" parsed)))
  = true ->
  (forall options, world 0%nat (ncu_run options) = Some (Ok r)) ->
  (1 <= timer_after)%nat ->
  exists keys,
    Object_keys (or_empty r) = Ok keys /\
    surfaced (callTool h world timer_after name args) =
    [Ok (text_result
           (count_message name parsed (Z.of_nat (List.length keys)) ++ nl ++ nl ++
            JSON_stringify h (or_empty r)))].
Proof.
  intros Hin Hp Hfound Hworld Htimer.
  assert (In (name, schema, method) update_tools) as Hin'
    by (simpl in Hin; simpl; tauto).
  destruct (validated_packagePath h name schema method args parsed Hin' Hp) as [Hnd Hpp].
  pose proof (resolvePackagePath_found h _ Hpp Hfound) as Hres.
  destruct (count_keys_or_empty r) as (keys & Hkeys & _).
  exists keys. split; [exact Hkeys|].
  destruct (resultPromise_update_tools h args) as (P1 & P2 & P3 & P4 & P5 & _).
  assert (NpmCheckUpdatesHandler.resolvePackagePath h
            (field "packagePath" (spread (spread [] parsed) [("peer", JBool true)])) =
          Ok (path_resolve h (process_cwd h) (manifest_argument (field "packagePath" parsed))))
    as Hres' by (rewrite peer_added_keeps_packagePath by exact Hnd; exact Hres).
  destruct (counting_handlers_run h world parsed _ r keys Hres Hworld Hkeys)
    as ([t1 H1] & [t2 H2] & [t3 H3] & _ & [t5 H5]).
  destruct (counting_handlers_run h world _ _ r keys Hres' Hworld Hkeys)
    as (_ & _ & _ & [t4 H4] & _).
  assert (count_message "resolve_conflicts"
            (spread (spread [] parsed) [("peer", JBool true)]) (Z.of_nat (List.length keys)) =
          count_message "resolve_conflicts" parsed (Z.of_nat (List.length keys))) as Hmsg.
  { unfold count_message. cbn [String.eqb Ascii.eqb Bool.eqb].
    rewrite field_peer_added by (first [exact Hnd | reflexivity]). reflexivity. }
  rewrite Hmsg in H4.
  simpl in Hin.
  repeat (destruct Hin as [Hin|Hin]; [injection Hin as <- <- <-|]); try contradiction.
  - apply (exec_bind_return world _ (ncu_text h)) in H1.
    assert (exec world 0 (resultPromise h "check_updates" args) = _) as Hall
      by (rewrite P1; unfold parse_args; rewrite Hp; exact H1).
    rewrite (callTool_of_run h world timer_after _ args _ _ _ Hall Htimer). reflexivity.
  - apply (exec_bind_return world _ (ncu_text h)) in H2.
    assert (exec world 0 (resultPromise h "upgrade_packages" args) = _) as Hall
      by (rewrite P2; unfold parse_args; rewrite Hp; exact H2).
    rewrite (callTool_of_run h world timer_after _ args _ _ _ Hall Htimer). reflexivity.
  - apply (exec_bind_return world _ (ncu_text h)) in H3.
    assert (exec world 0 (resultPromise h "filter_updates" args) = _) as Hall
      by (rewrite P3; unfold parse_args; rewrite Hp; exact H3).
    rewrite (callTool_of_run h world timer_after _ args _ _ _ Hall Htimer). reflexivity.
  - apply (exec_bind_return world _ (ncu_text h)) in H4.
    assert (exec world 0 (resultPromise h "resolve_conflicts" args) = _) as Hall
      by (rewrite P4; unfold parse_args; rewrite Hp; exact H4).
    rewrite (callTool_of_run h world timer_after _ args _ _ _ Hall Htimer). reflexivity.
  - apply (exec_bind_return world _ (ncu_text h)) in H5.
    assert (exec world 0 (resultPromise h "set_version_constraints" args) = _) as Hall
      by (rewrite P5; unfold parse_args; rewrite Hp; exact H5).
    rewrite (callTool_of_run h world timer_after _ args _ _ _ Hall Htimer). reflexivity.
Qed.

(** [update_tools_report_the_count] on [check_updates] when two
    dependencies are outdated. *)
Lemma update_tools_report_the_count_witness :
  exists keys,
    Object_keys (or_empty (JObj [("zod", JStr "^3.23.0"); ("cheerio", JStr "^1.0.0")]))
    = Ok keys /\
    surfaced (callTool Sample.host
                (Sample.world JNull EmptyString
                   (JObj [("zod", JStr "^3.23.0"); ("cheerio", JStr "^1.0.0")]))
                5 "check_updates" (JObj [])) =
    [Ok (text_result
           (count_message "check_updates" [] (Z.of_nat (List.length keys)) ++ nl ++ nl ++
            JSON_stringify Sample.host
              (or_empty (JObj [("zod", JStr "^3.23.0"); ("cheerio", JStr "^1.0.0")]))))].
Proof.
  apply (update_tools_report_the_count Sample.host
           (Sample.world JNull EmptyString
              (JObj [("zod", JStr "^3.23.0"); ("cheerio", JStr "^1.0.0")]))
           5 "check_updates" Zod.CheckUpdatesSchema "NpmCheckUpdatesHandler.checkUpdates"
           (JObj []) []).
  - simpl. tauto.
  - reflexivity.
  - reflexivity.
  - intros options. reflexivity.
  - lia.
Defined.

Lemma length_filter_negb {A} (f : A -> bool) (l : list A) :
  (List.length (filter f l) + List.length (filter (fun x => negb (f x)) l) =
   List.length l)%nat.
Proof.
  induction l as [|x tl IH]; simpl; [reflexivity|].
  destruct (f x); simpl; lia.
Qed.

(** X14. [run_doctor], called with valid arguments on a manifest that exists,
    when [ncu.run] resolves with an object (or with nothing, which counts
    as the empty object): for an empty object the answer is the
    nothing-to-do sentence and the JSON of [{}]; otherwise each entry is
    tallied once, as a working upgrade when its value is exactly [true] and
    as a breaking one in every other case, and the answer gives both
    tallies and the result as JSON. *)
Theorem run_doctor_tallies h (world : Oracle) timer_after args parsed r outcomes :
  Zod.safeParse h Zod.RunDoctorSchema args = Some parsed ->
  fs_existsSync h
    (path_resolve h (process_cwd h) (manifest_argument (field "packagePath" parsed)))
  = true ->
  (forall options, world 0%nat (ncu_run options) = Some (Ok r)) ->
  or_empty r = JObj outcomes ->
  (1 <= timer_after)%nat ->
  let working :=
    List.length (filter NpmCheckUpdatesHandler.strict_true (map snd outcomes)) in
  let broken := (List.length outcomes - working)%nat in
  (working + broken = List.length outcomes)%nat /\
  surfaced (callTool h world timer_after "run_doctor" args) =
  [Ok (text_result
         ((if Nat.eqb (List.length outcomes) 0
           then nothing_message "run_doctor"
           else "Doctor mode completed: " ++ Number_toString (Z.of_nat working) ++
                " working upgrades applied, " ++ Number_toString (Z.of_nat broken) ++
                " breaking upgrades identified.") ++
          nl ++ nl ++ JSON_stringify h (JObj outcomes)))].
Proof.
  intros Hp Hfound Hworld Hor Htimer working broken.
  pose proof (length_filter_negb NpmCheckUpdatesHandler.strict_true (map snd outcomes))
    as Hsum. rewrite length_map in Hsum. fold working in Hsum.
  split; [unfold broken; lia|].
  assert (In ("run_doctor", Zod.RunDoctorSchema, "NpmCheckUpdatesHandler.runDoctor")
             update_tools) as Hin by (simpl; tauto).
  destruct (validated_packagePath h _ _ _ args parsed Hin Hp) as [Hnd Hpp].
  pose proof (resolvePackagePath_found h _ Hpp Hfound) as Hres.
  destruct (resultPromise_update_tools h args) as (_ & _ & _ & _ & _ & P6).
  assert (exists tr,
             exec world 0 (NpmCheckUpdatesHandler.runDoctor h parsed) =
             mkRun tr 1
               (Some (Ok {| NpmCheckUpdatesHandler.data := JObj outcomes;
                            NpmCheckUpdatesHandler.message :=
                              if Nat.eqb (List.length outcomes) 0
                              then nothing_message "run_doctor"
                              else "Doctor mode completed: " ++
                                   Number_toString (Z.of_nat working) ++
                                   " working upgrades applied, " ++
                                   Number_toString (Z.of_nat broken) ++
                                   " breaking upgrades identified." |}))) as [tr Hrun].
  { unfold NpmCheckUpdatesHandler.runDoctor, NpmCheckUpdatesHandler.runNcu.
    run_update_handler Hres Hworld. fold (or_empty r). rewrite Hor.
    unfold NpmCheckUpdatesHandler.count_keys, Object_keys, Object_values.
    cbn [NpmCheckUpdatesHandler.typeof_object Object_entries Result_bind lift
         exec Prog_bind nullish negb andb trace awaits outcome].
    rewrite length_map.
    destruct (Nat.eqb (List.length outcomes) 0) eqn:E0.
    - apply Nat.eqb_eq in E0. rewrite E0.
      apply length_zero_iff_nil in E0. rewrite E0.
      cbn [Z.of_nat Z.eqb exec trace awaits outcome]. eexists. reflexivity.
    - apply Nat.eqb_neq in E0.
      replace ((Z.of_nat (List.length outcomes) =? 0)%Z) with false
        by (symmetry; apply Z.eqb_neq; lia).
      cbn [exec trace awaits outcome].
      replace (List.length (filter (fun o => negb (NpmCheckUpdatesHandler.strict_true o))
                              (map snd outcomes))) with broken
        by (unfold broken; lia).
      fold working. eexists. reflexivity. }
  apply (exec_bind_return world _ (ncu_text h)) in Hrun.
  assert (exec world 0 (resultPromise h "run_doctor" args) = _) as Hall
    by (rewrite P6; unfold parse_args; rewrite Hp; exact Hrun).
  rewrite (callTool_of_run h world timer_after _ args _ _ _ Hall Htimer).
  unfold ncu_text. cbn [NpmCheckUpdatesHandler.message NpmCheckUpdatesHandler.data
                        after_race settlement_of].
  reflexivity.
Qed.

(** [run_doctor_tallies] on a result with one working and two breaking
    upgrades. *)
Lemma run_doctor_tallies_witness :
  (1 + 2 = 3)%nat /\
  surfaced (callTool Sample.host
              (Sample.world JNull EmptyString
                 (JObj [("zod", JBool true); ("cheerio", JBool false);
                        ("fs-extra", JStr "tests failed")]))
              5 "run_doctor" (JObj [])) =
  [Ok (text_result
         ("Doctor mode completed: 1 working upgrades applied, " ++
          "2 breaking upgrades identified." ++ nl ++ nl ++ "{}"))].
Proof.
  apply (run_doctor_tallies Sample.host
           (Sample.world JNull EmptyString
              (JObj [("zod", JBool true); ("cheerio", JBool false);
                     ("fs-extra", JStr "tests failed")]))
           5 (JObj []) []
           (JObj [("zod", JBool true); ("cheerio", JBool false);
                  ("fs-extra", JStr "tests failed")])
           [("zod", JBool true); ("cheerio", JBool false);
            ("fs-extra", JStr "tests failed")]).
  - reflexivity.
  - reflexivity.
  - intros options. reflexivity.
  - reflexivity.
  - lia.
Defined.

(* ===================================================================== *)
(** * Answers of the registry tools *)
(* ===================================================================== *)

Lemma firstn_min_length {A} (n : nat) (l : list A) :
  firstn (Nat.min (List.length l) n) l = firstn n l.
Proof.
  destruct (Nat.le_ge_cases n (List.length l)) as [H|H].
  - rewrite Nat.min_r by exact H. reflexivity.
  - rewrite Nat.min_l by exact H. rewrite !firstn_all2 by lia. reflexivity.
Qed.

(** X15. [get_package_versions], called with valid arguments, when the gate
    opens and the registry answers [ok] with a document whose [versions]
    is an object: the answer is [formatVersions] of the keys of that
    object in reverse order, so the versions listed are the last 15 keys
    of the document, the last one first. *)
Theorem get_package_versions_lists_newest_first
    h (world : Oracle) timer_after args parsed (response : Response)
    (document versions : Props) :
  Zod.safeParse h Zod.GetPackageVersionsSchema args = Some parsed ->
  world 0%nat acquire = Some tt ->
  (forall url options timeoutMs,
      world 1%nat (fetch url options timeoutMs) = Some (Ok response)) ->
  ok response = true ->
  (forall url, world 2%nat (response_json url) = Some (Ok (JObj document))) ->
  field "versions" document = JObj versions ->
  (3 <= timer_after)%nat ->
  exists packageName,
    field "packageName" parsed = JStr packageName /\
    surfaced (callTool h world timer_after "get_package_versions" args) =
      [Ok (text_result
             (NpmSearcher.formatVersions packageName (rev (map fst versions))))] /\
    slice 0 15 (rev (map fst versions)) = rev (lastn 15 (map fst versions)).
Proof.
  intros Hp Hacq Hfetch Hok Hjson Hversions Htimer.
  destruct (parsed_string h Zod.GetPackageVersionsSchema args parsed "packageName")
    as [pn Hpn]; [simpl; solve_NoDup|left; simpl; tauto|exact Hp|].
  exists pn. split; [exact Hpn|]. split.
  - destruct (resultPromise_registry_tools h args) as (_ & _ & R3 & _).
    assert (exec world 0 (NpmSearcher.getPackageVersions parsed) =
            mkRun [Entered "NpmSearcher.getPackageVersions"; Called acquire;
                   Called (fetch (NpmSearcher.REGISTRY_URL ++ "/" ++ pn)
                             [("headers", NpmSearcher.HEADERS)] 15000);
                   Called (response_json (NpmSearcher.REGISTRY_URL ++ "/" ++ pn))]
                  3 (Some (Ok (rev (map fst versions))))) as Hrun.
    { unfold NpmSearcher.getPackageVersions. rewrite Hpn.
      run_handler. rewrite Hacq. run_handler. rewrite Hfetch. run_handler.
      unfold NpmSearcher.check_ok. rewrite Hok. cbn [negb]. run_handler.
      rewrite Hjson. run_handler.
      unfold NpmSearcher.getPackageVersions_shape. cbn [get Result_bind].
      rewrite Hversions. reflexivity. }
    assert (exec world 0 (resultPromise h "get_package_versions" args) =
            mkRun [Entered "NpmSearcher.getPackageVersions"; Called acquire;
                   Called (fetch (NpmSearcher.REGISTRY_URL ++ "/" ++ pn)
                             [("headers", NpmSearcher.HEADERS)] 15000);
                   Called (response_json (NpmSearcher.REGISTRY_URL ++ "/" ++ pn))]
                  3 (Some (Ok (text_result
                                 (NpmSearcher.formatVersions pn (rev (map fst versions)))))))
      as Hall.
    { rewrite R3. unfold parse_args. rewrite Hp. cbn [Prog_bind].
      rewrite exec_bind, Hrun. cbn [outcome trace awaits].
      rewrite Hpn. cbn [ToString lift Prog_bind exec trace awaits outcome].
      rewrite app_nil_r. reflexivity. }
    rewrite (callTool_of_run h world timer_after _ args _ _ _ Hall Htimer). reflexivity.
  - change 15%Z with (Z.of_nat 15). rewrite slice_0, firstn_min_length, firstn_rev.
    reflexivity.
Qed.

(** [get_package_versions_lists_newest_first] on the sample document of
    twelve versions. *)
Lemma get_package_versions_lists_newest_first_witness :
  exists packageName,
    field "packageName" [("packageName", JStr "left-pad")] = JStr packageName /\
    surfaced (callTool Sample.host (Sample.world (JObj Sample.document) EmptyString JNull) 9
                "get_package_versions" (JObj [("packageName", JStr "left-pad")])) =
      [Ok (text_result
             (NpmSearcher.formatVersions packageName
                (rev (map fst Sample.document_versions))))] /\
    slice 0 15 (rev (map fst Sample.document_versions)) =
    rev (lastn 15 (map fst Sample.document_versions)).
Proof.
  apply (get_package_versions_lists_newest_first Sample.host
           (Sample.world (JObj Sample.document) EmptyString JNull) 9
           (JObj [("packageName", JStr "left-pad")]) [("packageName", JStr "left-pad")]
           {| ok := true; status := 200 |} Sample.document Sample.document_versions).
  - reflexivity.
  - reflexivity.
  - intros url options timeoutMs. reflexivity.
  - reflexivity.
  - intros url. reflexivity.
  - reflexivity.
  - lia.
Defined.

(** X16. [search_npm], called with valid arguments, when the gate opens and
    the registry answers [ok] with a body whose [objects] is the empty
    array: the answer is [No packages found.], whatever [total] the body
    reports. *)
Theorem empty_search_finds_no_packages
    h (world : Oracle) timer_after args parsed (response : Response) (body : Props) :
  Zod.safeParse h Zod.SearchNpmSchema args = Some parsed ->
  world 0%nat acquire = Some tt ->
  (forall url options timeoutMs,
      world 1%nat (fetch url options timeoutMs) = Some (Ok response)) ->
  ok response = true ->
  (forall url, world 2%nat (response_json url) = Some (Ok (JObj body))) ->
  field "objects" body = JArr [] ->
  (3 <= timer_after)%nat ->
  surfaced (callTool h world timer_after "search_npm" args) =
  [Ok (text_result "No packages found.")].
Proof.
  intros Hp Hacq Hfetch Hok Hjson Hobjects Htimer.
  destruct (parsed_string h Zod.SearchNpmSchema args parsed "query") as [q Hq];
    [simpl; solve_NoDup|left; simpl; tauto|exact Hp|].
  destruct (parsed_maxResults h args parsed Hp) as (size & Hsize & _).
  destruct (resultPromise_registry_tools h args) as (R1 & _).
  assert (exists tr,
             exec world 0 (NpmSearcher.searchPackages h parsed) =
             mkRun tr 3
               (Some (Ok {| NpmSearcher.packages := [];
                            NpmSearcher.totalResults := field "total" body |})))
    as [tr Hrun].
  { unfold NpmSearcher.searchPackages. rewrite Hq, Hsize.
    run_handler. rewrite Hacq. run_handler. rewrite Hfetch. run_handler.
    unfold NpmSearcher.check_ok. rewrite Hok. cbn [negb]. run_handler.
      rewrite Hjson. run_handler.
    unfold NpmSearcher.searchPackages_shape. cbn [get Result_bind].
    rewrite Hobjects. cbn [NpmSearcher.Array_of mapR Result_bind lift exec].
    eexists. reflexivity. }
  assert (exec world 0 (resultPromise h "search_npm" args) =
          mkRun tr 3 (Some (Ok (text_result "No packages found.")))) as Hall.
  { rewrite R1. unfold parse_args. rewrite Hp. cbn [Prog_bind].
    rewrite exec_bind, Hrun. cbn [outcome trace awaits].
    unfold NpmSearcher.formatSearchResults.
    cbn [NpmSearcher.packages List.length Nat.eqb lift Prog_bind exec trace awaits outcome].
    rewrite app_nil_r. reflexivity. }
  rewrite (callTool_of_run h world timer_after _ args _ _ _ Hall Htimer). reflexivity.
Qed.

(** [empty_search_finds_no_packages] on a body that reports 7 matches and
    returns none of them. *)
Lemma empty_search_finds_no_packages_witness :
  surfaced (callTool Sample.host
              (Sample.world (JObj [("objects", JArr []); ("total", JNum 7)])
                 EmptyString JNull) 9
              "search_npm" (JObj [("query", JStr "pad"); ("maxResults", JNum 0)])) =
  [Ok (text_result "No packages found.")].
Proof.
  apply (empty_search_finds_no_packages Sample.host
           (Sample.world (JObj [("objects", JArr []); ("total", JNum 7)]) EmptyString JNull)
           9 (JObj [("query", JStr "pad"); ("maxResults", JNum 0)])
           [("query", JStr "pad"); ("maxResults", JNum 0)]
           {| ok := true; status := 200 |} [("objects", JArr []); ("total", JNum 7)]).
  - reflexivity.
  - reflexivity.
  - intros url options timeoutMs. reflexivity.
  - reflexivity.
  - intros url. reflexivity.
  - reflexivity.
  - lia.
Defined.

Ltac reach_body Hacq Hfetch Hok :=
  run_handler; rewrite Hacq; run_handler; rewrite Hfetch; run_handler;
  unfold NpmSearcher.check_ok; rewrite Hok; cbn [negb]; run_handler.

(** X17. For [search_npm], [get_package_versions] and [get_package_details],
    called with valid arguments, when the gate opens and the registry
    answers [ok]: a body that cannot be read as JSON, or one the shaping
    code throws on (no [objects], no [versions], ...), is answered with
    the [isError] envelope whose text is the tool's prefix followed by the
    message of the error. *)
Theorem malformed_body_is_reported
    h (world : Oracle) timer_after name schema prefix args parsed
    (response : Response) (body : Result JsValue) e :
  In (name, schema, prefix) json_tools ->
  Zod.safeParse h schema args = Some parsed ->
  world 0%nat acquire = Some tt ->
  (forall url options timeoutMs,
      world 1%nat (fetch url options timeoutMs) = Some (Ok response)) ->
  ok response = true ->
  (forall url, world 2%nat (response_json url) = Some body) ->
  (letR data := body in shaped h name data) = Throw e ->
  (3 <= timer_after)%nat ->
  surfaced (callTool h world timer_after name args) =
  [Ok (error_envelope (prefix ++ error_message e))].
Proof.
  intros Hin Hp Hacq Hfetch Hok Hjson Hbad Htimer.
  destruct (resultPromise_registry_tools h args) as (R1 & _ & R3 & R4).
  simpl in Hin. destruct Hin as [Hin|[Hin|[Hin|[]]]]; injection Hin as <- <- <-.
  - destruct (parsed_string h Zod.SearchNpmSchema args parsed "query") as [q Hq];
      [simpl; solve_NoDup|left; simpl; tauto|exact Hp|].
    destruct (parsed_maxResults h args parsed Hp) as (size & Hsize & _).
    assert (exists tr,
               exec world 0 (NpmSearcher.searchPackages h parsed) =
               mkRun tr 3 (Some (Throw (Error ("Error searching npm packages: " ++
                                                error_message e))))) as [tr Hrun].
    { unfold NpmSearcher.searchPackages. rewrite Hq, Hsize.
      reach_body Hacq Hfetch Hok. rewrite Hjson.
      destruct body as [data|e']; cbn [Result_bind] in Hbad; run_handler.
      - unfold shaped in Hbad. cbn [String.eqb Ascii.eqb Bool.eqb] in Hbad.
        destruct (NpmSearcher.searchPackages_shape h data); [discriminate Hbad|].
        injection Hbad as ->. run_handler. eexists. reflexivity.
      - injection Hbad as ->. eexists. reflexivity. }
    apply (exec_bind_throw world _
             (fun results =>
                letP t := lift (NpmSearcher.formatSearchResults results) in
                Return (text_result t))) in Hrun.
    assert (exec world 0 (resultPromise h "search_npm" args) = _) as Hall
      by (rewrite R1; unfold parse_args; rewrite Hp; exact Hrun).
    rewrite (callTool_of_run h world timer_after _ args _ _ _ Hall Htimer). reflexivity.
  - destruct (parsed_string h Zod.GetPackageVersionsSchema args parsed "packageName")
      as [pn Hpn]; [simpl; solve_NoDup|left; simpl; tauto|exact Hp|].
    assert (exists tr,
               exec world 0 (NpmSearcher.getPackageVersions parsed) =
               mkRun tr 3 (Some (Throw (Error ("Error fetching package versions: " ++
                                                error_message e))))) as [tr Hrun].
    { unfold NpmSearcher.getPackageVersions. rewrite Hpn.
      reach_body Hacq Hfetch Hok. rewrite Hjson.
      destruct body as [data|e']; cbn [Result_bind] in Hbad; run_handler.
      - unfold shaped in Hbad. cbn [String.eqb Ascii.eqb Bool.eqb] in Hbad.
        destruct (NpmSearcher.getPackageVersions_shape data); [discriminate Hbad|].
        injection Hbad as ->. run_handler. eexists. reflexivity.
      - injection Hbad as ->. eexists. reflexivity. }
    apply (exec_bind_throw world _
             (fun versions =>
                letP pn := lift (ToString (field "packageName" parsed)) in
                Return (text_result (NpmSearcher.formatVersions pn versions)))) in Hrun.
    assert (exec world 0 (resultPromise h "get_package_versions" args) = _) as Hall
      by (rewrite R3; unfold parse_args; rewrite Hp; exact Hrun).
    rewrite (callTool_of_run h world timer_after _ args _ _ _ Hall Htimer). reflexivity.
  - destruct (parsed_string h Zod.GetPackageDetailsSchema args parsed "packageName")
      as [pn Hpn]; [simpl; solve_NoDup|left; simpl; tauto|exact Hp|].
    assert (exists tr,
               exec world 0 (NpmSearcher.getPackageDetails parsed) =
               mkRun tr 3 (Some (Throw (Error ("Error fetching package details: " ++
                                                error_message e))))) as [tr Hrun].
    { unfold NpmSearcher.getPackageDetails. rewrite Hpn.
      reach_body Hacq Hfetch Hok. rewrite Hjson.
      destruct body as [data|e']; cbn [Result_bind] in Hbad; run_handler.
      - unfold shaped in Hbad. cbn [String.eqb Ascii.eqb Bool.eqb] in Hbad.
        destruct (NpmSearcher.getPackageDetails_shape data); [discriminate Hbad|].
        injection Hbad as ->. run_handler. eexists. reflexivity.
      - injection Hbad as ->. eexists. reflexivity. }
    apply (exec_bind_throw world _
             (fun details => Return (text_result (JSON_stringify h details)))) in Hrun.
    assert (exec world 0 (resultPromise h "get_package_details" args) = _) as Hall
      by (rewrite R4; unfold parse_args; rewrite Hp; exact Hrun).
    rewrite (callTool_of_run h world timer_after _ args _ _ _ Hall Htimer). reflexivity.
Qed.

(** [malformed_body_is_reported] on [get_package_versions] when the body
    has no [versions]. *)
Lemma malformed_body_is_reported_witness :
  surfaced (callTool Sample.host
              (Sample.world (JObj [("error", JStr "not_found")]) EmptyString JNull) 9
              "get_package_versions" (JObj [("packageName", JStr "left-pad")])) =
  [Ok (error_envelope
         ("Error fetching package versions: " ++
          "Cannot convert undefined or null to object"))].
Proof.
  apply (malformed_body_is_reported Sample.host
           (Sample.world (JObj [("error", JStr "not_found")]) EmptyString JNull) 9
           "get_package_versions" Zod.GetPackageVersionsSchema
           "Error fetching package versions: "
           (JObj [("packageName", JStr "left-pad")]) [("packageName", JStr "left-pad")]
           {| ok := true; status := 200 |} (Ok (JObj [("error", JStr "not_found")]))
           (TypeError "Cannot convert undefined or null to object")).
  - simpl. tauto.
  - reflexivity.
  - reflexivity.
  - intros url options timeoutMs. reflexivity.
  - reflexivity.
  - intros url. reflexivity.
  - reflexivity.
  - lia.
Defined.

(* ===================================================================== *)
(** * The race with the timer *)
(* ===================================================================== *)

(** X18. An invocation whose handler settles, with as many awaits completed as
    the timer of [toolTimeout] leaves time for: the caller gets what the
    handler settled with (its result; for a plain error the [isError]
    envelope of its message; an [McpError] thrown on), exactly once.  The
    timer, which nothing clears, rejects later and changes nothing. *)
Theorem in_time_settlement_is_surfaced h world timer_after name args o :
  outcome (exec world 0 (resultPromise h name args)) = Some o ->
  (awaits (exec world 0 (resultPromise h name args)) <= timer_after)%nat ->
  surfaced (callTool h world timer_after name args) =
    [match o with
     | Ok result => Ok result
     | Throw e =>
         if instanceof_McpError e then Throw e else Ok (error_envelope (error_message e))
     end] /\
  settlements timer_after (exec world 0 (resultPromise h name args)) =
    [settlement_of o; Rejected timeout_error].
Proof.
  intros Ho Hm.
  destruct (exec world 0 (resultPromise h name args)) as [tr m out] eqn:Hexec.
  cbn [outcome awaits] in Ho, Hm. subst out. split.
  - rewrite (callTool_of_run h world timer_after name args tr m o Hexec Hm).
    destruct o as [result|e]; reflexivity.
  - unfold settlements. cbn [outcome awaits].
    replace (Nat.ltb timer_after m) with false by (symmetry; apply Nat.ltb_ge; exact Hm).
    reflexivity.
Qed.

(** [in_time_settlement_is_surfaced] on the sample search, whose three
    awaits complete before the timer. *)
Lemma in_time_settlement_is_surfaced_witness :
  surfaced (callTool Sample.host
              (Sample.world (JObj [("objects", JArr []); ("total", JNum 0)])
                 EmptyString JNull) 3
              "search_npm" (JObj [("query", JStr "pad")])) =
    [Ok (text_result "No packages found.")] /\
  settlements 3
    (exec (Sample.world (JObj [("objects", JArr []); ("total", JNum 0)]) EmptyString JNull) 0
       (resultPromise Sample.host "search_npm" (JObj [("query", JStr "pad")]))) =
    [Fulfilled (text_result "No packages found."); Rejected timeout_error].
Proof.
  apply (in_time_settlement_is_surfaced Sample.host
           (Sample.world (JObj [("objects", JArr []); ("total", JNum 0)]) EmptyString JNull)
           3 "search_npm" (JObj [("query", JStr "pad")])
           (Ok (text_result "No packages found."))).
  - reflexivity.
  - vm_compute. lia.
Defined.

(* ===================================================================== *)
(** * The listed tools and the validation *)
(* ===================================================================== *)

Lemma parse_shape_required h shape input k t :
  In (k, t) shape ->
  Zod.parse h t JUndefined = None ->
  field k input = JUndefined ->
  Zod.parse_shape h shape input = None.
Proof.
  intros Hin Hnone Hk. induction shape as [|[k0 t0] tl IH]; [contradiction|].
  simpl. destruct Hin as [Heq|Hin].
  - injection Heq as -> ->. rewrite Hk, Hnone. reflexivity.
  - rewrite (IH Hin).
    destruct (Zod.parse h t0 (field k0 input)) as [[]|]; reflexivity.
Qed.

(** X19. Every tool the [ListToolsRequestSchema] handler lists is dispatched
    under its name; the properties it advertises are the keys its schema
    reads; the properties it advertises as [required] are exactly the keys
    whose type does not accept [undefined]; and an invocation whose
    arguments lack one of them is rejected with
    [McpError(ErrorCode.InvalidParams)] before anything else happens. *)
Theorem listed_tools_match_the_validation
    (h : Host) (world : Oracle) (timer_after : nat) (tool : Tool) :
  In tool ListTools ->
  exists schema,
    In (tool_name tool, schema) tool_schemas /\
    properties_of tool = map fst schema /\
    (forall k, In k (required_of tool) <->
               exists t, In (k, t) schema /\ Zod.parse h t JUndefined = None) /\
    (forall input k,
        In k (required_of tool) ->
        field k input = JUndefined ->
        callTool h world timer_after (tool_name tool) (JObj input) =
        {| surfaced := [Throw (McpError InvalidParams "Invalid arguments: [object Object]")];
           observed := [] |}).
Proof.
  intros Hin.
  assert (exists schema,
             In (tool_name tool, schema) tool_schemas /\
             properties_of tool = map fst schema /\
             (forall k, In k (required_of tool) <->
                        exists t, In (k, t) schema /\ Zod.parse h t JUndefined = None))
    as (schema & Hschema & Hprops & Hrequired).
  { simpl in Hin.
    repeat (destruct Hin as [<-|Hin];
            [eexists; (split; [simpl; eauto 12|]); (split; [reflexivity|]);
             intros k; split;
             [intros Hk; simpl in Hk; repeat (destruct Hk as [<-|Hk]); try contradiction;
              eexists; (split; [simpl; eauto 8|reflexivity])
             |intros (t & Hkt & Hnone); simpl in Hkt;
              repeat (destruct Hkt as [Hkt|Hkt];
                      [injection Hkt as <- <-; first [discriminate Hnone | simpl; tauto]|]);
              contradiction]|]).
    contradiction. }
  exists schema. split; [exact Hschema|]. split; [exact Hprops|].
  split; [exact Hrequired|].
  intros input k Hk Habsent.
  apply Hrequired in Hk as (t & Hkt & Hnone).
  destruct (resultPromise_parsed h (tool_name tool) schema (JObj input) Hschema)
    as [body Hbody].
  rewrite (callTool_throws_at_once h world timer_after (tool_name tool) (JObj input) []
             (McpError InvalidParams "Invalid arguments: [object Object]")).
  - reflexivity.
  - rewrite Hbody. unfold parse_args, Zod.safeParse.
    rewrite (parse_shape_required h schema input k t Hkt Hnone Habsent). reflexivity.
Qed.

(** [listed_tools_match_the_validation] on [filter_updates]. *)
Lemma listed_tools_match_the_validation_witness :
  exists schema,
    In ("filter_updates", schema) tool_schemas /\
    ["packagePath"; "filter"; "upgrade"; "minimal"; "packageManager"] = map fst schema /\
    (forall k, In k ["filter"] <->
               exists t, In (k, t) schema /\ Zod.parse Sample.host t JUndefined = None) /\
    (forall input k,
        In k ["filter"] ->
        field k input = JUndefined ->
        callTool Sample.host Sample.world_ncu_hangs 0 "filter_updates" (JObj input) =
        {| surfaced := [Throw (McpError InvalidParams "Invalid arguments: [object Object]")];
           observed := [] |}).
Proof.
  apply (listed_tools_match_the_validation Sample.host Sample.world_ncu_hangs 0
           (nth 6 ListTools (mkTool EmptyString EmptyString JNull))).
  simpl. tauto.
Defined.

(* ===================================================================== *)
(** * Package documents with a short history *)
(* ===================================================================== *)

Lemma lastn_all {A} (n : nat) (l : list A) : (List.length l <= n)%nat -> lastn n l = l.
Proof.
  intros Hlen. unfold lastn. replace (List.length l - n)%nat with 0%nat by lia. reflexivity.
Qed.

(** X20. For a package document whose [versions] object has at most 10 entries
    (objects, or at least not null): the shaped result has the nine
    properties [name], [description], [dist-tags], [maintainers],
    [homepage], [repository], [license], [versions] and [time], in that
    order; every version of the document is kept, in the same order,
    reduced to its seven fields; and when the document has no [time], the
    result's [time] is [undefined]. *)
Theorem getPackageDetails_keeps_a_short_history (document versions : Props) :
  field "versions" document = JObj versions ->
  NoDup (map fst versions) ->
  Forall (fun entry => nullish (snd entry) = false) versions ->
  (List.length versions <= 10)%nat ->
  exists processedData,
    NpmSearcher.getPackageDetails_shape (JObj document) = Ok (JObj processedData) /\
    map fst processedData =
      ["name"; "description"; "dist-tags"; "maintainers"; "homepage"; "repository";
       "license"; "versions"; "time"] /\
    field "versions" processedData = JObj (map reduced versions) /\
    (truthy (field "time" document) = false -> field "time" processedData = JUndefined).
Proof.
  intros Hv Hnd Hwf Hlen.
  destruct (getPackageDetails_time_total (field "time" document)) as [time' Htime].
  exists [("name", field "name" document);
          ("description", field "description" document);
          ("dist-tags", field "dist-tags" document);
          ("maintainers", field "maintainers" document);
          ("homepage", field "homepage" document);
          ("repository", field "repository" document);
          ("license", field "license" document);
          ("versions", JObj (map reduced versions));
          ("time", time')].
  split; [|split; [reflexivity|split; [reflexivity|]]].
  - unfold NpmSearcher.getPackageDetails_shape.
    cbn [get Result_bind]. rewrite Hv. cbn [Object_entries Result_bind].
    change (-10)%Z with (- Z.of_nat 10)%Z. rewrite slice_from_end.
    fold (lastn 10 versions). rewrite (lastn_all 10 versions Hlen).
    rewrite (mapR_all_Ok _ reduced).
    + cbn [Result_bind]. rewrite Htime. cbn [Result_bind].
      rewrite Object_fromEntries_NoDup; [reflexivity|].
      rewrite keys_reduced. exact Hnd.
    + eapply Forall_impl; [|exact Hwf].
      intros entry Hn. apply getPackageDetails_map_reduced, Hn.
  - intros Hfalsy. simpl.
    unfold NpmSearcher.getPackageDetails_time in Htime. rewrite Hfalsy in Htime.
    injection Htime as <-. reflexivity.
Qed.

(** [getPackageDetails_keeps_a_short_history] on a document with the
    first three versions of the sample and no [time]. *)
Lemma getPackageDetails_keeps_a_short_history_witness :
  exists processedData,
    NpmSearcher.getPackageDetails_shape
      (JObj [("name", JStr "left-pad");
             ("versions", JObj (firstn 3 Sample.document_versions))]) =
      Ok (JObj processedData) /\
    map fst processedData =
      ["name"; "description"; "dist-tags"; "maintainers"; "homepage"; "repository";
       "license"; "versions"; "time"] /\
    field "versions" processedData =
      JObj (map reduced (firstn 3 Sample.document_versions)) /\
    (truthy (field "time" [("name", JStr "left-pad");
                           ("versions", JObj (firstn 3 Sample.document_versions))])
     = false ->
     field "time" processedData = JUndefined).
Proof.
  apply (getPackageDetails_keeps_a_short_history
           [("name", JStr "left-pad");
            ("versions", JObj (firstn 3 Sample.document_versions))]
           (firstn 3 Sample.document_versions)).
  - reflexivity.
  - simpl. solve_NoDup.
  - simpl. repeat constructor.
  - simpl. lia.
Defined.

(** X21. [fetch_package_content], called with valid arguments, when the gate
    opens and the server answers [ok]: the page is asked for at the very
    URL of the arguments (which passed the URL test of the schema), with
    redirects followed and a deadline of 20 s; the answer is the text
    extracted from the page, or, when the body cannot be read, the
    [isError] envelope [Error fetching package content: <message>]. *)
Theorem fetch_package_content_answers_with_the_page_text
    h (world : Oracle) timer_after args parsed (response : Response)
    (body : Result string) :
  Zod.safeParse h Zod.FetchPackageContentSchema args = Some parsed ->
  world 0%nat acquire = Some tt ->
  (forall url options timeoutMs,
      world 1%nat (fetch url options timeoutMs) = Some (Ok response)) ->
  ok response = true ->
  (forall url, world 2%nat (response_text url) = Some body) ->
  (3 <= timer_after)%nat ->
  exists u,
    field "url" parsed = JStr u /\
    is_url h u = true /\
    callTool h world timer_after "fetch_package_content" args =
    {| surfaced :=
         [Ok (match body with
              | Ok page => text_result (NpmSearcher.fetchPackageContent_shape h page)
              | Throw e =>
                  error_envelope ("Error fetching package content: " ++ error_message e)
              end)];
       observed :=
         [Entered "NpmSearcher.fetchPackageContent";
          Called acquire;
          Called (fetch u [("headers", NpmSearcher.HEADERS); ("redirect", JStr "follow")]
                    20000);
          Called (response_text u)] |}.
Proof.
  intros Hp Hacq Hfetch Hok Htext Htimer.
  destruct (safeParse_lookup h Zod.FetchPackageContentSchema args parsed "url"
              Zod.z_string_url) as (input & _ & Hv);
    [simpl; solve_NoDup|simpl; tauto|exact Hp|].
  simpl in Hv. destruct (field "url" input) as [| | | | |u| | |]; try discriminate Hv.
  destruct (is_url h u) eqn:Hurl; [|discriminate Hv].
  injection Hv as Hu. symmetry in Hu.
  exists u. split; [exact Hu|]. split; [exact Hurl|].
  destruct (resultPromise_registry_tools h args) as (_ & R2 & _).
  assert (exec world 0 (resultPromise h "fetch_package_content" args) =
          mkRun [Entered "NpmSearcher.fetchPackageContent"; Called acquire;
                 Called (fetch u [("headers", NpmSearcher.HEADERS);
                                  ("redirect", JStr "follow")] 20000);
                 Called (response_text u)]
                3
                (Some (match body with
                       | Ok page =>
                           Ok (text_result (NpmSearcher.fetchPackageContent_shape h page))
                       | Throw e =>
                           Throw (Error ("Error fetching package content: " ++
                                         error_message e))
                       end))) as Hall.
  { rewrite R2. unfold parse_args. rewrite Hp. cbn [Prog_bind].
    unfold NpmSearcher.fetchPackageContent. rewrite Hu.
    reach_body Hacq Hfetch Hok. rewrite Htext.
    destruct body as [page|e]; run_handler; reflexivity. }
  rewrite (callTool_of_run h world timer_after _ args _ _ _ Hall Htimer).
  destruct body as [page|e]; reflexivity.
Qed.

(** [fetch_package_content_answers_with_the_page_text] on a page whose
    README reads [left-pad]. *)
Lemma fetch_package_content_answers_with_the_page_text_witness :
  exists u,
    field "url" [("url", JStr "https://www.npmjs.com/package/left-pad")] = JStr u /\
    is_url Sample.host u = true /\
    callTool Sample.host (Sample.world JNull "left-pad" JNull) 9 "fetch_package_content"
      (JObj [("url", JStr "https://www.npmjs.com/package/left-pad")]) =
    {| surfaced :=
         [Ok (text_result (NpmSearcher.fetchPackageContent_shape Sample.host "left-pad"))];
       observed :=
         [Entered "NpmSearcher.fetchPackageContent";
          Called acquire;
          Called (fetch u [("headers", NpmSearcher.HEADERS); ("redirect", JStr "follow")]
                    20000);
          Called (response_text u)] |}.
Proof.
  apply (fetch_package_content_answers_with_the_page_text Sample.host
           (Sample.world JNull "left-pad" JNull) 9
           (JObj [("url", JStr "https://www.npmjs.com/package/left-pad")])
           [("url", JStr "https://www.npmjs.com/package/left-pad")]
           {| ok := true; status := 200 |} (Ok "left-pad")).
  - reflexivity.
  - reflexivity.
  - intros url options timeoutMs. reflexivity.
  - reflexivity.
  - intros url. reflexivity.
  - lia.
Defined.

(** X22. [get_package_details], called with valid arguments, when the gate
    opens and the registry answers [ok] with a document the shaping code
    gets through: the document is asked for at the registry URL followed by
    the package name as given, under a deadline of 20 s, and the answer is
    the JSON of the shaped document, not of the document itself. *)
Theorem get_package_details_answers_with_the_shaped_document
    h (world : Oracle) timer_after args parsed (response : Response)
    (document processedData : JsValue) :
  Zod.safeParse h Zod.GetPackageDetailsSchema args = Some parsed ->
  world 0%nat acquire = Some tt ->
  (forall url options timeoutMs,
      world 1%nat (fetch url options timeoutMs) = Some (Ok response)) ->
  ok response = true ->
  (forall url, world 2%nat (response_json url) = Some (Ok document)) ->
  NpmSearcher.getPackageDetails_shape document = Ok processedData ->
  (3 <= timer_after)%nat ->
  exists packageName,
    field "packageName" parsed = JStr packageName /\
    callTool h world timer_after "get_package_details" args =
    {| surfaced := [Ok (text_result (JSON_stringify h processedData))];
       observed :=
         [Entered "NpmSearcher.getPackageDetails";
          Called acquire;
          Called (fetch (NpmSearcher.REGISTRY_URL ++ "/" ++ packageName)
                    [("headers", NpmSearcher.HEADERS)] 20000);
          Called (response_json (NpmSearcher.REGISTRY_URL ++ "/" ++ packageName))] |}.
Proof.
  intros Hp Hacq Hfetch Hok Hjson Hshape Htimer.
  destruct (parsed_string h Zod.GetPackageDetailsSchema args parsed "packageName")
    as [pn Hpn]; [simpl; solve_NoDup|left; simpl; tauto|exact Hp|].
  exists pn. split; [exact Hpn|].
  destruct (resultPromise_registry_tools h args) as (_ & _ & _ & R4).
  assert (exec world 0 (resultPromise h "get_package_details" args) =
          mkRun [Entered "NpmSearcher.getPackageDetails"; Called acquire;
                 Called (fetch (NpmSearcher.REGISTRY_URL ++ "/" ++ pn)
                           [("headers", NpmSearcher.HEADERS)] 20000);
                 Called (response_json (NpmSearcher.REGISTRY_URL ++ "/" ++ pn))]
                3 (Some (Ok (text_result (JSON_stringify h processedData))))) as Hall.
  { rewrite R4. unfold parse_args. rewrite Hp. cbn [Prog_bind].
    unfold NpmSearcher.getPackageDetails. rewrite Hpn.
    reach_body Hacq Hfetch Hok. rewrite Hjson. run_handler. rewrite Hshape.
    run_handler. reflexivity. }
  rewrite (callTool_of_run h world timer_after _ args _ _ _ Hall Htimer). reflexivity.
Qed.

(** [get_package_details_answers_with_the_shaped_document] on the sample
    document. *)
Lemma get_package_details_answers_with_the_shaped_document_witness :
  exists packageName,
    field "packageName" [("packageName", JStr "left-pad")] = JStr packageName /\
    callTool Sample.host (Sample.world (JObj Sample.document) EmptyString JNull) 9
      "get_package_details" (JObj [("packageName", JStr "left-pad")]) =
    {| surfaced := [Ok (text_result "{}")];
       observed :=
         [Entered "NpmSearcher.getPackageDetails";
          Called acquire;
          Called (fetch (NpmSearcher.REGISTRY_URL ++ "/" ++ packageName)
                    [("headers", NpmSearcher.HEADERS)] 20000);
          Called (response_json (NpmSearcher.REGISTRY_URL ++ "/" ++ packageName))] |}.
Proof.
  apply (get_package_details_answers_with_the_shaped_document Sample.host
           (Sample.world (JObj Sample.document) EmptyString JNull) 9
           (JObj [("packageName", JStr "left-pad")]) [("packageName", JStr "left-pad")]
           {| ok := true; status := 200 |} (JObj Sample.document)
           (match NpmSearcher.getPackageDetails_shape (JObj Sample.document) with
            | Ok processedData => processedData
            | Throw _ => JNull
            end)).
  - reflexivity.
  - reflexivity.
  - intros url options timeoutMs. reflexivity.
  - reflexivity.
  - intros url. reflexivity.
  - vm_compute. reflexivity.
  - lia.
Defined.

(* ===================================================================== *)
(** * The claims about the answers of the registry tools *)
(* ===================================================================== *)

Lemma capped_readme_body readme : NpmSearcher.readme_body readme = capped readme.
Proof.
  unfold capped. destruct (Nat.ltb 4000 (String.length readme)) eqn:E.
  - apply Nat.ltb_lt in E. apply readme_body_long. exact E.
  - apply Nat.ltb_ge in E. apply readme_body_short. exact E.
Qed.

(** C6. For [fetch_package_content], called with valid arguments, when
    the gate opens and the server answers [ok] with a page: the text the
    handler returns, which is the text of the answer, is the fallback
    sentence when name, version, description and README are all empty;
    otherwise it is the concatenation, in this order, of the labelled name,
    version and description that are not empty and of [README:] with the
    body.  The body is the README itself up to 4000 characters; beyond
    that it is the first 4000 characters followed by the truncation
    marker, so it never exceeds 4030 characters whatever the size of the
    page.  (Characters are the code units of the embedding's strings: text
    of code units below 256.) *)
Theorem fetchPackageContent_body_capped
    h (world : Oracle) timer_after args parsed (response : Response) (html : string) :
  Zod.safeParse h Zod.FetchPackageContentSchema args = Some parsed ->
  world 0%nat acquire = Some tt ->
  (forall url options timeoutMs,
      world 1%nat (fetch url options timeoutMs) = Some (Ok response)) ->
  ok response = true ->
  (forall url, world 2%nat (response_text url) = Some (Ok html)) ->
  (3 <= timer_after)%nat ->
  let text selector := trim (cheerio_text h html selector) in
  let packageName := text "#top h1" in
  let packageVersion := text ("[data-testid=" ++ dquote ++ "version-badge" ++ dquote ++ "]") in
  let description := text "#package-description" in
  let readme := text "#readme" in
  let body := capped readme in
  let part label value tail :=
    if String.eqb value EmptyString then EmptyString else label ++ value ++ tail in
  let content :=
    if String.eqb packageName EmptyString && String.eqb packageVersion EmptyString &&
       String.eqb description EmptyString && String.eqb readme EmptyString
    then "No extractable content found."
    else part "Package: " packageName nl ++
         part "Version: " packageVersion nl ++
         part "Description: " description (nl ++ nl) ++
         (if String.eqb readme EmptyString then EmptyString
          else "README:" ++ nl ++ body) in
  outcome (exec world 0 (NpmSearcher.fetchPackageContent h parsed)) = Some (Ok content) /\
  surfaced (callTool h world timer_after "fetch_package_content" args) =
    [Ok (text_result content)] /\
  (String.length body <= 4030)%nat /\
  ((4000 < String.length readme)%nat ->
   exists head,
     String.length head = 4000%nat /\ String.prefix head readme = true /\
     body = head ++ "..." ++ nl ++ "[README content truncated]") /\
  ((String.length readme <= 4000)%nat -> body = readme).
Proof.
  intros Hp Hacq Hfetch Hok Htext Htimer
         text packageName packageVersion description readme body part content.
  destruct (fetchPackageContent_shape_parts h html) as (Hshape & Hlen & Hlong & Hshort).
  cbv zeta in Hshape, Hlen, Hlong, Hshort.
  fold (text "#top h1") in Hshape. fold packageName in Hshape.
  fold (text ("[data-testid=" ++ dquote ++ "version-badge" ++ dquote ++ "]")) in Hshape.
  fold packageVersion in Hshape.
  fold (text "#package-description") in Hshape. fold description in Hshape.
  fold (text "#readme") in Hshape, Hlen, Hlong, Hshort.
  fold readme in Hshape, Hlen, Hlong, Hshort.
  rewrite (capped_readme_body readme) in Hshape, Hlen, Hlong, Hshort.
  fold body in Hshape, Hlen, Hlong, Hshort.
  assert (NpmSearcher.fetchPackageContent_shape h html = content) as Hcontent
    by exact Hshape.
  destruct (parsed_string h Zod.FetchPackageContentSchema args parsed "url") as [u Hu];
    [simpl; solve_NoDup|right; simpl; tauto|exact Hp|].
  assert (exists tr,
             exec world 0 (NpmSearcher.fetchPackageContent h parsed) =
             mkRun tr 3 (Some (Ok content))) as [tr Hrun].
  { unfold NpmSearcher.fetchPackageContent. rewrite Hu.
    reach_body Hacq Hfetch Hok. rewrite Htext. run_handler. rewrite Hcontent.
    eexists. reflexivity. }
  split; [rewrite Hrun; reflexivity|]. split.
  - destruct (resultPromise_registry_tools h args) as (_ & R2 & _).
    apply (exec_bind_return world _ text_result) in Hrun.
    assert (exec world 0 (resultPromise h "fetch_package_content" args) = _) as Hall
      by (rewrite R2; unfold parse_args; rewrite Hp; exact Hrun).
    rewrite (callTool_of_run h world timer_after _ args _ _ _ Hall Htimer). reflexivity.
  - split; [exact Hlen|]. split; [exact Hlong|exact Hshort].
Qed.

(** C6 on the sample page: a README of 4001 characters is cut to 4000 and
    marked, and that is the text of the answer. *)
Lemma fetchPackageContent_body_capped_witness :
  String.length (trim (cheerio_text Sample.host Sample.long_page "#readme")) = 4001%nat /\
  surfaced (callTool Sample.host (Sample.world JNull Sample.long_page JNull) 9
              "fetch_package_content"
              (JObj [("url", JStr "https://www.npmjs.com/package/left-pad")])) =
    [Ok (text_result
           ("README:" ++ nl ++ Sample.replicate 4000 "x"%char ++ "..." ++ nl ++
            "[README content truncated]"))] /\
  exists head,
    String.length head = 4000%nat /\
    String.prefix head (trim (cheerio_text Sample.host Sample.long_page "#readme")) = true /\
    capped (trim (cheerio_text Sample.host Sample.long_page "#readme")) =
    head ++ "..." ++ nl ++ "[README content truncated]".
Proof.
  destruct (fetchPackageContent_body_capped Sample.host
              (Sample.world JNull Sample.long_page JNull) 9
              (JObj [("url", JStr "https://www.npmjs.com/package/left-pad")])
              [("url", JStr "https://www.npmjs.com/package/left-pad")]
              {| ok := true; status := 200 |} Sample.long_page)
    as (_ & Hsurfaced & _ & Hlong & _).
  - reflexivity.
  - reflexivity.
  - intros url options timeoutMs. reflexivity.
  - reflexivity.
  - intros url. reflexivity.
  - lia.
  - split; [vm_compute; reflexivity|]. split.
    + rewrite Hsurfaced. vm_compute. reflexivity.
    + apply Hlong. vm_compute. lia.
Defined.





(** C7. For a search response whose [objects] is a non-empty array of
    well-formed hits (a [package] with a [name] and a [version] string;
    description, author's name, maintenance and date primitives where
    present) and whose [total] is a safe integer: [searchPackages]
    returns one record per hit with [totalResults] the upstream total; the
    formatted text is [Found <total> packages (showing <number of
    hits>):], an empty line, and then one entry per hit, in order, each
    beginning with the line [<emoji> <name>@<version>]; and that text is
    the answer of [search_npm] when the registry sends this response.
    With total 42 and 3 hits the first line reads [Found 42 packages
    (showing 3):]. *)
Theorem search_reports_total_and_shown
    (h : Host) (response : Props) (objects : list JsValue) (total : Z) :
  field "objects" response = JArr objects ->
  field "total" response = JNum total ->
  safe_integer total = true ->
  objects <> [] ->
  forallb wf_search_object objects = true ->
  exists entries,
    NpmSearcher.searchPackages_shape h (JObj response) =
      Ok {| NpmSearcher.packages := map (info_of h) objects;
            NpmSearcher.totalResults := JNum total |} /\
    List.length entries = List.length objects /\
    Forall2 (fun obj entry => exists rest, entry = entry_heading obj ++ rest)
            objects entries /\
    NpmSearcher.formatSearchResults
      {| NpmSearcher.packages := map (info_of h) objects;
         NpmSearcher.totalResults := JNum total |} =
      Ok ("Found " ++ Number_toString total ++ " packages (showing " ++
          Number_toString (Z.of_nat (List.length objects)) ++ "):" ++ nl ++ nl ++
          concat_all entries) /\
    (forall (world : Oracle) timer_after args parsed (reply : Response),
        Zod.safeParse h Zod.SearchNpmSchema args = Some parsed ->
        world 0%nat acquire = Some tt ->
        (forall url options timeoutMs,
            world 1%nat (fetch url options timeoutMs) = Some (Ok reply)) ->
        ok reply = true ->
        (forall url, world 2%nat (response_json url) = Some (Ok (JObj response))) ->
        (3 <= timer_after)%nat ->
        surfaced (callTool h world timer_after "search_npm" args) =
        [Ok (text_result
               ("Found " ++ Number_toString total ++ " packages (showing " ++
                Number_toString (Z.of_nat (List.length objects)) ++ "):" ++ nl ++ nl ++
                concat_all entries))]).
Proof.
  intros Hobjects Htotal _ Hne Hwf.
  destruct (searchPackages_shape_formats h response objects total Hobjects Htotal Hne Hwf)
    as (entries & Hshape & Hlen & Hall & Hformat).
  exists entries.
  split; [exact Hshape|]. split; [exact Hlen|]. split; [exact Hall|].
  split; [exact Hformat|].
  intros world timer_after args parsed reply Hp Hacq Hfetch Hok Hjson Htimer.
  destruct (parsed_string h Zod.SearchNpmSchema args parsed "query") as [q Hq];
    [simpl; solve_NoDup|left; simpl; tauto|exact Hp|].
  destruct (parsed_maxResults h args parsed Hp) as (size & Hsize & _).
  destruct (resultPromise_registry_tools h args) as (R1 & _).
  assert (exists tr,
             exec world 0 (NpmSearcher.searchPackages h parsed) =
             mkRun tr 3
               (Some (Ok {| NpmSearcher.packages := map (info_of h) objects;
                            NpmSearcher.totalResults := JNum total |})))
    as [tr Hrun].
  { unfold NpmSearcher.searchPackages. rewrite Hq, Hsize.
    reach_body Hacq Hfetch Hok. rewrite Hjson. run_handler. rewrite Hshape.
    eexists. reflexivity. }
  assert (exec world 0 (resultPromise h "search_npm" args) =
          mkRun tr 3
            (Some (Ok (text_result
                         ("Found " ++ Number_toString total ++ " packages (showing " ++
                          Number_toString (Z.of_nat (List.length objects)) ++ "):" ++
                          nl ++ nl ++ concat_all entries))))) as Hrun'.
  { rewrite R1. unfold parse_args. rewrite Hp. cbn [Prog_bind].
    rewrite exec_bind, Hrun. cbn [outcome trace awaits].
    rewrite Hformat. cbn [lift Prog_bind exec trace awaits outcome].
    rewrite app_nil_r. reflexivity. }
  rewrite (callTool_of_run h world timer_after _ args _ _ _ Hrun' Htimer). reflexivity.
Qed.

(** C7 on the sample response: total 42, three hits. *)
Lemma search_reports_total_and_shown_witness :
  forallb wf_search_object Sample.search_hits = true /\
  NpmSearcher.formatSearchResults
    {| NpmSearcher.packages := map (info_of Sample.host) Sample.search_hits;
       NpmSearcher.totalResults := JNum 42 |} =
  Ok ("Found 42 packages (showing 3):" ++ nl ++ nl ++
      NpmSearcher.package_emoji ++ " left-pad@1.3.0" ++ nl ++
      "   Description: String left pad" ++ nl ++
      "   Author: azer" ++ nl ++ nl ++
      NpmSearcher.package_emoji ++ " pad@3.2.0" ++ nl ++ nl ++
      NpmSearcher.package_emoji ++ " pad-left@2.1.0" ++ nl ++ nl) /\
  surfaced (callTool Sample.host
              (Sample.world (JObj Sample.search_response) EmptyString JNull) 9
              "search_npm" (JObj [("query", JStr "pad")])) =
  [Ok (text_result
         ("Found 42 packages (showing 3):" ++ nl ++ nl ++
          NpmSearcher.package_emoji ++ " left-pad@1.3.0" ++ nl ++
          "   Description: String left pad" ++ nl ++
          "   Author: azer" ++ nl ++ nl ++
          NpmSearcher.package_emoji ++ " pad@3.2.0" ++ nl ++ nl ++
          NpmSearcher.package_emoji ++ " pad-left@2.1.0" ++ nl ++ nl))] /\
  exists entries,
    List.length entries = 3%nat /\
    Forall2 (fun obj entry => exists rest, entry = entry_heading obj ++ rest)
            Sample.search_hits entries /\
    NpmSearcher.formatSearchResults
      {| NpmSearcher.packages := map (info_of Sample.host) Sample.search_hits;
         NpmSearcher.totalResults := JNum 42 |} =
      Ok ("Found " ++ Number_toString 42 ++ " packages (showing " ++
          Number_toString 3 ++ "):" ++ nl ++ nl ++ concat_all entries).
Proof.
  destruct (search_reports_total_and_shown Sample.host Sample.search_response
              Sample.search_hits 42)
    as (entries & _ & Hlen & Hall & Hformat & Hanswer).
  - reflexivity.
  - reflexivity.
  - reflexivity.
  - discriminate.
  - reflexivity.
  - split; [reflexivity|]. split; [vm_compute; reflexivity|]. split.
    + vm_compute. reflexivity.
    + exists entries. split; [exact Hlen|]. split; [exact Hall|exact Hformat].
Defined.

(* ===================================================================== *)
(** * The request of search_npm *)
(* ===================================================================== *)

(** X7. In a [search_npm] invocation with valid arguments, whatever the
    outside world answers, every request that is made goes to
    [<registry>/-/v1/search?text=<encodeURIComponent(query)>&size=<size>]
    with the [User-Agent] header and under a deadline of 15 s; the size is
    10 when [maxResults] is left out, the digits of [maxResults] when it
    is a safe integer, and the text JavaScript prints for it when it is
    another number. *)
Theorem search_npm_request h (world : Oracle) timer_after input parsed :
  Zod.safeParse h Zod.SearchNpmSchema (JObj input) = Some parsed ->
  exists q size,
    field "query" input = JStr q /\
    (field "maxResults" input = JUndefined -> size = "10") /\
    (forall n, field "maxResults" input = JNum n -> safe_integer n = true ->
               size = Number_toString n) /\
    (forall repr, field "maxResults" input = JFrac repr -> size = repr) /\
    Forall (search_request h q size)
           (calls (observed (callTool h world timer_after "search_npm" (JObj input)))).
Proof.
  intros Hp.
  destruct (parsed_string h Zod.SearchNpmSchema (JObj input) parsed "query") as [q Hq];
    [simpl; solve_NoDup|left; simpl; tauto|exact Hp|].
  assert (exists size,
             ToString (field "maxResults" parsed) = Ok size /\
             (field "maxResults" input = JUndefined -> size = "10") /\
             (forall n, field "maxResults" input = JNum n -> size = Number_toString n) /\
             (forall repr, field "maxResults" input = JFrac repr -> size = repr))
    as (size & Hsize & Habsent & Hgiven & Hfrac).
  { destruct (safeParse_lookup h Zod.SearchNpmSchema (JObj input) parsed "maxResults"
                (Zod.z_default (Zod.z_optional Zod.z_number) (JNum 10)))
      as (input' & Heq & Hv); [simpl; solve_NoDup|simpl; tauto|exact Hp|].
    injection Heq as <-. simpl in Hv.
    destruct (field "maxResults" input) as [| | |n|r| | | |] eqn:Hm; simpl in Hv;
      try discriminate; injection Hv as <-; eexists; (split; [reflexivity|]);
      (split; [intros H|split; [intros n' H|intros r' H]]);
      try discriminate; try reflexivity.
    - injection H as <-. reflexivity.
    - injection H as <-. reflexivity. }
  exists q, size.
  split; [|split; [exact Habsent|split; [intros n Hn _; exact (Hgiven n Hn)|split;
                                         [exact Hfrac|]]]].
  - destruct (safeParse_lookup h Zod.SearchNpmSchema (JObj input) parsed "query" Zod.z_string)
      as (input' & Heq & Hv); [simpl; solve_NoDup|simpl; tauto|exact Hp|].
    injection Heq as <-. simpl in Hv. rewrite Hq in Hv.
    destruct (field "query" input); try discriminate.
    simpl in Hv. injection Hv as ->. reflexivity.
  - unfold callTool. cbn [observed]. apply every_call_trace.
    destruct (resultPromise_registry_tools h (JObj input)) as (-> & _).
    unfold parse_args. rewrite Hp. cbn [Prog_bind].
    apply every_call_bind_silent; [|solve_silent].
    unfold NpmSearcher.searchPackages. rewrite Hq, Hsize.
    step_calls ltac:(fail).
Qed.

(** [search_npm_request] on a query without [maxResults]: the one request
    made asks for 10 results. *)
Lemma search_npm_request_witness :
  calls (observed (callTool Sample.host (Sample.world JNull EmptyString JNull) 5
                     "search_npm" (JObj [("query", JStr "pad")]))) =
    [acquire;
     fetch "https://registry.npmjs.org/-/v1/search?text=pad&size=10"
       [("headers", NpmSearcher.HEADERS)] 15000;
     response_json "https://registry.npmjs.org/-/v1/search?text=pad&size=10"] /\
  exists q size,
    field "query" [("query", JStr "pad")] = JStr q /\
    (field "maxResults" [("query", JStr "pad")] = JUndefined -> size = "10") /\
    (forall n, field "maxResults" [("query", JStr "pad")] = JNum n ->
               safe_integer n = true -> size = Number_toString n) /\
    (forall repr, field "maxResults" [("query", JStr "pad")] = JFrac repr ->
                  size = repr) /\
    Forall (search_request Sample.host q size)
           (calls (observed (callTool Sample.host (Sample.world JNull EmptyString JNull) 5
                               "search_npm" (JObj [("query", JStr "pad")])))).
Proof.
  split; [vm_compute; reflexivity|].
  apply (search_npm_request Sample.host (Sample.world JNull EmptyString JNull) 5
           [("query", JStr "pad")]
           [("query", JStr "pad"); ("maxResults", JNum 10)]).
  reflexivity.
Defined.

(* ===================================================================== *)
(** * The timers of the RateLimiter stop being armed anew *)
(* ===================================================================== *)

Section RateLimiterLiveness.
Import RateLimiter.
Local Open Scope list_scope.

Lemma length_filter_remove_nth {A} (f : A -> bool) (l : list A) : forall i x,
  nth_error l i = Some x ->
  (List.length (filter f (remove_nth i l)) + (if f x then 1 else 0) =
   List.length (filter f l))%nat.
Proof.
  induction l as [|y tl IH]; intros i x Hi.
  - destruct i; discriminate.
  - destruct i as [|i]; simpl in *.
    + injection Hi as ->. destruct (f x); simpl; lia.
    + specialize (IH i x Hi). destruct (f y); simpl; lia.
Qed.

Lemma length_filter_le {A} (f : A -> bool) (l : list A) :
  (List.length (filter f l) <= List.length l)%nat.
Proof. induction l as [|x tl IH]; simpl; [lia|]. destruct (f x); simpl; lia. Qed.

(** A timer callback that runs on time either resolves the caller at the
    head of the queue or replaces a stale timer by one that is not. *)
Lemma fire_effort w now i w' :
  List.length (timers w) = List.length (queue (limiter w)) ->
  on_time w (Fire now i) ->
  step w (Fire now i) = Some w' ->
  (S (effort w') <= effort w)%nat.
Proof.
  intros Hb Hon Hstep. simpl in Hon, Hstep.
  destruct (nth_error (timers w) i) as [tm|] eqn:Hi; [|discriminate].
  injection Hstep as <-.
  pose proof (length_remove_nth _ i tm Hi) as Hrem.
  pose proof (length_filter_remove_nth (stale (limiter w)) _ i tm Hi) as Hstale.
  unfold processQueue. cbn [limiter timers resolved].
  destruct (queue (limiter w)) as [|next rest] eqn:Hq.
  - rewrite Hb in Hrem. discriminate.
  - cbn [List.length] in Hb.
    destruct (Qle_bool (rateLimit (limiter w))
                (inject_Z (now - lastRequestTime (limiter w)))) eqn:Hle.
    + unfold effort. cbn [limiter timers queue]. rewrite Hq. cbn [List.length triangle].
      pose proof (length_filter_le
                    (stale {| rateLimit := rateLimit (limiter w); queue := rest;
                              lastRequestTime := now |})
                    (remove_nth i (timers w))) as Hle'.
      lia.
    + unfold effort. cbn [limiter timers queue]. rewrite Hq.
      rewrite filter_app, length_app. cbn [filter].
      assert (stale (limiter w) tm = true) as Htm.
      { unfold stale. apply negb_true_iff. apply not_true_iff_false. intros Hfresh.
        apply Qle_bool_iff in Hfresh.
        apply not_true_iff_false in Hle. apply Hle. apply Qle_bool_iff.
        unfold Z.sub. rewrite inject_Z_plus, inject_Z_opp.
        apply (Qplus_le_l _ _ (inject_Z (lastRequestTime (limiter w)))).
        ring_simplify.
        rewrite Qplus_comm.
        eapply Qle_trans; [exact Hfresh|exact Hon]. }
      assert (stale (limiter w)
                {| set_at := now;
                   delay := rateLimit (limiter w) -
                            inject_Z (now - lastRequestTime (limiter w)) |} = false)
        as Hnew.
      { unfold stale, due_time. cbn [set_at delay]. apply negb_false_iff.
        apply Qle_bool_iff. unfold Z.sub. rewrite inject_Z_plus, inject_Z_opp.
        ring_simplify. apply Qle_refl. }
      rewrite Hnew, Htm in *. cbn [List.length]. lia.
Qed.

Lemma fires_effort : forall evs w w',
  List.length (timers w) = List.length (queue (limiter w)) ->
  forallb is_Fire evs = true ->
  punctual evs w ->
  run evs w = Some w' ->
  (List.length evs + effort w' <= effort w)%nat /\
  List.length (timers w') = List.length (queue (limiter w')).
Proof.
  induction evs as [|e tl IH]; intros w w' Hb Hfire Hp Hrun; simpl in Hrun.
  - injection Hrun as <-. simpl. split; [lia|exact Hb].
  - simpl in Hfire. apply andb_prop in Hfire as [He Htl].
    destruct e as [now r|now i]; [discriminate He|].
    destruct Hp as [Hon Hp].
    destruct (step w (Fire now i)) as [w1|] eqn:Hstep; [|discriminate].
    pose proof (fire_effort w now i w1 Hb Hon Hstep) as Hless.
    pose proof (step_balance w (Fire now i) w1 Hb Hstep) as Hb1.
    destruct (IH w1 w' Hb1 Htl Hp Hrun) as [Hrest Hb'].
    split; [simpl; lia|exact Hb'].
Qed.

Lemma run_balance : forall evs w w',
  List.length (timers w) = List.length (queue (limiter w)) ->
  run evs w = Some w' ->
  List.length (timers w') = List.length (queue (limiter w')).
Proof.
  induction evs as [|e tl IH]; intros w w' Hb Hrun; simpl in Hrun.
  - injection Hrun as <-. exact Hb.
  - destruct (step w e) as [w1|] eqn:Hstep; [|discriminate].
    apply (IH w1 w'); [|exact Hrun]. apply (step_balance w e w1 Hb Hstep).
Qed.

Lemma acquired_fires evs : forallb is_Fire evs = true -> acquired evs = [].
Proof.
  induction evs as [|[now r|now i] tl IH]; simpl; intros H;
    [reflexivity|discriminate|auto].
Qed.

(** X1. From any state the limiter can reach, with [q] callers queued:
    as long as no new caller comes and every timer callback runs no
    earlier than its timer is due (however late, and in whatever order),
    at most [q (q + 3) / 2] callbacks run in all, so the timers cannot go
    on being armed anew; the callers are resolved in the order they
    queued; and once no timer is pending nobody is left waiting. *)
Theorem timers_stop_rearming
    (requestsPerSecond : Q) (before evs : list event) (w w' : World) :
  run before (init requestsPerSecond) = Some w ->
  forallb is_Fire evs = true ->
  punctual evs w ->
  run evs w = Some w' ->
  let q := List.length (queue (limiter w)) in
  (List.length evs <= triangle q + q)%nat /\
  map fst (resolved w') ++ queue (limiter w') =
    map fst (resolved w) ++ queue (limiter w) /\
  (timers w' = [] -> queue (limiter w') = []).
Proof.
  intros Hreach Hfire Hp Hrun q.
  assert (List.length (timers w) = List.length (queue (limiter w))) as Hb
    by (apply (run_balance before (init requestsPerSecond) w); [reflexivity|exact Hreach]).
  destruct (fires_effort evs w w' Hb Hfire Hp Hrun) as [Heffort Hb'].
  split; [|split].
  - pose proof (length_filter_le (stale (limiter w)) (timers w)) as Hle.
    unfold effort in Heffort. unfold q. lia.
  - pose proof (run_Inv _ before [] _ _ (init_Inv requestsPerSecond) Hreach) as HI.
    pose proof (run_Inv _ evs _ _ _ HI Hrun) as [_ Hfifo' _ _].
    destruct HI as [_ Hfifo _ _].
    rewrite (acquired_fires evs Hfire), app_nil_r in Hfifo'.
    rewrite Hfifo, Hfifo'. reflexivity.
  - intros Hnone. rewrite Hnone in Hb'. simpl in Hb'.
    symmetry in Hb'. apply length_zero_iff_nil in Hb'. exact Hb'.
Qed.

End RateLimiterLiveness.

(** [timers_stop_rearming] on the four callers of the sample, whose
    callbacks run late: after the four calls three callers are queued, six
    callbacks run, 1, 2 and 2 ms after they are due, and the three callers
    are resolved in order, at 1501, 2003 and 2505. *)
Lemma timers_stop_rearming_witness :
  RateLimiter.run (firstn 4 Sample.burst_events) (RateLimiter.init 2) = Some burst_queued /\
  RateLimiter.queue (RateLimiter.limiter burst_queued) = [1%nat; 2%nat; 3%nat] /\
  punctual late_callbacks burst_queued /\
  RateLimiter.run late_callbacks burst_queued = Some burst_late /\
  RateLimiter.resolved burst_late =
    [(0%nat, 1000); (1%nat, 1501); (2%nat, 2003); (3%nat, 2505)] /\
  RateLimiter.timers burst_late = [] /\
  ((List.length late_callbacks <= triangle 3 + 3)%nat /\
   (map fst (RateLimiter.resolved burst_late) ++
    RateLimiter.queue (RateLimiter.limiter burst_late))%list =
   (map fst (RateLimiter.resolved burst_queued) ++
    RateLimiter.queue (RateLimiter.limiter burst_queued))%list /\
   (RateLimiter.timers burst_late = [] ->
    RateLimiter.queue (RateLimiter.limiter burst_late) = [])).
Proof.
  assert (punctual late_callbacks burst_queued) as Hp.
  { unfold late_callbacks, burst_queued, punctual, on_time, due_time.
    cbn. unfold Qle. cbn. repeat split; lia. }
  split; [vm_compute; reflexivity|]. split; [reflexivity|]. split; [exact Hp|].
  split; [vm_compute; reflexivity|]. split; [reflexivity|]. split; [reflexivity|].
  apply (timers_stop_rearming 2 (firstn 4 Sample.burst_events) late_callbacks
           burst_queued burst_late).
  - vm_compute. reflexivity.
  - reflexivity.
  - exact Hp.
  - vm_compute. reflexivity.
Defined.

(* ===================================================================== *)
(** * Runs of the model on the samples *)
(* ===================================================================== *)

(** A [search_npm] invocation from the request to the envelope. *)
Example search_npm_on_sample :
  callTool Sample.host (Sample.world (JObj Sample.search_response) EmptyString JNull) 9
    "search_npm" (JObj [("query", JStr "pad")]) =
  {| surfaced :=
       [Ok (text_result
              ("Found 42 packages (showing 3):" ++ nl ++ nl ++
               NpmSearcher.package_emoji ++ " left-pad@1.3.0" ++ nl ++
               "   Description: String left pad" ++ nl ++
               "   Author: azer" ++ nl ++ nl ++
               NpmSearcher.package_emoji ++ " pad@3.2.0" ++ nl ++ nl ++
               NpmSearcher.package_emoji ++ " pad-left@2.1.0" ++ nl ++ nl))];
     observed :=
       [Entered "NpmSearcher.searchPackages";
        Called acquire;
        Called (fetch "https://registry.npmjs.org/-/v1/search?text=pad&size=10"
                  [("headers", NpmSearcher.HEADERS)] 15000);
        Called (response_json "https://registry.npmjs.org/-/v1/search?text=pad&size=10")] |}.
Proof. vm_compute. reflexivity. Qed.

(** A hit whose maintenance score carries an own [toString]: the call of
    it fails, and the message quotes the callee as the source writes it. *)
Example search_npm_on_unprintable_score :
  surfaced
    (callTool Sample.host
       (Sample.world
          (JObj [("objects",
                  JArr [JObj [("package",
                               JObj [("name", JStr "pad"); ("version", JStr "3.2.0")]);
                              ("score",
                               JObj [("detail",
                                      JObj [("maintenance",
                                             JObj [("toString", JNum 1)])])])]]);
                 ("total", JNum 1)])
          EmptyString JNull) 9
       "search_npm" (JObj [("query", JStr "pad")])) =
  [Ok (error_envelope
         ("Error searching npm packages: " ++
          "obj.score?.detail?.maintenance?.toString is not a function"))].
Proof. vm_compute. reflexivity. Qed.

(** A hit whose date has no primitive value: [new Date] throws. *)
Example search_npm_on_date_without_primitive_value :
  surfaced
    (callTool Sample.host
       (Sample.world
          (JObj [("objects",
                  JArr [JObj [("package",
                               JObj [("name", JStr "pad"); ("version", JStr "3.2.0");
                                     ("date", JObj [("toString", JNum 1)])])]]);
                 ("total", JNum 1)])
          EmptyString JNull) 9
       "search_npm" (JObj [("query", JStr "pad")])) =
  [Ok (error_envelope
         ("Error searching npm packages: " ++
          "Cannot convert object to primitive value"))].
Proof. vm_compute. reflexivity. Qed.

(** A size that is not a safe integer is requested with the text
    JavaScript prints for it. *)
Example search_npm_with_a_huge_size :
  nth_error
    (observed
       (callTool Sample.host (Sample.world JNull EmptyString JNull) 9
          "search_npm" (JObj [("query", JStr "pad"); ("maxResults", JFrac "1e+21")])))
    2 =
  Some (Called (fetch "https://registry.npmjs.org/-/v1/search?text=pad&size=1e+21"
                  [("headers", NpmSearcher.HEADERS)] 15000)).
Proof. vm_compute. reflexivity. Qed.

(** A [get_package_versions] invocation: newest first, 12 versions. *)
Example get_package_versions_on_sample :
  surfaced
    (callTool Sample.host (Sample.world (JObj Sample.document) EmptyString JNull) 9
       "get_package_versions" (JObj [("packageName", JStr "left-pad")])) =
  [Ok (text_result
         (NpmSearcher.package_emoji ++ " left-pad" ++ nl ++
          "Available versions (newest first):" ++ nl ++
          "1.11.0, 1.10.0, 1.9.0, 1.8.0, 1.7.0, 1.6.0, 1.5.0, 1.4.0, 1.3.0, 1.2.0, 1.1.0, 1.0.0"))].
Proof. vm_compute. reflexivity. Qed.

(** Arguments that fail the schema are answered with [InvalidParams]
    before any handler is entered. *)
Example filter_updates_without_filter :
  callTool Sample.host Sample.world_ncu_hangs 0 "filter_updates" (JObj []) =
  {| surfaced := [Throw invalid_arguments]; observed := [] |}.
Proof. vm_compute. reflexivity. Qed.
